(** * ai-text-tool: a shallow embedding of [main.go]

    The program is an HTTP server with six POST endpoints.  Every endpoint
    decodes a JSON body, builds a prompt, performs one outbound
    chat-completion call ([callLLM]) and shapes the reply.

    The file has three layers:
    - [Utf8] and [Json]: the parts of Go's [unicode/utf8] and
      [encoding/json] the program relies on (scanner, string unquoting,
      decoding into the program's struct types, encoding);
    - [Http]: requests, responses, [http.Error], the server mux;
    - [App]: the handlers and [callLLM] of [main.go], written in a small
      effect monad that records outbound calls and log lines. *)

From Stdlib Require Import String Ascii List ZArith NArith Bool Lia.
From Stdlib Require Import DecimalString.
Import ListNotations.

Local Open Scope list_scope.
Local Open Scope string_scope.

(** ** Bytes *)

(** Go strings are byte sequences; they are modelled as [string], a list of
    [ascii] bytes.  A string literal of this file holds the UTF-8 bytes of
    its text, as a Go string literal does. *)

Definition byte_of (c : ascii) : N := N_of_ascii c.
Definition of_byte (n : N) : ascii := ascii_of_N n.

Definition dquote : ascii := "034"%char.
Definition newline : ascii := "010"%char.
Definition backslash : ascii := "\"%char.

Definition quoted (s : string) : string :=
  String dquote (s ++ String dquote "").

Definition between (lo hi : N) (c : ascii) : bool :=
  (N.leb lo (byte_of c) && N.leb (byte_of c) hi)%bool.

Definition is_digit (c : ascii) : bool := between 48 57 c.
Definition is_digit19 (c : ascii) : bool := between 49 57 c.

Definition is_hex (c : ascii) : bool :=
  (between 48 57 c || between 97 102 c || between 65 70 c)%bool.

(** [isSpace] of scanner.go. *)
Definition isSpace (c : ascii) : bool :=
  match c with
  | " "%char | "009"%char | "013"%char | "010"%char => true
  | _ => false
  end.

Fixpoint rev_append_string (acc : list ascii) (tail : string) : string :=
  match acc with
  | [] => tail
  | c :: acc' => rev_append_string acc' (String c tail)
  end.

(** The bytes of a reversed accumulator, in order. *)
Definition string_of_rev (acc : list ascii) : string := rev_append_string acc "".

Fixpoint all_bytes (p : ascii -> bool) (s : string) : bool :=
  match s with
  | "" => true
  | String c s' => (p c && all_bytes p s')%bool
  end.

(** [strings.Contains s sub]. *)
Fixpoint contains (s sub : string) : bool :=
  (prefix sub s ||
   match s with
   | "" => false
   | String _ s' => contains s' sub
   end)%bool.

(** ** unicode/utf8 *)

Module Utf8.

Definition RuneError : N := 65533.   (* U+FFFD *)

Definition cont (c : ascii) : bool := between 128 191 c.

(** [DecodeRune]: the number of bytes of the well-formed encoding at the
    head of [s]; [0] when the head is not one ([RuneError] of width 1,
    or the empty input).  The second byte is range-checked against the
    lead byte as the [acceptRanges] table of utf8.go does. *)
Definition rune_len (s : string) : nat :=
  match s with
  | "" => 0
  | String b0 s1 =>
    let n0 := byte_of b0 in
    if N.ltb n0 128 then 1
    else if between 194 223 b0 then
      match s1 with
      | String b1 _ => if cont b1 then 2 else 0
      | _ => 0
      end
    else if between 224 239 b0 then
      match s1 with
      | String b1 (String b2 _) =>
        let lo := if N.eqb n0 224 then 160%N else 128%N in
        let hi := if N.eqb n0 237 then 159%N else 191%N in
        if (between lo hi b1 && cont b2)%bool then 3 else 0
      | _ => 0
      end
    else if between 240 244 b0 then
      match s1 with
      | String b1 (String b2 (String b3 _)) =>
        let lo := if N.eqb n0 240 then 144%N else 128%N in
        let hi := if N.eqb n0 244 then 143%N else 191%N in
        if (between lo hi b1 && cont b2 && cont b3)%bool then 4 else 0
      | _ => 0
      end
    else 0
  end.

(** The code point of a well-formed three-byte encoding at the head of
    [s] (the only width at which the encoder singles runes out). *)
Definition rune3 (s : string) : option N :=
  match rune_len s, s with
  | 3, String b0 (String b1 (String b2 _)) =>
    Some (N.lor (N.shiftl (N.land (byte_of b0) 15) 12)
          (N.lor (N.shiftl (N.land (byte_of b1) 63) 6)
                 (N.land (byte_of b2) 63)))
  | _, _ => None
  end.

Definition tail_byte (r : N) (shift : N) : ascii :=
  of_byte (N.lor 128 (N.land (N.shiftr r shift) 63)).

(** [EncodeRune] (as [AppendRune]): surrogates and values above
    U+10FFFF are written as [RuneError]. *)
Definition EncodeRune (r : N) : string :=
  if N.ltb r 128 then String (of_byte r) ""
  else if N.ltb r 2048 then
    String (of_byte (N.lor 192 (N.shiftr r 6))) (String (tail_byte r 0) "")
  else if ((N.leb 55296 r && N.ltb r 57344) || N.ltb 1114111 r)%bool then
    String (of_byte 239) (String (of_byte 191) (String (of_byte 189) ""))
  else if N.ltb r 65536 then
    String (of_byte (N.lor 224 (N.shiftr r 12)))
      (String (tail_byte r 6) (String (tail_byte r 0) ""))
  else
    String (of_byte (N.lor 240 (N.shiftr r 18)))
      (String (tail_byte r 12)
         (String (tail_byte r 6) (String (tail_byte r 0) ""))).

(** [utf8.ValidString]: every byte of [s] belongs to a well-formed rune;
    [pending] bytes of the current rune are still to come. *)
Fixpoint valid_from (pending : nat) (s : string) : bool :=
  match s with
  | "" => true
  | String c rest =>
    match pending with
    | S k => valid_from k rest
    | 0 => match rune_len s with
           | 0 => false
           | S n => valid_from n rest
           end
    end
  end.

Definition ValidString (s : string) : bool := valid_from 0 s.

End Utf8.

(** ** encoding/json *)

(** The decoder and the encoder as of Go 1.22: a member key selects a
    field by [foldName], the encoder writes [\b] and [\f] for the bytes 8
    and 12 and escapes [<], [>], [&], U+2028 and U+2029.  Positions and
    messages of errors are not kept. *)

Module Json.

(** *** Values *)

(** A scanned JSON text.  Numbers keep their literal; object members stay
    in document order with their duplicates, because the decoder visits
    them in that order. *)
#[warnings="-register-all"]
Inductive value : Type :=
| JNull
| JBool (b : bool)
| JNumber (lit : string)
| JString (s : string)
| JArray (items : list value)
| JObject (members : list (string * value)).

(** The errors [Unmarshal] and [Decoder.Decode] return. *)
Inductive error : Type :=
| EOF                  (* io.EOF: the stream holds no value *)
| UnexpectedEOF        (* io.ErrUnexpectedEOF: the stream ends inside a value *)
| SyntaxError          (* *json.SyntaxError *)
| UnmarshalTypeError.  (* *json.UnmarshalTypeError *)

(** *** String literals: [unquoteBytes] of decode.go *)

Definition hex_val (c : ascii) : N :=
  if between 48 57 c then byte_of c - 48
  else if between 97 102 c then byte_of c - 87
  else byte_of c - 55.

(** [getu4]: the value of a [\uXXXX] escape at the head of [s]. *)
Definition getu4 (s : string) : option N :=
  match s with
  | String b (String u (String h1 (String h2 (String h3 (String h4 _))))) =>
    if (Ascii.eqb b backslash && Ascii.eqb u "u"
        && is_hex h1 && is_hex h2 && is_hex h3 && is_hex h4)%bool
    then Some (hex_val h1 * 4096 + hex_val h2 * 256 + hex_val h3 * 16 + hex_val h4)%N
    else None
  | _ => None
  end.

(** [utf16.IsSurrogate]. *)
Definition is_surrogate (r : N) : bool := (N.leb 55296 r && N.ltb r 57344)%bool.

(** [utf16.DecodeRune]: [None] stands for the replacement character. *)
Definition utf16_DecodeRune (r1 r2 : N) : option N :=
  if (N.leb 55296 r1 && N.ltb r1 56320 && N.leb 56320 r2 && N.ltb r2 57344)%bool
  then Some (N.lor (N.shiftl (r1 - 55296) 10) (r2 - 56320) + 65536)%N
  else None.

Definition unescape (c : ascii) : ascii :=
  match c with
  | "b"%char => "008"%char
  | "f"%char => "012"%char
  | "n"%char => "010"%char
  | "r"%char => "013"%char
  | "t"%char => "009"%char
  | _ => c                      (* the quote, the backslash, the slash *)
  end.

(** Where a byte-by-byte pass over a string stands. *)
Inductive mode : Type :=
| Plain               (* at the start of a character *)
| Skip (n : nat)      (* inside a sequence already translated: drop [n] bytes *)
| Copy (n : nat).     (* inside a well-formed rune: copy [n] bytes *)

(** The body of a literal (the bytes between its quotes, already accepted
    by the scanner) to the string it denotes: escapes are replaced, a
    surrogate pair becomes one rune, an unpaired surrogate and every byte
    that is not well-formed UTF-8 become U+FFFD. *)
Fixpoint unquote_from (m : mode) (s : string) : string :=
  match s with
  | "" => ""
  | String c rest =>
    match m with
    | Skip (S k) => unquote_from (Skip k) rest
    | Copy (S k) => String c (unquote_from (Copy k) rest)
    | _ =>
      if Ascii.eqb c backslash then
        match rest with
        | "" => ""
        | String e _ =>
          if Ascii.eqb e "u" then
            match getu4 s with
            | None => ""
            | Some rr =>
              if is_surrogate rr then
                match getu4 (substring 6 6 s) with
                | Some rr1 =>
                  match utf16_DecodeRune rr rr1 with
                  | Some dec => Utf8.EncodeRune dec ++ unquote_from (Skip 11) rest
                  | None => Utf8.EncodeRune Utf8.RuneError ++ unquote_from (Skip 5) rest
                  end
                | None => Utf8.EncodeRune Utf8.RuneError ++ unquote_from (Skip 5) rest
                end
              else Utf8.EncodeRune rr ++ unquote_from (Skip 5) rest
            end
          else String (unescape e) (unquote_from (Skip 1) rest)
        end
      else if N.ltb (byte_of c) 128 then String c (unquote_from Plain rest)
      else
        match Utf8.rune_len s with
        | 0 => Utf8.EncodeRune Utf8.RuneError ++ unquote_from Plain rest
        | S n => String c (unquote_from (Copy n) rest)
        end
    end
  end.

Definition unquote (body : string) : string := unquote_from Plain body.

(** *** The scanner (scanner.go), building the value as it goes *)

(** [parseState]: one frame per open array or object.  A frame also holds
    what has been read of its container, most recent first. *)
Inductive frame : Type :=
| parseArrayValue (elems : list value)
| parseObjectKey (members : list (string * value))
| parseObjectValue (members : list (string * value)) (key : string).

(** The [step] functions of the scanner. *)
Inductive state : Type :=
| stateBeginValue
| stateBeginValueOrEmpty
| stateBeginStringOrEmpty
| stateBeginString
| stateEndValue
| stateAfterKey                               (* stateEndValue on top of parseObjectKey *)
| stateInString (body : list ascii)
| stateInStringEsc (body : list ascii)
| stateInStringEscU (seen : nat) (body : list ascii)
| stateNeg (lit : list ascii)
| state1 (lit : list ascii)
| state0 (lit : list ascii)
| stateDot (lit : list ascii)
| stateDot0 (lit : list ascii)
| stateE (lit : list ascii)
| stateESign (lit : list ascii)
| stateE0 (lit : list ascii)
| stateLiteral (expect : string) (v : value).  (* stateT..stateNul *)

Inductive verdict : Type :=
| scanContinue (st : state) (stack : list frame)
| scanEnd (v : value) (consumed : bool)   (* the top-level value is complete *)
| scanError.

Definition maxNestingDepth : N := 10000.

(** [pushParseState]. *)
Definition pushParseState (f : frame) (stack : list frame) (st : state) : verdict :=
  if N.leb (N.of_nat (length (f :: stack))) maxNestingDepth
  then scanContinue st (f :: stack)
  else scanError.

(** A value is complete: hand it to the enclosing container. *)
Definition deliver (v : value) (stack : list frame) : verdict :=
  match stack with
  | [] => scanEnd v true
  | parseArrayValue es :: up => scanContinue stateEndValue (parseArrayValue (v :: es) :: up)
  | parseObjectKey ms :: up =>
    match v with
    | JString k => scanContinue stateAfterKey (parseObjectValue ms k :: up)
    | _ => scanError
    end
  | parseObjectValue ms k :: up =>
    scanContinue stateEndValue (parseObjectKey ((k, v) :: ms) :: up)
  end.

Definition end_value (stack : list frame) (c : ascii) : verdict :=
  if isSpace c then scanContinue stateEndValue stack
  else
    match stack with
    | parseArrayValue es :: up =>
      if Ascii.eqb c "," then scanContinue stateBeginValue stack
      else if Ascii.eqb c "]" then deliver (JArray (rev es)) up
      else scanError
    | parseObjectKey ms :: up =>
      if Ascii.eqb c "," then scanContinue stateBeginString stack
      else if Ascii.eqb c "}" then deliver (JObject (rev ms)) up
      else scanError
    | _ => scanError
    end.

Definition begin_string (stack : list frame) (c : ascii) : verdict :=
  if isSpace c then scanContinue stateBeginString stack
  else if Ascii.eqb c dquote then scanContinue (stateInString []) stack
  else scanError.

Definition begin_value (stack : list frame) (c : ascii) : verdict :=
  if isSpace c then scanContinue stateBeginValue stack
  else if Ascii.eqb c "{" then pushParseState (parseObjectKey []) stack stateBeginStringOrEmpty
  else if Ascii.eqb c "[" then pushParseState (parseArrayValue []) stack stateBeginValueOrEmpty
  else if Ascii.eqb c dquote then scanContinue (stateInString []) stack
  else if Ascii.eqb c "-" then scanContinue (stateNeg [c]) stack
  else if Ascii.eqb c "0" then scanContinue (state0 [c]) stack
  else if is_digit19 c then scanContinue (state1 [c]) stack
  else if Ascii.eqb c "t" then scanContinue (stateLiteral "rue" (JBool true)) stack
  else if Ascii.eqb c "f" then scanContinue (stateLiteral "alse" (JBool false)) stack
  else if Ascii.eqb c "n" then scanContinue (stateLiteral "ull" JNull) stack
  else scanError.

(** A number ends at the first byte [c] that cannot continue it; [c] is
    then read as what follows a value. *)
Definition end_number (lit : list ascii) (stack : list frame) (c : ascii) : verdict :=
  match deliver (JNumber (string_of_rev lit)) stack with
  | scanEnd v _ => scanEnd v false
  | scanContinue _ stack' => end_value stack' c
  | scanError => scanError
  end.

Definition is_exp (c : ascii) : bool := (Ascii.eqb c "e" || Ascii.eqb c "E")%bool.

Definition step (st : state) (stack : list frame) (c : ascii) : verdict :=
  match st with
  | stateBeginValue => begin_value stack c
  | stateBeginValueOrEmpty =>
    if isSpace c then scanContinue stateBeginValueOrEmpty stack
    else if Ascii.eqb c "]" then end_value stack c
    else begin_value stack c
  | stateBeginStringOrEmpty =>
    if isSpace c then scanContinue stateBeginStringOrEmpty stack
    else if Ascii.eqb c "}" then end_value stack c
    else begin_string stack c
  | stateBeginString => begin_string stack c
  | stateEndValue => end_value stack c
  | stateAfterKey =>
    if isSpace c then scanContinue stateAfterKey stack
    else if Ascii.eqb c ":" then scanContinue stateBeginValue stack
    else scanError
  | stateInString body =>
    if Ascii.eqb c dquote then deliver (JString (unquote (string_of_rev body))) stack
    else if Ascii.eqb c backslash then scanContinue (stateInStringEsc (c :: body)) stack
    else if N.ltb (byte_of c) 32 then scanError
    else scanContinue (stateInString (c :: body)) stack
  | stateInStringEsc body =>
    match c with
    | "b"%char | "f"%char | "n"%char | "r"%char | "t"%char
    | "\"%char | "/"%char | "034"%char => scanContinue (stateInString (c :: body)) stack
    | "u"%char => scanContinue (stateInStringEscU 0 (c :: body)) stack
    | _ => scanError
    end
  | stateInStringEscU seen body =>
    if is_hex c then
      match seen with
      | 0 | 1 | 2 => scanContinue (stateInStringEscU (S seen) (c :: body)) stack
      | _ => scanContinue (stateInString (c :: body)) stack
      end
    else scanError
  | stateNeg lit =>
    if Ascii.eqb c "0" then scanContinue (state0 (c :: lit)) stack
    else if is_digit19 c then scanContinue (state1 (c :: lit)) stack
    else scanError
  | state1 lit =>
    if is_digit c then scanContinue (state1 (c :: lit)) stack
    else if Ascii.eqb c "." then scanContinue (stateDot (c :: lit)) stack
    else if is_exp c then scanContinue (stateE (c :: lit)) stack
    else end_number lit stack c
  | state0 lit =>
    if Ascii.eqb c "." then scanContinue (stateDot (c :: lit)) stack
    else if is_exp c then scanContinue (stateE (c :: lit)) stack
    else end_number lit stack c
  | stateDot lit =>
    if is_digit c then scanContinue (stateDot0 (c :: lit)) stack else scanError
  | stateDot0 lit =>
    if is_digit c then scanContinue (stateDot0 (c :: lit)) stack
    else if is_exp c then scanContinue (stateE (c :: lit)) stack
    else end_number lit stack c
  | stateE lit =>
    if (Ascii.eqb c "+" || Ascii.eqb c "-")%bool then scanContinue (stateESign (c :: lit)) stack
    else if is_digit c then scanContinue (stateE0 (c :: lit)) stack
    else scanError
  | stateESign lit =>
    if is_digit c then scanContinue (stateE0 (c :: lit)) stack else scanError
  | stateE0 lit =>
    if is_digit c then scanContinue (stateE0 (c :: lit)) stack
    else end_number lit stack c
  | stateLiteral expect v =>
    match expect with
    | String e "" => if Ascii.eqb c e then deliver v stack else scanError
    | String e more => if Ascii.eqb c e then scanContinue (stateLiteral more v) stack else scanError
    | "" => scanError
    end
  end.

(** What scanning a text gives: its first value and the bytes after it,
    or the reason there is none. *)
Inductive scanned : Type :=
| Scanned (v : value) (rest : string)
| Failed (e : error).

(** End of input: the scanner is fed a space, which ends a number; in
    every other state the value is incomplete.  An input of nothing but
    white space is [EOF]. *)
Definition eof (st : state) (stack : list frame) (blank : bool) : scanned :=
  match step st stack " " with
  | scanEnd v _ => Scanned v ""
  | _ => Failed (if blank then EOF else UnexpectedEOF)
  end.

Fixpoint scan (st : state) (stack : list frame) (blank : bool) (s : string) : scanned :=
  match s with
  | "" => eof st stack blank
  | String c s' =>
    match step st stack c with
    | scanContinue st' stack' => scan st' stack' (blank && isSpace c) s'
    | scanEnd v consumed => Scanned v (if consumed then s' else s)
    | scanError => Failed SyntaxError
    end
  end.

(** The first value of [data]. *)
Definition first_value (data : string) : scanned :=
  scan stateBeginValue [] true data.


(** [checkValid], the first pass of [Unmarshal]: the whole of [data] is
    one value, with white space around it at most. *)
Definition checkValid (data : string) : value + error :=
  match first_value data with
  | Scanned v rest => if all_bytes isSpace rest then inl v else inr SyntaxError
  | Failed _ => inr SyntaxError
  end.

(** [Decoder.readValue] on a stream whose content is [data]: the first
    value; what follows it is left in the stream unread. *)
Definition readValue (data : string) : value + error :=
  match first_value data with
  | Scanned v _ => inl v
  | Failed e => inr e
  end.

(** *** Storing a value into a Go variable (decode.go) *)

(** A Go slice: [Nil], or a length-[elems] window on a backing array
    whose cells after the window are [spare]. *)
Inductive slice (A : Type) : Type :=
| Nil
| Slice (elems : list A) (spare : list A).
Arguments Nil {A}.
Arguments Slice {A} elems spare.

Definition elements {A} (s : slice A) : list A :=
  match s with
  | Nil => []
  | Slice es _ => es
  end.

(** [[]T{x}]: a one-element slice literal. *)
Definition singleton {A} (x : A) : slice A := Slice [x] [].

(** A store takes the scanned value and the variable's current content,
    and gives the new content and whether an [UnmarshalTypeError] was
    saved ([saveError]; decoding goes on after it). *)
Definition store (T : Type) : Type := value -> T -> T * bool.

(** [literalStore] into a [string]: [null] leaves it as it is. *)
Definition store_string : store string :=
  fun v cur =>
    match v with
    | JString s => (s, false)
    | JNull => (cur, false)
    | _ => (cur, true)
    end.

(** The elements of an array are stored into the cells of the backing
    array, cell [i] keeping what it held; a cell past the backing array
    is new and holds the zero value. *)
Fixpoint store_cells {T} (zero : T) (st : store T) (items : list value)
         (backing : list T) : list T * bool :=
  match items with
  | [] => ([], false)
  | v :: items' =>
    let cell := match backing with [] => zero | x :: _ => x end in
    let '(x, bad) := st v cell in
    let '(xs, bad') := store_cells zero st items' (tl backing) in
    (x :: xs, (bad || bad')%bool)
  end.

(** [decodeState.array] into a slice, and [null] into a slice. *)
Definition store_slice {T} (zero : T) (st : store T) : store (slice T) :=
  fun v cur =>
    match v with
    | JNull => (Nil, false)
    | JArray [] => (Slice [] [], false)
    | JArray items =>
      let backing := match cur with Nil => [] | Slice es sp => (es ++ sp)%list end in
      let '(xs, bad) := store_cells zero st items backing in
      (Slice xs (skipn (length items) backing), bad)
    | _ => (cur, true)
    end.

Definition to_upper (c : ascii) : ascii :=
  if between 97 122 c then of_byte (byte_of c - 32) else c.

(** [foldName key = name] for an upper-case ASCII [name]: ASCII letters
    fold to upper case, U+017F to [S] and U+212A to [K]; no other rune
    folds to an ASCII byte. *)
Fixpoint folds_to (key name : string) : bool :=
  match key, name with
  | "", "" => true
  | String c key', String n name' =>
    if N.ltb (byte_of c) 128 then (Ascii.eqb (to_upper c) n && folds_to key' name')%bool
    else
      match key' with
      | String c1 key'' =>
        if (N.eqb (byte_of c) 197 && N.eqb (byte_of c1) 191)%bool
        then (Ascii.eqb n "S" && folds_to key'' name')%bool
        else
          match key'' with
          | String c2 key''' =>
            if (N.eqb (byte_of c) 226 && N.eqb (byte_of c1) 132 && N.eqb (byte_of c2) 170)%bool
            then (Ascii.eqb n "K" && folds_to key''' name')%bool
            else false
          | "" => false
          end
      | "" => false
      end
  | _, _ => false
  end.

Fixpoint upper (s : string) : string :=
  match s with
  | "" => ""
  | String c s' => String (to_upper c) (upper s')
  end.

(** A member key selects the struct field whose JSON name it equals,
    exactly or under [foldName]. *)
Definition selects (key name : string) : bool :=
  (String.eqb key name || folds_to key (upper name))%bool.

(** [decodeState.object] into a struct: [field key] is the store of the
    field that [key] selects; members are stored in document order, a
    key that selects no field is skipped. *)
Definition store_struct {T} (field : string -> option (store T)) : store T :=
  fun v cur =>
    match v with
    | JNull => (cur, false)
    | JObject members =>
      fold_left
        (fun (acc : T * bool) (m : string * value) =>
           match field (fst m) with
           | Some st => let '(x, bad) := st (snd m) (fst acc) in (x, (snd acc || bad)%bool)
           | None => acc
           end)
        members (cur, false)
    | _ => (cur, true)
    end.

(** [Unmarshal(data, &x)]: the new content of [x] and the error. *)
Definition Unmarshal {T} (st : store T) (data : string) (x : T) : T * option error :=
  match checkValid data with
  | inr e => (x, Some e)
  | inl v =>
    let '(x', bad) := st v x in
    (x', if bad then Some UnmarshalTypeError else None)
  end.

(** [NewDecoder(r).Decode(&x)] where [data] is all that [r] delivers. *)
Definition Decode {T} (st : store T) (data : string) (x : T) : T * option error :=
  match readValue data with
  | inr e => (x, Some e)
  | inl v =>
    let '(x', bad) := st v x in
    (x', if bad then Some UnmarshalTypeError else None)
  end.

(** *** Encoding (encode.go) *)

Definition hex_digit (n : N) : ascii :=
  if N.ltb n 10 then of_byte (48 + n) else of_byte (87 + n).

(** [htmlSafeSet]. *)
Definition htmlSafe (c : ascii) : bool :=
  (N.leb 32 (byte_of c) && N.ltb (byte_of c) 128
   && negb (Ascii.eqb c dquote) && negb (Ascii.eqb c backslash)
   && negb (Ascii.eqb c "<") && negb (Ascii.eqb c ">") && negb (Ascii.eqb c "&"))%bool.

Definition escape_byte (c : ascii) : string :=
  match c with
  | "\"%char | "034"%char => String backslash (String c "")
  | "008"%char => String backslash "b"
  | "012"%char => String backslash "f"
  | "010"%char => String backslash "n"
  | "013"%char => String backslash "r"
  | "009"%char => String backslash "t"
  | _ => String backslash
           (String "u" (String "0" (String "0"
              (String (hex_digit (N.shiftr (byte_of c) 4))
                 (String (hex_digit (N.land (byte_of c) 15)) "")))))
  end.

(** The loop of [appendString] with [escapeHTML] set. *)
Fixpoint encode_from (m : mode) (s : string) : string :=
  match s with
  | "" => ""
  | String c rest =>
    match m with
    | Skip (S k) => encode_from (Skip k) rest
    | Copy (S k) => String c (encode_from (Copy k) rest)
    | _ =>
      if N.ltb (byte_of c) 128 then
        if htmlSafe c then String c (encode_from Plain rest)
        else escape_byte c ++ encode_from Plain rest
      else
        match Utf8.rune_len s with
        | 0 => String backslash "ufffd" ++ encode_from Plain rest
        | S n =>
          match Utf8.rune3 s with
          | Some r =>
            if (N.eqb r 8232 || N.eqb r 8233)%bool      (* U+2028, U+2029 *)
            then String backslash "u202"
                 ++ String (hex_digit (N.land r 15)) (encode_from (Skip 2) rest)
            else String c (encode_from (Copy n) rest)
          | None => String c (encode_from (Copy n) rest)
          end
        end
    end
  end.

(** A Go string as a JSON string literal. *)
Definition encode_string (s : string) : string := quoted (encode_from Plain s).

Fixpoint join (sep : string) (parts : list string) : string :=
  match parts with
  | [] => ""
  | [p] => p
  | p :: ps => p ++ sep ++ join sep ps
  end.

(** A slice: [null] when nil, else an array of its elements. *)
Definition encode_slice {A} (enc : A -> string) (s : slice A) : string :=
  match s with
  | Nil => "null"
  | Slice es _ => "[" ++ join "," (map enc es) ++ "]"
  end.

(** A struct: its fields in declaration order under their JSON names. *)
Definition encode_struct (fields : list (string * string)) : string :=
  "{" ++ join "," (map (fun f => quoted (fst f) ++ ":" ++ snd f) fields) ++ "}".

End Json.

(** ** net/http *)

Module Http.

Definition StatusOK : Z := 200.
Definition StatusBadRequest : Z := 400.
Definition StatusNotFound : Z := 404.
Definition StatusMethodNotAllowed : Z := 405.
Definition StatusInternalServerError : Z := 500.

Definition MethodGet : string := "GET".

(** A header: the last value set under each key. *)
Definition Header : Type := list (string * string).

Definition Set_ (k v : string) (h : Header) : Header :=
  (filter (fun kv => negb (String.eqb (fst kv) k)) h ++ [(k, v)])%list.

(** A request, inbound or outbound: [URL] is the path of an inbound
    request and the whole address of an outbound one; [Body] is all the
    body reader delivers. *)
Record Request : Type := {
  Method : string;
  URL : string;
  ReqHeader : Header;
  Body : string
}.

(** A response: what a handler has written to its [ResponseWriter], or
    what the client got back. *)
Record Response : Type := {
  StatusCode : Z;
  RespHeader : Header;
  RespBody : string
}.

(** [http.NewRequest]. *)
Definition NewRequest (method url body : string) : Request :=
  {| Method := method; URL := url; ReqHeader := []; Body := body |}.

Definition SetHeader (k v : string) (r : Request) : Request :=
  {| Method := Method r; URL := URL r; ReqHeader := Set_ k v (ReqHeader r); Body := Body r |}.

(** [http.Error(w, msg, code)]: a plain-text reply, the message and a
    line feed. *)
Definition Error (msg : string) (code : Z) : Response :=
  {| StatusCode := code;
     RespHeader := Set_ "X-Content-Type-Options" "nosniff"
                     (Set_ "Content-Type" "text/plain; charset=utf-8" []);
     RespBody := msg ++ String newline "" |}.

(** [http.NotFound]. *)
Definition NotFound : Response := Error "404 page not found" StatusNotFound.

(** What [http.DefaultClient.Do] gives: the response, or the cause of a
    transport failure. *)
Definition RoundTrip : Type := Response + string.

End Http.

(** ** main.go *)

Module App.

Import Http.

Definition openAIURL : string := "https://api.openai.com/v1/chat/completions".
Definition model : string := "gpt-4o-mini".

(** *** OpenAI request/response types *)

Record ChatMessage : Type := { Role : string; Content : string }.
Record ChatRequest : Type := { Model : string; Messages : Json.slice ChatMessage }.
Record ChatChoice : Type := { Message : ChatMessage }.
Record ChatResponse : Type := { Choices : Json.slice ChatChoice }.

(** *** API request/response types

    Go lets two structs share a field name; here the later ones carry
    their struct's name. *)

Record TextRequest : Type := { Text : string }.
Record RewriteRequest : Type := { RewriteRequest_Text : string; Tone : string }.
Record SummarizeResponse : Type := { Summary : string }.
Record KeywordsResponse : Type := { Keywords : Json.slice string }.
Record RewriteResponse : Type := { RewriteResponse_Text : string }.
Record QuestionsResponse : Type := { Questions : Json.slice string }.
Record TitlesResponse : Type := { Titles : Json.slice string }.
Record ExpandResponse : Type := { ExpandResponse_Text : string }.

(** *** The JSON form of these types (their [json:"..."] tags) *)

(** What [json.Marshal] and [Encoder.Encode] write for a value. *)
Class Marshal (T : Type) : Type := marshal : T -> string.

#[export] Instance Marshal_string : Marshal string := Json.encode_string.

#[export] Instance Marshal_slice {A} `{Marshal A} : Marshal (Json.slice A) :=
  Json.encode_slice marshal.

#[export] Instance Marshal_ChatMessage : Marshal ChatMessage :=
  fun m => Json.encode_struct [("role", marshal (Role m)); ("content", marshal (Content m))].

#[export] Instance Marshal_ChatRequest : Marshal ChatRequest :=
  fun r => Json.encode_struct [("model", marshal (Model r)); ("messages", marshal (Messages r))].

#[export] Instance Marshal_SummarizeResponse : Marshal SummarizeResponse :=
  fun r => Json.encode_struct [("summary", marshal (Summary r))].

#[export] Instance Marshal_KeywordsResponse : Marshal KeywordsResponse :=
  fun r => Json.encode_struct [("keywords", marshal (Keywords r))].

#[export] Instance Marshal_RewriteResponse : Marshal RewriteResponse :=
  fun r => Json.encode_struct [("text", marshal (RewriteResponse_Text r))].

#[export] Instance Marshal_QuestionsResponse : Marshal QuestionsResponse :=
  fun r => Json.encode_struct [("questions", marshal (Questions r))].

#[export] Instance Marshal_TitlesResponse : Marshal TitlesResponse :=
  fun r => Json.encode_struct [("titles", marshal (Titles r))].

#[export] Instance Marshal_ExpandResponse : Marshal ExpandResponse :=
  fun r => Json.encode_struct [("text", marshal (ExpandResponse_Text r))].

(** [map[string]string{"status": "ok"}], the one map the program encodes. *)
Record StatusMap : Type := { status : string }.

#[export] Instance Marshal_StatusMap : Marshal StatusMap :=
  fun m => Json.encode_struct [("status", marshal (status m))].

Definition store_TextRequest : Json.store TextRequest :=
  Json.store_struct (fun key =>
    if Json.selects key "text"
    then Some (fun v cur => let '(s, bad) := Json.store_string v (Text cur) in
                            ({| Text := s |}, bad))
    else None).

Definition store_RewriteRequest : Json.store RewriteRequest :=
  Json.store_struct (fun key =>
    if Json.selects key "text"
    then Some (fun v cur =>
                 let '(s, bad) := Json.store_string v (RewriteRequest_Text cur) in
                 ({| RewriteRequest_Text := s; Tone := Tone cur |}, bad))
    else if Json.selects key "tone"
    then Some (fun v cur =>
                 let '(s, bad) := Json.store_string v (Tone cur) in
                 ({| RewriteRequest_Text := RewriteRequest_Text cur; Tone := s |}, bad))
    else None).

Definition store_ChatMessage : Json.store ChatMessage :=
  Json.store_struct (fun key =>
    if Json.selects key "role"
    then Some (fun v cur => let '(s, bad) := Json.store_string v (Role cur) in
                            ({| Role := s; Content := Content cur |}, bad))
    else if Json.selects key "content"
    then Some (fun v cur => let '(s, bad) := Json.store_string v (Content cur) in
                            ({| Role := Role cur; Content := s |}, bad))
    else None).

Definition store_ChatChoice : Json.store ChatChoice :=
  Json.store_struct (fun key =>
    if Json.selects key "message"
    then Some (fun v cur => let '(m, bad) := store_ChatMessage v (Message cur) in
                            ({| Message := m |}, bad))
    else None).

(** The zero values of the struct types. *)
Definition zero_ChatMessage : ChatMessage := {| Role := ""; Content := "" |}.
Definition zero_ChatChoice : ChatChoice := {| Message := zero_ChatMessage |}.
Definition zero_ChatResponse : ChatResponse := {| Choices := Json.Nil |}.
Definition zero_TextRequest : TextRequest := {| Text := "" |}.
Definition zero_RewriteRequest : RewriteRequest := {| RewriteRequest_Text := ""; Tone := "" |}.

Definition store_ChatResponse : Json.store ChatResponse :=
  Json.store_struct (fun key =>
    if Json.selects key "choices"
    then Some (fun v cur =>
                 let '(cs, bad) := Json.store_slice zero_ChatChoice store_ChatChoice v (Choices cur) in
                 ({| Choices := cs |}, bad))
    else None).

(** [[]string], the target of the list-shaped handlers. *)
Definition store_strings : Json.store (Json.slice string) :=
  Json.store_slice "" Json.store_string.

(** *** Effects *)

(** What [callLLM] fails with.  [UpstreamError] and [EmptyResponseError]
    are the two [fmt.Errorf] values; the other two are handed on from
    [http.DefaultClient.Do] and from [Decoder.Decode]. *)
Inductive LLMError : Type :=
| TransportError (cause : string)
| UpstreamError (code : Z) (body : string)
| DecodeError (e : Json.error)
| EmptyResponseError.

Definition itoa (n : Z) : string := NilZero.string_of_int (Z.to_int n).

(** [err.Error()]: the texts an error can have.  The two [fmt.Errorf]
    texts and the two [io] constants are fixed; a transport failure is a
    [*url.Error], "Post", the quoted address and the cause; a syntax error
    of the scanner starts with "invalid character" and a type error of the
    decoder with "json: cannot unmarshal", followed by details (the byte,
    the field) that are left open. *)
Inductive has_text : LLMError -> string -> Prop :=
| text_transport (cause : string) :
    has_text (TransportError cause) ("Post " ++ quoted openAIURL ++ ": " ++ cause)
| text_upstream (code : Z) (body : string) :
    has_text (UpstreamError code body)
             ("OpenAI error: status=" ++ itoa code ++ " body=" ++ body)
| text_eof : has_text (DecodeError Json.EOF) "EOF"
| text_unexpected_eof : has_text (DecodeError Json.UnexpectedEOF) "unexpected EOF"
| text_syntax (detail : string) :
    has_text (DecodeError Json.SyntaxError) ("invalid character " ++ detail)
| text_type (detail : string) :
    has_text (DecodeError Json.UnmarshalTypeError) ("json: cannot unmarshal " ++ detail)
| text_empty : has_text EmptyResponseError "no choices from LLM".

(** The world outside the process: what the upstream answers to a request. *)
Record World : Type := { Do : Request -> RoundTrip }.

Inductive LogLine : Type :=
| Println (tag : string) (err : LLMError)     (* log.Println(tag, err) *)
| Printf (method path : string).            (* log.Printf("%s %s", method, path) *)

(** What a run does besides computing its result, in order. *)
Inductive Event : Type :=
| Outbound (req : Request)
| Logged (line : LogLine).

(** A computation that may call the upstream and write to the log. *)
Definition IO (A : Type) : Type := World -> A * list Event.

Definition ret {A} (x : A) : IO A := fun _ => (x, []).

Definition bind {A B} (m : IO A) (k : A -> IO B) : IO B :=
  fun w =>
    let '(x, t1) := m w in
    let '(y, t2) := k x w in
    (y, (t1 ++ t2)%list).

Notation "x <- m ;; k" := (bind m (fun x => k))
  (at level 61, m at next level, right associativity).
Notation "m ;;; k" := (bind m (fun _ => k))
  (at level 61, right associativity).

(** One call of [http.DefaultClient.Do]: [Outbound req] records the call
    and the request handed to it.  What the client does inside the call
    (it follows redirects) is part of the world's answer. *)
Definition send (req : Request) : IO RoundTrip := fun w => (Do w req, [Outbound req]).
Definition log (line : LogLine) : IO unit := fun _ => (tt, [Logged line]).

Definition result {A} (m : IO A) (w : World) : A := fst (m w).
Definition trace {A} (m : IO A) (w : World) : list Event := snd (m w).

(** The requests handed to [http.DefaultClient.Do] in a trace. *)
Definition outbound (t : list Event) : list Request :=
  flat_map (fun e => match e with Outbound r => [r] | Logged _ => [] end) t.

Definition HandlerFunc : Type := Request -> IO Response.

(** *** LLM call helper *)

Definition systemMessage : ChatMessage :=
  {| Role := "system"; Content := "You are a helpful text-processing assistant." |}.

(** The chat request [callLLM] builds around a prompt. *)
Definition chatRequest (prompt : string) : ChatRequest :=
  {| Model := model;
     Messages := Json.Slice [systemMessage; {| Role := "user"; Content := prompt |}] [] |}.

(** The HTTP request [callLLM] sends. *)
Definition llmRequest (apiKey prompt : string) : Request :=
  SetHeader "Content-Type" "application/json"
    (SetHeader "Authorization" ("Bearer " ++ apiKey)
       (NewRequest "POST" openAIURL (marshal (chatRequest prompt)))).

(** [callLLM].  [json.Marshal] of a struct of strings and
    [http.NewRequest] on a constant address cannot fail, so their error
    returns are left out. *)
Definition callLLM (apiKey prompt : string) : IO (string + LLMError) :=
  r <- send (llmRequest apiKey prompt) ;;
  match r with
  | inr cause => ret (inr (TransportError cause))
  | inl resp =>
    if (StatusCode resp >=? 400)%Z
    then ret (inr (UpstreamError (StatusCode resp) (RespBody resp)))
    else
      let '(cr, err) := Json.Decode store_ChatResponse (RespBody resp) zero_ChatResponse in
      match err with
      | Some e => ret (inr (DecodeError e))
      | None =>
        match Json.elements (Choices cr) with
        | [] => ret (inr EmptyResponseError)
        | c :: _ => ret (inl (Content (Message c)))
        end
      end
  end.

(** *** helpers *)

(** [writeJSON]: the response it hands to its writer.  [Encode] writes the
    value and a line feed; encoding cannot fail on the types of this
    program.  [Encode] returns an error only when the write to the client
    does; the line [writeJSON] logs then is left out, a response being
    what the handler writes and not what reaches the client. *)
Definition writeJSON {T} `{Marshal T} (code : Z) (v : T) : Response :=
  {| StatusCode := code;
     RespHeader := Set_ "Content-Type" "application/json" [];
     RespBody := marshal v ++ String newline "" |}.

Definition withMethod (method : string) (h : HandlerFunc) : HandlerFunc :=
  fun r =>
    if negb (String.eqb (Method r) method)
    then ret (Http.Error "method not allowed" StatusMethodNotAllowed)
    else h r.

Definition logRequest (next : HandlerFunc) : HandlerFunc :=
  fun r => log (Printf (Method r) (URL r)) ;;; next r.

(** *** API Handlers *)

Definition LF : string := String newline "".

(** The prompts.  In [main.go] each is an expression inside its handler;
    [rewritePrompt] is the [fmt.Sprintf] with its two [%s] verbs. *)
Definition summarizePrompt (text : string) : string :=
  "Summarize the following text in 3–5 bullet points. Be concise and clear."
  ++ LF ++ LF ++ text.

Definition keywordsPrompt (text : string) : string :=
  "Extract 5–10 key keywords from the text below." ++ LF
  ++ "Return ONLY a JSON array of strings. Example: ["
  ++ quoted "keyword1" ++ "," ++ quoted "keyword2" ++ "]." ++ LF
  ++ LF
  ++ "Text:" ++ LF
  ++ text.

Definition rewritePrompt (tone text : string) : string :=
  "Rewrite the following text in a " ++ tone
  ++ " tone. Preserve the original meaning. Respond with ONLY the rewritten text."
  ++ LF ++ LF ++ text.

Definition questionsPrompt (text : string) : string :=
  "From the text below, generate 5–10 clear, helpful questions." ++ LF
  ++ "Return ONLY a JSON array of strings. Example: ["
  ++ quoted "Question 1?" ++ ", " ++ quoted "Question 2?" ++ "]." ++ LF
  ++ LF
  ++ "Text:" ++ LF
  ++ text.

Definition titlesPrompt (text : string) : string :=
  "Generate 5 concise, engaging title ideas for the text below." ++ LF
  ++ "Return ONLY a JSON array of strings. Example: ["
  ++ quoted "Title 1" ++ ", " ++ quoted "Title 2" ++ "]." ++ LF
  ++ LF
  ++ "Text:" ++ LF
  ++ text.

Definition expandPrompt (text : string) : string :=
  "Expand and elaborate on the following text." ++ LF
  ++ "Add helpful explanations and details but keep it clear and readable." ++ LF
  ++ "Respond with ONLY the expanded text." ++ LF
  ++ LF
  ++ "Text:" ++ LF
  ++ text.

Definition healthHandler : HandlerFunc :=
  fun _ => ret (writeJSON StatusOK {| status := "ok" |}).

Definition summarizeHandler (apiKey : string) : HandlerFunc :=
  fun r =>
    let '(req, err) := Json.Decode store_TextRequest (Body r) zero_TextRequest in
    match err with
    | Some _ => ret (Http.Error "invalid JSON body" StatusBadRequest)
    | None =>
      if String.eqb (Text req) "" then ret (Http.Error "`text` is required" StatusBadRequest)
      else
        let prompt := summarizePrompt (Text req) in
        out <- callLLM apiKey prompt ;;
        match out with
        | inr err =>
          log (Println "summarize error:" err) ;;;
          ret (Http.Error "LLM error" StatusInternalServerError)
        | inl out =>
          let resp := {| Summary := out |} in
          ret (writeJSON StatusOK resp)
        end
    end.

Definition keywordsHandler (apiKey : string) : HandlerFunc :=
  fun r =>
    let '(req, err) := Json.Decode store_TextRequest (Body r) zero_TextRequest in
    match err with
    | Some _ => ret (Http.Error "invalid JSON body" StatusBadRequest)
    | None =>
      if String.eqb (Text req) "" then ret (Http.Error "`text` is required" StatusBadRequest)
      else
        let prompt := keywordsPrompt (Text req) in
        out <- callLLM apiKey prompt ;;
        match out with
        | inr err =>
          log (Println "keywords error:" err) ;;;
          ret (Http.Error "LLM error" StatusInternalServerError)
        | inl out =>
          let '(kws, err) := Json.Unmarshal store_strings out Json.Nil in
          let kws := match err with
                     | Some _ => Json.singleton out   (* fallback *)
                     | None => kws
                     end in
          let resp := {| Keywords := kws |} in
          ret (writeJSON StatusOK resp)
        end
    end.

Definition rewriteHandler (apiKey : string) : HandlerFunc :=
  fun r =>
    let '(req, err) := Json.Decode store_RewriteRequest (Body r) zero_RewriteRequest in
    match err with
    | Some _ => ret (Http.Error "invalid JSON body" StatusBadRequest)
    | None =>
      if String.eqb (RewriteRequest_Text req) ""
      then ret (Http.Error "`text` is required" StatusBadRequest)
      else
        let tone := Tone req in
        let tone := if String.eqb tone "" then "neutral" else tone in
        let prompt := rewritePrompt tone (RewriteRequest_Text req) in
        out <- callLLM apiKey prompt ;;
        match out with
        | inr err =>
          log (Println "rewrite error:" err) ;;;
          ret (Http.Error "LLM error" StatusInternalServerError)
        | inl out =>
          let resp := {| RewriteResponse_Text := out |} in
          ret (writeJSON StatusOK resp)
        end
    end.

Definition questionsHandler (apiKey : string) : HandlerFunc :=
  fun r =>
    let '(req, err) := Json.Decode store_TextRequest (Body r) zero_TextRequest in
    match err with
    | Some _ => ret (Http.Error "invalid JSON body" StatusBadRequest)
    | None =>
      if String.eqb (Text req) "" then ret (Http.Error "`text` is required" StatusBadRequest)
      else
        let prompt := questionsPrompt (Text req) in
        out <- callLLM apiKey prompt ;;
        match out with
        | inr err =>
          log (Println "questions error:" err) ;;;
          ret (Http.Error "LLM error" StatusInternalServerError)
        | inl out =>
          let '(qs, err) := Json.Unmarshal store_strings out Json.Nil in
          let qs := match err with
                    | Some _ => Json.singleton out   (* fallback *)
                    | None => qs
                    end in
          let resp := {| Questions := qs |} in
          ret (writeJSON StatusOK resp)
        end
    end.

Definition titlesHandler (apiKey : string) : HandlerFunc :=
  fun r =>
    let '(req, err) := Json.Decode store_TextRequest (Body r) zero_TextRequest in
    match err with
    | Some _ => ret (Http.Error "invalid JSON body" StatusBadRequest)
    | None =>
      if String.eqb (Text req) "" then ret (Http.Error "`text` is required" StatusBadRequest)
      else
        let prompt := titlesPrompt (Text req) in
        out <- callLLM apiKey prompt ;;
        match out with
        | inr err =>
          log (Println "titles error:" err) ;;;
          ret (Http.Error "LLM error" StatusInternalServerError)
        | inl out =>
          let '(titles, err) := Json.Unmarshal store_strings out Json.Nil in
          let titles := match err with
                        | Some _ => Json.singleton out
                        | None => titles
                        end in
          let resp := {| Titles := titles |} in
          ret (writeJSON StatusOK resp)
        end
    end.

Definition expandHandler (apiKey : string) : HandlerFunc :=
  fun r =>
    let '(req, err) := Json.Decode store_TextRequest (Body r) zero_TextRequest in
    match err with
    | Some _ => ret (Http.Error "invalid JSON body" StatusBadRequest)
    | None =>
      if String.eqb (Text req) "" then ret (Http.Error "`text` is required" StatusBadRequest)
      else
        let prompt := expandPrompt (Text req) in
        out <- callLLM apiKey prompt ;;
        match out with
        | inr err =>
          log (Println "expand error:" err) ;;;
          ret (Http.Error "LLM error" StatusInternalServerError)
        | inl out =>
          let resp := {| ExpandResponse_Text := out |} in
          ret (writeJSON StatusOK resp)
        end
    end.

(** *** The server *)

(** [http.ServeMux]: the registered patterns with their handlers.  A
    path is served by the pattern equal to it, else by the longest
    pattern that ends in a slash and is a prefix of it, else by
    [http.NotFound].  Paths are taken in canonical form (the library
    redirects the others before any handler runs); host patterns are not
    used by this program. *)
Definition ServeMux : Type := list (string * HandlerFunc).

Definition NewServeMux : ServeMux := [].

Definition HandleFunc (pattern : string) (h : HandlerFunc) (mux : ServeMux) : ServeMux :=
  (mux ++ [(pattern, h)])%list.

Definition ends_in_slash (p : string) : bool :=
  match get (String.length p - 1) p with
  | Some c => Ascii.eqb c "/"
  | None => false
  end.

Definition subtree_match (path : string) (mux : ServeMux) : option (string * HandlerFunc) :=
  fold_left
    (fun best e =>
       if (ends_in_slash (fst e) && prefix (fst e) path)%bool then
         match best with
         | Some b => if Nat.ltb (String.length (fst b)) (String.length (fst e))
                     then Some e else best
         | None => Some e
         end
       else best)
    mux None.

Definition ServeHTTP (mux : ServeMux) : HandlerFunc :=
  fun r =>
    match find (fun e => String.eqb (fst e) (URL r)) mux with
    | Some e => snd e r
    | None =>
      match subtree_match (URL r) mux with
      | Some e => snd e r
      | None => ret NotFound
      end
    end.

Section Server.

(** The page constant of [main.go]; its text plays no part in the API. *)
Variable indexHTML : string.

Definition uiHandler : HandlerFunc :=
  fun r =>
    if (negb (String.eqb (URL r) "/") || negb (String.eqb (Method r) MethodGet))%bool
    then ret NotFound
    else ret {| StatusCode := StatusOK;
                RespHeader := Set_ "Content-Type" "text/html; charset=utf-8" [];
                RespBody := indexHTML |}.

(** The mux [main] builds. *)
Definition mux (apiKey : string) : ServeMux :=
  HandleFunc "/expand" (withMethod "POST" (expandHandler apiKey))
    (HandleFunc "/titles" (withMethod "POST" (titlesHandler apiKey))
      (HandleFunc "/questions" (withMethod "POST" (questionsHandler apiKey))
        (HandleFunc "/rewrite" (withMethod "POST" (rewriteHandler apiKey))
          (HandleFunc "/keywords" (withMethod "POST" (keywordsHandler apiKey))
            (HandleFunc "/summarize" (withMethod "POST" (summarizeHandler apiKey))
              (HandleFunc "/health" healthHandler
                (HandleFunc "/" uiHandler NewServeMux))))))).

(** [main]: the handler the server listens with, for the value of
    [OPENAI_API_KEY]; no server when the variable is empty.  A response
    is what this handler writes; what [net/http] does around it (it sends
    no body in reply to a HEAD request) is not modelled. *)
Definition main (apiKey : string) : option HandlerFunc :=
  if String.eqb apiKey "" then None
  else Some (logRequest (ServeHTTP (mux apiKey))).

End Server.

End App.

(** * Specification vocabulary *)

Import Http App.

(** The six POST endpoints. *)
Inductive endpoint : Type :=
| summarize | keywords | rewrite | questions | titles | expand.

Definition all_endpoints : list endpoint :=
  [summarize; keywords; rewrite; questions; titles; expand].

Definition handler (e : endpoint) : string -> HandlerFunc :=
  match e with
  | summarize => summarizeHandler
  | keywords => keywordsHandler
  | rewrite => rewriteHandler
  | questions => questionsHandler
  | titles => titlesHandler
  | expand => expandHandler
  end.

Definition path (e : endpoint) : string :=
  match e with
  | summarize => "/summarize"
  | keywords => "/keywords"
  | rewrite => "/rewrite"
  | questions => "/questions"
  | titles => "/titles"
  | expand => "/expand"
  end.

Definition list_shaped (e : endpoint) : bool :=
  match e with
  | keywords | questions | titles => true
  | _ => false
  end.

Definition plain_text (e : endpoint) : bool := negb (list_shaped e).

(** The JSON name of the one field of an endpoint's success reply. *)
Definition field_name (e : endpoint) : string :=
  match e with
  | summarize => "summary"
  | keywords => "keywords"
  | rewrite => "text"
  | questions => "questions"
  | titles => "titles"
  | expand => "text"
  end.

(** What an endpoint reads from a request body: [text], and [tone] on
    /rewrite (empty elsewhere, and when the body has none). *)
Record fields : Type := { text : string; tone : string }.

Definition decode_body (e : endpoint) (body : string) : fields * option Json.error :=
  match e with
  | rewrite =>
    let d := Json.Decode store_RewriteRequest body zero_RewriteRequest in
    ({| text := RewriteRequest_Text (fst d); tone := Tone (fst d) |}, snd d)
  | _ =>
    let d := Json.Decode store_TextRequest body zero_TextRequest in
    ({| text := Text (fst d); tone := "" |}, snd d)
  end.

(** A body the endpoint accepts: it decodes, and its text is not empty. *)
Definition valid_body (e : endpoint) (body : string) (f : fields) : Prop :=
  decode_body e body = (f, None) /\ text f <> "".

(** The prompt template of an endpoint with [{text}] and [{tone}]
    filled in; an empty tone is read as "neutral". *)
Definition prompt (e : endpoint) (f : fields) : string :=
  match e with
  | summarize => summarizePrompt (text f)
  | keywords => keywordsPrompt (text f)
  | rewrite => rewritePrompt (if String.eqb (tone f) "" then "neutral" else tone f) (text f)
  | questions => questionsPrompt (text f)
  | titles => titlesPrompt (text f)
  | expand => expandPrompt (text f)
  end.

Definition log_tag (e : endpoint) : string :=
  match e with
  | summarize => "summarize error:"
  | keywords => "keywords error:"
  | rewrite => "rewrite error:"
  | questions => "questions error:"
  | titles => "titles error:"
  | expand => "expand error:"
  end.

(** The 200 reply of a list-shaped endpoint whose list field is [l]. *)
Definition list_response (e : endpoint) (l : Json.slice string) : option Response :=
  match e with
  | keywords => Some (writeJSON StatusOK {| Keywords := l |})
  | questions => Some (writeJSON StatusOK {| Questions := l |})
  | titles => Some (writeJSON StatusOK {| Titles := l |})
  | _ => None
  end.

(** The 200 reply of a plain-text endpoint whose string field is [s]. *)
Definition plain_response (e : endpoint) (s : string) : option Response :=
  match e with
  | summarize => Some (writeJSON StatusOK {| Summary := s |})
  | rewrite => Some (writeJSON StatusOK {| RewriteResponse_Text := s |})
  | expand => Some (writeJSON StatusOK {| ExpandResponse_Text := s |})
  | _ => None
  end.

(** The list a list-shaped handler makes of a reply. *)
Definition reply_list (out : string) : Json.slice string :=
  match Json.Unmarshal store_strings out Json.Nil with
  | (_, Some _) => Json.singleton out
  | (l, None) => l
  end.

(** The 200 reply of an endpoint to the model's answer [out]. *)
Definition shape (e : endpoint) (out : string) : Response :=
  match e with
  | summarize => writeJSON StatusOK {| Summary := out |}
  | keywords => writeJSON StatusOK {| Keywords := reply_list out |}
  | rewrite => writeJSON StatusOK {| RewriteResponse_Text := out |}
  | questions => writeJSON StatusOK {| Questions := reply_list out |}
  | titles => writeJSON StatusOK {| Titles := reply_list out |}
  | expand => writeJSON StatusOK {| ExpandResponse_Text := out |}
  end.

(** A reply is a JSON array of strings: the whole of it is one array and
    every element is a string; [l] is that array. *)
Definition array_of_strings (reply : string) (l : list string) : Prop :=
  Json.checkValid reply = inl (Json.JArray (map Json.JString l)).

Definition string_or_null (v : Json.value) : bool :=
  match v with
  | Json.JString _ | Json.JNull => true
  | _ => false
  end.

(** The replies [Unmarshal] stores into a [[]string] without an error:
    [null], and the arrays of strings and [null]s. *)
Definition tolerated (reply : string) : bool :=
  match Json.checkValid reply with
  | inl Json.JNull => true
  | inl (Json.JArray items) => forallb string_or_null items
  | _ => false
  end.

(** A 2xx or 3xx status. *)
Definition success_status (code : Z) : bool := ((200 <=? code) && (code <=? 399))%Z.

(** An upstream that answers every request with one response. *)
Definition canned (code : Z) (body : string) : World :=
  {| Do := fun _ => inl {| StatusCode := code; RespHeader := []; RespBody := body |} |}.

(** An upstream that cannot be reached. *)
Definition unreachable (cause : string) : World := {| Do := fun _ => inr cause |}.

(** A chat-completion body with one choice, whose message has [content]. *)
Definition completion (content : string) : string :=
  "{" ++ quoted "choices" ++ ":[{" ++ quoted "message" ++ ":{"
  ++ quoted "role" ++ ":" ++ quoted "assistant" ++ ","
  ++ quoted "content" ++ ":" ++ Json.encode_string content ++ "}}]}".

Definition post (url body : string) : Request :=
  {| Method := "POST"; URL := url; ReqHeader := []; Body := body |}.

(** The body [{"text": t}]. *)
Definition text_body (t : string) : string :=
  "{" ++ quoted "text" ++ ":" ++ Json.encode_string t ++ "}".

(** The body [{"text": t, "tone": n}]. *)
Definition text_tone_body (t n : string) : string :=
  "{" ++ quoted "text" ++ ":" ++ Json.encode_string t ++ ","
  ++ quoted "tone" ++ ":" ++ Json.encode_string n ++ "}".

(** ** Sample inputs *)

Definition sky : fields := {| text := "The sky is blue."; tone := "" |}.

(** The reply [["a","b","c"]]. *)
Definition abc_reply : string :=
  "[" ++ quoted "a" ++ "," ++ quoted "b" ++ "," ++ quoted "c" ++ "]".

(** ** Vocabulary of the proofs about the encoder and the scanner *)

Definition all_ascii : list ascii := map ascii_of_nat (seq 0 256).

Definition high (c : ascii) : bool := N.leb 128 (byte_of c).

(** What the encoder writes for one ASCII byte. *)
Definition encode_ascii (c : ascii) : string :=
  if Json.htmlSafe c then String c "" else Json.escape_byte c.

(** The value [DecodeRune] gives a three-byte rune. *)
Definition rune3_value (b0 b1 b2 : ascii) : N :=
  N.lor (N.shiftl (N.land (byte_of b0) 15) 12)
        (N.lor (N.shiftl (N.land (byte_of b1) 63) 6) (N.land (byte_of b2) 63)).

(** Among the three-byte runes that start with [b0], only E2 80 A8 and
    E2 80 A9 have the values U+2028 and U+2029. *)
Definition separator_bytes_ok (b0 : ascii) : bool :=
  if between 224 239 b0 then
    forallb (fun b1 =>
      if negb (Utf8.cont b1) then true else
      forallb (fun b2 =>
        let r := rune3_value b0 b1 b2 in
        if (N.eqb r 8232 || N.eqb r 8233)%bool then
          match Utf8.rune_len (String b0 (String b1 (String b2 ""))) with
          | 3 => String.eqb (String b0 (String b1 (String b2 ""))) (Utf8.EncodeRune r)
          | _ => true
          end
        else true) all_ascii) all_ascii
  else true.

Fixpoint drop (k : nat) (s : string) : string :=
  match k, s with
  | S k', String _ rest => drop k' rest
  | _, _ => s
  end.

(** The bytes of a string pushed on an accumulator, last byte first. *)
Fixpoint rev_bytes (acc : list ascii) (s : string) : list ascii :=
  match s with
  | "" => acc
  | String c s' => rev_bytes (c :: acc) s'
  end.

(** In [Copy k] the next [k] bytes are the tail of a rune. *)
Fixpoint copying (k : nat) (s : string) : Prop :=
  match k, s with
  | 0, _ => True
  | S k', String c rest => (byte_of c <? 128)%N = false /\ copying k' rest
  | S _, "" => False
  end.

Definition mode_ok (m : Json.mode) (s : string) : Prop :=
  match m with
  | Json.Copy k => copying k s
  | _ => True
  end.

(** ** Vocabulary of the proofs that decoded strings are well-formed *)

Section WellFormed.

Import Json.

(** Where the scanner stands inside a string literal. *)
Inductive literal : Type :=
| InLit
| InEsc
| InEscU (seen : nat).

Definition escape_char (c : ascii) : bool :=
  match c with
  | "b"%char | "f"%char | "n"%char | "r"%char | "t"%char
  | "\"%char | "/"%char | "034"%char => true
  | _ => false
  end.

Definition literal_step (q : literal) (c : ascii) : option literal :=
  match q with
  | InLit =>
    if Ascii.eqb c dquote then None
    else if Ascii.eqb c backslash then Some InEsc
    else if N.ltb (byte_of c) 32 then None
    else Some InLit
  | InEsc =>
    if escape_char c then Some InLit
    else if Ascii.eqb c "u" then Some (InEscU 0)
    else None
  | InEscU seen =>
    if is_hex c then
      match seen with
      | 0 | 1 | 2 => Some (InEscU (S seen))
      | _ => Some InLit
      end
    else None
  end.

Fixpoint literal_run (q : literal) (x : string) : option literal :=
  match x with
  | "" => Some q
  | String c x' =>
    match literal_step q c with
    | Some q' => literal_run q' x'
    | None => None
    end
  end.

(** The body of a literal the scanner accepts. *)
Definition body_ok (x : string) : bool :=
  match literal_run InLit x with
  | Some InLit => true
  | _ => false
  end.

(** Every number below [2 ^ bits] satisfies [P]. *)
Fixpoint all_below (bits : nat) (prefix : N) (P : N -> bool) : bool :=
  match bits with
  | 0 => P prefix
  | S b => (all_below b (2 * prefix) P && all_below b (2 * prefix + 1) P)%bool
  end.

(** [EncodeRune] writes one well-formed rune. *)
Definition encoded_rune_ok (r : N) : bool :=
  let e := Utf8.EncodeRune r in
  (Nat.eqb (Utf8.rune_len e) (String.length e) && negb (Nat.eqb (String.length e) 0))%bool.

(** The second byte of a four-byte encoding lies in the range its lead
    byte asks for; [t] is the rune without its low twelve bits. *)
Definition lead4_ok (t : N) : bool :=
  if (N.leb 16 t && N.leb t 271)%bool then
    let b0 := of_byte (N.lor 240 (N.shiftr t 6)) in
    let b1 := of_byte (N.lor 128 (N.land t 63)) in
    (negb (N.ltb (byte_of b0) 128)
     && negb (between 194 223 b0) && negb (between 224 239 b0) && between 240 244 b0
     && between (if N.eqb (byte_of b0) 240 then 144 else 128)
                (if N.eqb (byte_of b0) 244 then 143 else 191) b1)%bool
  else true.

Definition tail_ok (v : N) : bool := Utf8.cont (of_byte (N.lor 128 v)).

(** Every string in a scanned value is well-formed UTF-8. *)
Fixpoint value_ok (v : value) : Prop :=
  match v with
  | JString s => Utf8.ValidString s = true
  | JArray items =>
    (fix all (l : list value) : Prop :=
       match l with
       | [] => True
       | x :: l' => value_ok x /\ all l'
       end) items
  | JObject members =>
    (fix all (l : list (string * value)) : Prop :=
       match l with
       | [] => True
       | m :: l' => value_ok (snd m) /\ all l'
       end) members
  | _ => True
  end.

Definition member_ok (m : string * value) : Prop := value_ok (snd m).

Definition frame_ok (f : frame) : Prop :=
  match f with
  | parseArrayValue es => Forall value_ok es
  | parseObjectKey ms => Forall member_ok ms
  | parseObjectValue ms _ => Forall member_ok ms
  end.

Definition state_ok (st : state) : Prop :=
  match st with
  | stateInString body => literal_run InLit (string_of_rev body) = Some InLit
  | stateInStringEsc body => literal_run InLit (string_of_rev body) = Some InEsc
  | stateInStringEscU seen body => literal_run InLit (string_of_rev body) = Some (InEscU seen)
  | stateLiteral _ v => value_ok v
  | _ => True
  end.

Definition verdict_ok (r : verdict) : Prop :=
  match r with
  | scanContinue st stack => state_ok st /\ Forall frame_ok stack
  | scanEnd v _ => value_ok v
  | scanError => True
  end.

(** A store that keeps an invariant of its variable when it is given a
    value with well-formed strings. *)
Definition store_keeps {T} (inv : T -> Prop) (st : store T) : Prop :=
  forall v cur, value_ok v -> inv cur -> inv (fst (st v cur)).

Definition slice_ok {T} (inv : T -> Prop) (s : slice T) : Prop :=
  match s with
  | Nil => True
  | Slice es spare => Forall inv es /\ Forall inv spare
  end.

Definition valid_string (s : string) : Prop := Utf8.ValidString s = true.

Definition message_ok (m : ChatMessage) : Prop :=
  valid_string (Role m) /\ valid_string (Content m).

Definition choice_ok (c : ChatChoice) : Prop := message_ok (Message c).

Definition response_ok (r : ChatResponse) : Prop := slice_ok choice_ok (Choices r).

Definition rewrite_ok (r : RewriteRequest) : Prop :=
  valid_string (RewriteRequest_Text r) /\ valid_string (Tone r).

End WellFormed.

(** ** Vocabulary of the further properties *)

Section Further.

Import Json.

(** The patterns [main] registers. *)
Definition registered : list string :=
  ["/"; "/health"; "/summarize"; "/keywords"; "/rewrite"; "/questions"; "/titles"; "/expand"].

Definition bad_element (seg : list ascii) : bool :=
  match seg with
  | ["."%char] | ["."%char; "."%char] => true
  | _ => false
  end.

(** The elements of a path after its first slash: none is empty, [.] or
    [..]; [seg] is the element being read, last byte first. *)
Fixpoint elements_ok (seg : list ascii) (s : string) : bool :=
  match s with
  | "" => negb (bad_element seg)
  | String c s' =>
    if Ascii.eqb c "/"
    then (negb (bad_element seg) && negb (Nat.eqb (length seg) 0) && elements_ok [] s')%bool
    else elements_ok (c :: seg) s'
  end.

(** A path in canonical form, one that [cleanPath] of server.go leaves as
    it is: the mux redirects the others before any handler runs. *)
Definition canonical (p : string) : bool :=
  match p with
  | String "/" s => elements_ok [] s
  | _ => false
  end.

(** The status codes of the program's replies. *)
Definition statuses : list Z := [200; 400; 404; 405; 500]%Z.

(** What [Unmarshal] stores into a fresh string cell for an element. *)
Definition element_text (v : value) : string :=
  match v with
  | JString s => s
  | _ => ""
  end.

(** What the list field of a reply can be on the wire. *)
Definition null_or_strings (v : value) : Prop :=
  v = JNull \/ exists l, v = JArray (map JString l).

(** A byte that is not below 32 (so no line feed, no tab) and none of
    [<], [>], [&]. *)
Definition inert (c : ascii) : bool :=
  (N.leb 32 (byte_of c)
   && negb (Ascii.eqb c "<") && negb (Ascii.eqb c ">") && negb (Ascii.eqb c "&"))%bool.

(** The literal a scanner state still expects holds no white space. *)
Definition literal_clean (st : state) : Prop :=
  match st with
  | stateLiteral expect _ => all_bytes (fun c => negb (isSpace c)) expect = true
  | _ => True
  end.

Definition verdict_clean (r : verdict) : Prop :=
  match r with
  | scanContinue st _ => literal_clean st
  | _ => True
  end.

Definition is_number (v : value) : bool :=
  match v with
  | JNumber _ => true
  | _ => false
  end.

(** Only a number is ended by the end of the input. *)
Definition ends_number (r : verdict) : Prop :=
  match r with
  | scanEnd v _ => is_number v = true
  | _ => True
  end.

End Further.

(** * Properties *)

(** ** The decoder *)

Lemma store_cells_strings (l : list string) :
  Json.store_cells "" Json.store_string (map Json.JString l) [] = (l, false).
Proof.
  induction l as [|s l IH]; simpl; [reflexivity|].
  rewrite IH. reflexivity.
Qed.

(** Storing an array into a string slice saves an error exactly when some
    element is neither a string nor [null]. *)
Lemma store_cells_error (items : list Json.value) (backing : list string) :
  snd (Json.store_cells "" Json.store_string items backing)
  = negb (forallb string_or_null items).
Proof.
  revert backing; induction items as [|v items IH]; intros backing; simpl; [reflexivity|].
  specialize (IH (tl backing)).
  destruct (Json.store_cells "" Json.store_string items (tl backing)) as [xs bad'].
  simpl in IH; subst bad'.
  destruct v; simpl; try reflexivity.
Qed.

Lemma Unmarshal_strings_ok (reply : string) :
  snd (Json.Unmarshal store_strings reply Json.Nil) = None <-> tolerated reply = true.
Proof.
  unfold Json.Unmarshal, tolerated, store_strings.
  destruct (Json.checkValid reply) as [v|e]; simpl; [|split; discriminate].
  destruct v as [| b | lit | s | items | members]; simpl;
    try (split; [discriminate | discriminate]); try (split; reflexivity).
  destruct items as [|v items]; [split; reflexivity|].
  pose proof (store_cells_error (v :: items) []) as E.
  destruct (Json.store_cells "" Json.store_string (v :: items) []) as [xs bad].
  simpl snd in *. rewrite E.
  destruct (forallb string_or_null (v :: items)); simpl; split; congruence.
Qed.

Lemma reply_list_array (reply : string) (l : list string) :
  array_of_strings reply l -> reply_list reply = Json.Slice l [].
Proof.
  unfold array_of_strings, reply_list, Json.Unmarshal, store_strings. intros ->.
  destruct l as [|s l]; [reflexivity|].
  change (map Json.JString (s :: l)) with (Json.JString s :: map Json.JString l).
  unfold Json.store_slice.
  change (Json.JString s :: map Json.JString l) with (map Json.JString (s :: l)).
  rewrite store_cells_strings. reflexivity.
Qed.

Lemma reply_list_fallback (reply : string) :
  tolerated reply = false -> reply_list reply = Json.singleton reply.
Proof.
  intros H. unfold reply_list.
  destruct (Json.Unmarshal store_strings reply Json.Nil) as [l [e|]] eqn:E; [reflexivity|].
  assert (tolerated reply = true) by (apply Unmarshal_strings_ok; rewrite E; reflexivity).
  congruence.
Qed.

(** ** Strings *)

Lemma append_assoc (a b c : string) : (a ++ b) ++ c = a ++ b ++ c.
Proof. induction a as [|x a IH]; simpl; [reflexivity|]. rewrite IH. reflexivity. Qed.

(** ** The encoder and the scanner

    What [encode_string] writes for a well-formed UTF-8 string, the
    scanner reads back as that string. *)

Section Wire.

Import Json.

Lemma in_all_ascii (c : ascii) : In c all_ascii.
Proof.
  unfold all_ascii. rewrite <- (ascii_nat_embedding c).
  apply in_map. apply in_seq. pose proof (nat_ascii_bounded c). lia.
Qed.

Lemma for_all_ascii (P : ascii -> bool) :
  forallb P all_ascii = true -> forall c, P c = true.
Proof.
  intros H c. rewrite forallb_forall in H. apply H. apply in_all_ascii.
Qed.

Lemma rune_len_ascii c rest : (byte_of c <? 128)%N = true -> Utf8.rune_len (String c rest) = 1.
Proof. intros H. unfold Utf8.rune_len. rewrite H. reflexivity. Qed.

Lemma rune_len_shape c rest n :
  (byte_of c <? 128)%N = false ->
  Utf8.rune_len (String c rest) = S n ->
  match n with
  | 1 => exists b1 r, rest = String b1 r /\ high b1 = true
  | 2 => exists b1 b2 r, rest = String b1 (String b2 r) /\ high b1 = true /\ high b2 = true
  | 3 => exists b1 b2 b3 r, rest = String b1 (String b2 (String b3 r))
                            /\ high b1 = true /\ high b2 = true /\ high b3 = true
  | _ => False
  end.
Proof.
  intros Hc. unfold Utf8.rune_len. rewrite Hc.
  destruct (between 194 223 c).
  { destruct rest as [|b1 r]; [discriminate|].
    destruct (Utf8.cont b1) eqn:E1; [|discriminate].
    intros H; injection H as <-. exists b1, r. split; [reflexivity|].
    unfold Utf8.cont, between in E1. unfold high. apply andb_true_iff in E1. tauto. }
  destruct (between 224 239 c).
  { destruct rest as [|b1 [|b2 r]]; try discriminate.
    match goal with |- (if ?b then _ else _) = _ -> _ => destruct b eqn:E end; [|discriminate].
    intros H; injection H as <-. exists b1, b2, r. split; [reflexivity|].
    apply andb_true_iff in E. destruct E as [E1 E2].
    unfold Utf8.cont, between, high in *.
    apply andb_true_iff in E1, E2. destruct E1 as [E1 _], E2 as [E2 _].
    split; [|exact E2].
    destruct (N.eqb (byte_of c) 224); apply N.leb_le in E1; apply N.leb_le; lia. }
  destruct (between 240 244 c).
  { destruct rest as [|b1 [|b2 [|b3 r]]]; try discriminate.
    match goal with |- (if ?b then _ else _) = _ -> _ => destruct b eqn:E end; [|discriminate].
    intros H; injection H as <-. exists b1, b2, b3, r. split; [reflexivity|].
    apply andb_true_iff in E. destruct E as [E E3].
    apply andb_true_iff in E. destruct E as [E1 E2].
    unfold Utf8.cont, between, high in *.
    apply andb_true_iff in E1, E2, E3. destruct E1 as [E1 _], E2 as [E2 _], E3 as [E3 _].
    repeat split; try assumption.
    destruct (N.eqb (byte_of c) 240); apply N.leb_le in E1; apply N.leb_le; lia. }
  discriminate.
Qed.

Lemma unquote_skip0 s : unquote_from (Skip 0) s = unquote_from Plain s.
Proof. destruct s; reflexivity. Qed.
Lemma unquote_copy0 s : unquote_from (Copy 0) s = unquote_from Plain s.
Proof. destruct s; reflexivity. Qed.
Lemma encode_skip0 s : encode_from (Skip 0) s = encode_from Plain s.
Proof. destruct s; reflexivity. Qed.
Lemma encode_copy0 s : encode_from (Copy 0) s = encode_from Plain s.
Proof. destruct s; reflexivity. Qed.

Lemma encode_plain_ascii c rest :
  (byte_of c <? 128)%N = true ->
  encode_from Plain (String c rest) = encode_ascii c ++ encode_from Plain rest.
Proof.
  intros H. unfold encode_ascii. cbn [encode_from]. rewrite H.
  destruct (htmlSafe c); reflexivity.
Qed.

Lemma unquote_ascii c x :
  (byte_of c <? 128)%N = true ->
  unquote_from Plain (encode_ascii c ++ x) = String c (unquote_from Plain x).
Proof.
  intros H.
  destruct c as [[] [] [] [] [] [] [] []]; try discriminate H;
    cbn; rewrite ?unquote_skip0; reflexivity.
Qed.

Lemma rune3_inv s r :
  Utf8.rune3 s = Some r ->
  exists b0 b1 b2 rest,
    s = String b0 (String b1 (String b2 rest))
    /\ Utf8.rune_len s = 3
    /\ between 224 239 b0 = true
    /\ r = rune3_value b0 b1 b2.
Proof.
  unfold Utf8.rune3.
  destruct (Utf8.rune_len s) as [|[|[|[|n]]]] eqn:E; try discriminate.
  destruct s as [|b0 [|b1 [|b2 rest]]]; try discriminate.
  intros H; injection H as <-.
  exists b0, b1, b2, rest. repeat split; try assumption.
  revert E. unfold Utf8.rune_len.
  destruct (byte_of b0 <? 128)%N; [discriminate|].
  destruct (between 194 223 b0); [destruct (Utf8.cont b1); discriminate|].
  destruct (between 224 239 b0); [reflexivity|].
  destruct (between 240 244 b0); [|discriminate].
  destruct rest; [discriminate|].
  match goal with |- (if ?b then _ else _) = _ -> _ => destruct b end; discriminate.
Qed.

Lemma separator_bytes_checked : forallb separator_bytes_ok all_ascii = true.
Proof. vm_compute. reflexivity. Qed.

Lemma between_bounds lo hi c :
  between lo hi c = true -> (lo <= byte_of c <= hi)%N.
Proof.
  unfold between. intros H. apply andb_true_iff in H.
  destruct H as [H1 H2]. apply N.leb_le in H1, H2. lia.
Qed.

Lemma not_between lo hi c :
  (byte_of c < lo \/ hi < byte_of c)%N -> between lo hi c = false.
Proof.
  intros H. unfold between. apply andb_false_iff.
  destruct H as [H|H]; [left | right]; apply N.leb_gt; exact H.
Qed.

Lemma rune_len_three b0 b1 b2 rest :
  between 224 239 b0 = true ->
  Utf8.rune_len (String b0 (String b1 (String b2 rest)))
  = Utf8.rune_len (String b0 (String b1 (String b2 ""))).
Proof.
  intros H. pose proof (between_bounds _ _ _ H) as Hb. unfold Utf8.rune_len.
  replace (byte_of b0 <? 128)%N with false by (symmetry; apply N.ltb_ge; lia).
  rewrite (not_between 194 223 b0) by lia. rewrite H. reflexivity.
Qed.

Lemma separator_bytes s r :
  Utf8.rune3 s = Some r ->
  (N.eqb r 8232 || N.eqb r 8233)%bool = true ->
  exists rest, s = Utf8.EncodeRune r ++ rest /\ String.length (Utf8.EncodeRune r) = 3.
Proof.
  intros H3 Hr.
  destruct (rune3_inv s r H3) as (b0 & b1 & b2 & rest & -> & Hlen & Hb0 & ->).
  pose proof (for_all_ascii _ separator_bytes_checked b0) as Hchk.
  unfold separator_bytes_ok in Hchk. rewrite Hb0 in Hchk.
  rewrite forallb_forall in Hchk. specialize (Hchk b1 (in_all_ascii b1)).
  rewrite (rune_len_three b0 b1 b2 rest Hb0) in Hlen.
  destruct (Utf8.cont b1) eqn:Hc1.
  - simpl negb in Hchk. cbv iota in Hchk.
    rewrite forallb_forall in Hchk. specialize (Hchk b2 (in_all_ascii b2)).
    cbv zeta in Hchk. rewrite Hr, Hlen in Hchk.
    apply String.eqb_eq in Hchk. exists rest. rewrite <- Hchk. split; reflexivity.
  - exfalso. revert Hlen. pose proof (between_bounds _ _ _ Hb0) as Hb.
    unfold Utf8.rune_len.
    replace (byte_of b0 <? 128)%N with false by (symmetry; apply N.ltb_ge; lia).
    rewrite (not_between 194 223 b0) by lia. rewrite Hb0.
    assert (Hno : forall lo hi, (128 <= lo)%N -> (hi <= 191)%N ->
                                between lo hi b1 = false).
    { intros lo hi Hlo Hhi. destruct (between lo hi b1) eqn:E; [|reflexivity].
      apply between_bounds in E.
      assert (Utf8.cont b1 = true)
        by (unfold Utf8.cont, between; apply andb_true_iff;
            split; apply N.leb_le; lia).
      congruence. }
    rewrite Hno by (destruct (N.eqb (byte_of b0) 224), (N.eqb (byte_of b0) 237); lia).
    discriminate.
Qed.

Lemma rune_len_2 c b1 r r' :
  Utf8.rune_len (String c (String b1 r)) = 2 ->
  Utf8.rune_len (String c (String b1 r')) = 2.
Proof.
  unfold Utf8.rune_len.
  destruct (byte_of c <? 128)%N; [discriminate|].
  destruct (between 194 223 c); [exact (fun H => H)|].
  destruct (between 224 239 c).
  { destruct r; [discriminate|].
    match goal with |- (if ?b then _ else _) = _ -> _ => destruct b end; discriminate. }
  destruct (between 240 244 c); [|discriminate].
  destruct r as [|? [|? ?]]; try discriminate.
  match goal with |- (if ?b then _ else _) = _ -> _ => destruct b end; discriminate.
Qed.

Lemma rune_len_3 c b1 b2 r r' :
  Utf8.rune_len (String c (String b1 (String b2 r))) = 3 ->
  Utf8.rune_len (String c (String b1 (String b2 r'))) = 3.
Proof.
  unfold Utf8.rune_len.
  destruct (byte_of c <? 128)%N; [discriminate|].
  destruct (between 194 223 c); [destruct (Utf8.cont b1); discriminate|].
  destruct (between 224 239 c); [exact (fun H => H)|].
  destruct (between 240 244 c); [|discriminate].
  destruct r; [discriminate|].
  match goal with |- (if ?b then _ else _) = _ -> _ => destruct b end; discriminate.
Qed.

Lemma rune_len_4 c b1 b2 b3 r r' :
  Utf8.rune_len (String c (String b1 (String b2 (String b3 r)))) = 4 ->
  Utf8.rune_len (String c (String b1 (String b2 (String b3 r')))) = 4.
Proof.
  unfold Utf8.rune_len.
  destruct (byte_of c <? 128)%N; [discriminate|].
  destruct (between 194 223 c); [destruct (Utf8.cont b1); discriminate|].
  destruct (between 224 239 c).
  { match goal with |- (if ?b then _ else _) = _ -> _ => destruct b end; discriminate. }
  exact (fun H => H).
Qed.

(** The encoder leaves the bytes of a rune it copies where the decoder
    finds the same rune. *)
Lemma rune_len_copied c rest n :
  (byte_of c <? 128)%N = false ->
  Utf8.rune_len (String c rest) = S n ->
  Utf8.rune_len (String c (encode_from (Copy n) rest)) = S n.
Proof.
  intros Hc H. pose proof (rune_len_shape c rest n Hc H) as Hs.
  destruct n as [|[|[|[|n]]]]; try contradiction.
  - destruct Hs as (b1 & r & -> & _). cbn [encode_from]. exact (rune_len_2 _ _ _ _ H).
  - destruct Hs as (b1 & b2 & r & -> & _). cbn [encode_from]. exact (rune_len_3 _ _ _ _ _ H).
  - destruct Hs as (b1 & b2 & b3 & r & -> & _). cbn [encode_from].
    exact (rune_len_4 _ _ _ _ _ _ H).
Qed.

Lemma high_not_backslash c : (byte_of c <? 128)%N = false -> Ascii.eqb c backslash = false.
Proof.
  intros H. destruct (Ascii.eqb c backslash) eqn:E; [|reflexivity].
  apply Ascii.eqb_eq in E. subst c. discriminate H.
Qed.

Lemma unquote_separator_escape (r : N) (x : string) :
  (N.eqb r 8232 || N.eqb r 8233)%bool = true ->
  unquote_from Plain
    (String backslash "u202" ++ String (hex_digit (N.land r 15)) x)
  = Utf8.EncodeRune r ++ unquote_from Plain x.
Proof.
  intros H. apply orb_true_iff in H.
  destruct H as [H|H]; apply N.eqb_eq in H; subst r; cbn; rewrite unquote_skip0; reflexivity.
Qed.

Lemma drop_append (a b : string) : drop (String.length a) (a ++ b) = b.
Proof. induction a as [|c a IH]; [destruct b; reflexivity | exact IH]. Qed.

Theorem unquote_encode (s : string) :
  (Utf8.valid_from 0 s = true -> unquote_from Plain (encode_from Plain s) = s)
  /\ (forall k, Utf8.valid_from k s = true ->
                unquote_from (Copy k) (encode_from (Copy k) s) = s)
  /\ (forall k, Utf8.valid_from k s = true ->
                unquote_from Plain (encode_from (Skip k) s) = drop k s).
Proof.
  induction s as [|c rest (IHp & IHc & IHs)].
  { repeat split; intros; try destruct k; reflexivity. }
  assert (Hplain : Utf8.valid_from 0 (String c rest) = true ->
                   unquote_from Plain (encode_from Plain (String c rest)) = String c rest).
  { cbn [Utf8.valid_from]. intros Hv.
    destruct (byte_of c <? 128)%N eqn:Hc.
    - rewrite (rune_len_ascii c rest Hc) in Hv.
      rewrite (encode_plain_ascii c rest Hc), (unquote_ascii c _ Hc), (IHp Hv). reflexivity.
    - destruct (Utf8.rune_len (String c rest)) as [|n] eqn:Hn; [discriminate|].
      cbn [encode_from]. rewrite Hc, Hn.
      assert (Hcopy : unquote_from Plain (String c (encode_from (Copy n) rest))
                      = String c rest).
      { cbn [unquote_from]. rewrite (high_not_backslash c Hc), Hc.
        rewrite (rune_len_copied c rest n Hc Hn), (IHc n Hv). reflexivity. }
      destruct (Utf8.rune3 (String c rest)) as [r|] eqn:H3; [|exact Hcopy].
      destruct (N.eqb r 8232 || N.eqb r 8233)%bool eqn:Hr; [|exact Hcopy].
      rewrite (unquote_separator_escape r _ Hr).
      destruct (separator_bytes _ r H3 Hr) as (tail & Hs & Hl).
      destruct (rune3_inv _ r H3) as (b0 & b1 & b2 & rest0 & Heq & Hlen & _).
      rewrite Hn in Hlen. injection Hlen as ->.
      rewrite (IHs 2 Hv).
      injection Heq as -> ->. cbn [drop].
      match type of Hs with
      | ?whole = _ =>
        assert (Ht : drop (String.length (Utf8.EncodeRune r)) whole = tail)
          by (rewrite Hs; apply drop_append)
      end.
      rewrite Hl in Ht. cbn [drop] in Ht. subst tail. symmetry. exact Hs. }
  split; [exact Hplain|]. split.
  - intros [|k] Hv.
    + rewrite encode_copy0, unquote_copy0. exact (Hplain Hv).
    + cbn [Utf8.valid_from] in Hv. cbn [encode_from unquote_from]. rewrite (IHc k Hv). reflexivity.
  - intros [|k] Hv.
    + rewrite encode_skip0. exact (Hplain Hv).
    + cbn [Utf8.valid_from] in Hv. cbn [encode_from drop]. exact (IHs k Hv).
Qed.

Lemma rev_bytes_append a b acc : rev_bytes acc (a ++ b) = rev_bytes (rev_bytes acc a) b.
Proof. revert acc; induction a as [|c a IH]; intros acc; [reflexivity | apply IH]. Qed.

Lemma rev_append_rev_bytes s acc tail :
  rev_append_string (rev_bytes acc s) tail = rev_append_string acc (s ++ tail).
Proof.
  revert acc tail; induction s as [|c s IH]; intros acc tail; [reflexivity|].
  cbn [rev_bytes]. rewrite IH. reflexivity.
Qed.

Lemma string_of_rev_bytes s : string_of_rev (rev_bytes [] s) = s.
Proof.
  unfold string_of_rev. rewrite rev_append_rev_bytes. cbn.
  induction s as [|c s IH]; [reflexivity | cbn; rewrite IH; reflexivity].
Qed.

(** The scanner, inside a string literal, reads what the encoder writes
    for an ASCII byte and is inside the literal again. *)
Lemma scan_encoded_ascii c acc stack y :
  (byte_of c <? 128)%N = true ->
  scan (stateInString acc) stack false (encode_ascii c ++ y)
  = scan (stateInString (rev_bytes acc (encode_ascii c))) stack false y.
Proof.
  intros H.
  destruct c as [[] [] [] [] [] [] [] []]; try discriminate H; reflexivity.
Qed.

Lemma scan_high_byte c acc stack y :
  (byte_of c <? 128)%N = false ->
  scan (stateInString acc) stack false (String c y)
  = scan (stateInString (c :: acc)) stack false y.
Proof.
  intros H. cbn [scan step].
  assert (Hq : Ascii.eqb c dquote = false).
  { destruct (Ascii.eqb c dquote) eqn:E; [|reflexivity].
    apply Ascii.eqb_eq in E. subst c. discriminate H. }
  rewrite Hq, (high_not_backslash c H).
  replace (byte_of c <? 32)%N with false; [reflexivity|].
  symmetry. apply N.ltb_ge. apply N.ltb_ge in H. lia.
Qed.

Lemma high_ltb c : high c = true -> (byte_of c <? 128)%N = false.
Proof. unfold high. intros H. apply N.leb_le in H. apply N.ltb_ge. exact H. Qed.

Lemma rune_len_copying c rest n :
  (byte_of c <? 128)%N = false ->
  Utf8.rune_len (String c rest) = S n -> copying n rest.
Proof.
  intros Hc H. pose proof (rune_len_shape c rest n Hc H) as Hs.
  destruct n as [|[|[|[|n]]]]; try contradiction.
  - destruct Hs as (b1 & r & -> & H1). cbn. auto using high_ltb.
  - destruct Hs as (b1 & b2 & r & -> & H1 & H2). cbn. auto using high_ltb.
  - destruct Hs as (b1 & b2 & b3 & r & -> & H1 & H2 & H3). cbn. auto 6 using high_ltb.
Qed.

Lemma scan_encoded (s : string) :
  forall m acc stack tail,
    mode_ok m s ->
    scan (stateInString acc) stack false (encode_from m s ++ tail)
    = scan (stateInString (rev_bytes acc (encode_from m s))) stack false tail.
Proof.
  induction s as [|c rest IH]; intros m acc stack tail Hm; [reflexivity|].
  assert (Hplain :
    scan (stateInString acc) stack false (encode_from Plain (String c rest) ++ tail)
    = scan (stateInString (rev_bytes acc (encode_from Plain (String c rest)))) stack false tail).
  { destruct (byte_of c <? 128)%N eqn:Hc.
    - rewrite (encode_plain_ascii c rest Hc), append_assoc, rev_bytes_append.
      rewrite (scan_encoded_ascii c acc stack _ Hc). apply IH. exact I.
    - cbn [encode_from]. rewrite Hc.
      destruct (Utf8.rune_len (String c rest)) as [|n] eqn:Hn.
      + rewrite append_assoc, rev_bytes_append. cbn. apply IH. exact I.
      + assert (Hcopy :
          scan (stateInString acc) stack false (String c (encode_from (Copy n) rest) ++ tail)
          = scan (stateInString (rev_bytes acc (String c (encode_from (Copy n) rest))))
                 stack false tail).
        { cbn [append rev_bytes]. rewrite (scan_high_byte c acc stack _ Hc).
          apply IH. exact (rune_len_copying c rest n Hc Hn). }
        destruct (Utf8.rune3 (String c rest)) as [r|]; [|exact Hcopy].
        destruct (N.eqb r 8232 || N.eqb r 8233)%bool eqn:Hr; [|exact Hcopy].
        apply orb_true_iff in Hr.
        destruct Hr as [Hr|Hr]; apply N.eqb_eq in Hr; subst r;
          rewrite append_assoc; cbn; apply IH; exact I. }
  destruct m as [|[|k]|[|k]].
  - exact Hplain.
  - rewrite encode_skip0. exact Hplain.
  - cbn [encode_from]. apply IH. exact I.
  - rewrite encode_copy0. exact Hplain.
  - cbn [encode_from]. destruct Hm as [Hc Hk].
    cbn [append rev_bytes]. rewrite (scan_high_byte c acc stack _ Hc).
    apply IH. exact Hk.
Qed.

(** The scanner reads the encoding of a string as one string literal. *)
Theorem checkValid_encode_string (s : string) :
  checkValid (encode_string s) = inl (JString (unquote (encode_from Plain s))).
Proof.
  unfold checkValid, first_value, encode_string, quoted.
  cbn [scan step].
  change (begin_value [] dquote) with (scanContinue (stateInString []) []).
  change (true && isSpace dquote)%bool with false. cbv iota.
  rewrite (scan_encoded s Plain [] [] _ I).
  cbn [scan step].
  change (Ascii.eqb dquote dquote) with true. cbv iota.
  cbn [deliver all_bytes]. rewrite string_of_rev_bytes. reflexivity.
Qed.

Theorem encode_string_read_back (s : string) :
  Utf8.valid_from 0 s = true -> checkValid (encode_string s) = inl (JString s).
Proof.
  intros H. rewrite checkValid_encode_string.
  unfold unquote. rewrite (proj1 (unquote_encode s) H). reflexivity.
Qed.

(** A string literal at the start of a value, inside a container. *)
Lemma scan_encoded_string (st : state) (stack : list frame) (x y : string) :
  st = stateBeginValue \/ st = stateBeginValueOrEmpty ->
  scan st stack false (encode_string x ++ y)
  = match deliver (JString (unquote (encode_from Plain x))) stack with
    | scanContinue st' stack' => scan st' stack' false y
    | scanEnd v _ => Scanned v y
    | scanError => Failed SyntaxError
    end.
Proof.
  intros Hst. unfold encode_string, quoted.
  assert (H1 : scan st stack false (String dquote ((encode_from Plain x ++ String dquote "") ++ y))
               = scan (stateInString []) stack false
                      ((encode_from Plain x ++ String dquote "") ++ y)).
  { destruct Hst as [-> | ->]; reflexivity. }
  cbn [append]. rewrite H1, append_assoc.
  rewrite (scan_encoded x Plain [] stack _ I).
  cbn [append scan step]. change (Ascii.eqb dquote dquote) with true. cbv iota.
  rewrite string_of_rev_bytes.
  destruct stack as [|[es|ms|ms k] up]; reflexivity.
Qed.

Lemma unquote_encode_valid x : Utf8.ValidString x = true -> unquote (encode_from Plain x) = x.
Proof. intros H. exact (proj1 (unquote_encode x) H). Qed.

(** The elements of an encoded array of strings, read into the open array. *)
Lemma scan_string_elements (l : list string) :
  forall (st : state) (es : list value) (stack : list frame) (y : string),
    st = stateBeginValue \/ st = stateBeginValueOrEmpty ->
    l <> [] ->
    Forall (fun x => Utf8.ValidString x = true) l ->
    scan st (parseArrayValue es :: stack) false (join "," (map encode_string l) ++ y)
    = scan stateEndValue (parseArrayValue (rev (map JString l) ++ es) :: stack) false y.
Proof.
  induction l as [|x l IH]; intros st es stack y Hst Hne Hv; [contradiction|].
  inversion Hv as [|? ? Hx Hl]; subst.
  destruct l as [|x' l'].
  - cbn [map join]. rewrite (scan_encoded_string st _ x y Hst).
    cbn [deliver]. rewrite (unquote_encode_valid x Hx). reflexivity.
  - change (join "," (map encode_string (x :: x' :: l')))
      with (encode_string x ++ "," ++ join "," (map encode_string (x' :: l'))).
    rewrite !append_assoc.
    rewrite (scan_encoded_string st _ x _ Hst).
    cbn [deliver]. rewrite (unquote_encode_valid x Hx).
    cbn [append scan step].
    change (end_value (parseArrayValue (JString x :: es) :: stack) ",")
      with (scanContinue stateBeginValue (parseArrayValue (JString x :: es) :: stack)).
    cbv iota. change (false && isSpace ",")%bool with false.
    rewrite (IH stateBeginValue (JString x :: es) stack y (or_introl eq_refl));
      [| discriminate | exact Hl].
    cbn [map rev]. rewrite <- !app_assoc. reflexivity.
Qed.

End Wire.

(** ** Decoded strings are well-formed UTF-8

    [unquote] coerces what it reads to well-formed UTF-8, so every string
    of a scanned value is well-formed, and so is every string the program
    gets from a decoder: the text and the tone of a request, the reply of
    [callLLM], the elements of a reply that is an array. *)

Section WellFormedProofs.

Import Json.

Lemma all_below_spec (P : N -> bool) (bits : nat) (prefix : N) :
  all_below bits prefix P = true ->
  forall r, (prefix * 2 ^ N.of_nat bits <= r < (prefix + 1) * 2 ^ N.of_nat bits)%N ->
            P r = true.
Proof.
  revert prefix; induction bits as [|b IH]; intros prefix H r Hr.
  - simpl in *. replace r with prefix by lia. exact H.
  - cbn [all_below] in H. apply andb_true_iff in H. destruct H as [H0 H1].
    rewrite Nat2N.inj_succ, N.pow_succ_r' in Hr.
    destruct (N.lt_ge_cases r ((2 * prefix + 1) * 2 ^ N.of_nat b)) as [Hlt|Hge].
    + apply (IH _ H0). lia.
    + apply (IH _ H1). lia.
Qed.

Lemma all_below_lt (P : N -> bool) (bits : nat) :
  all_below bits 0 P = true -> forall r, (r < 2 ^ N.of_nat bits)%N -> P r = true.
Proof.
  intros H r Hr. apply (all_below_spec P bits 0 H). lia.
Qed.

Lemma small_runes_checked : all_below 16 0 encoded_rune_ok = true.
Proof. vm_compute. reflexivity. Qed.

Lemma lead4_checked : all_below 9 0 lead4_ok = true.
Proof. vm_compute. reflexivity. Qed.

Lemma tail_checked : all_below 6 0 tail_ok = true.
Proof. vm_compute. reflexivity. Qed.

Lemma tail_byte_cont (r shift : N) : Utf8.cont (Utf8.tail_byte r shift) = true.
Proof.
  unfold Utf8.tail_byte.
  apply (all_below_lt tail_ok 6 tail_checked).
  change 63%N with (N.ones 6). rewrite N.land_ones.
  apply N.mod_lt. discriminate.
Qed.

Lemma EncodeRune_complete (r : N) :
  Utf8.rune_len (Utf8.EncodeRune r) = String.length (Utf8.EncodeRune r)
  /\ String.length (Utf8.EncodeRune r) <> 0.
Proof.
  destruct (N.lt_ge_cases r 65536) as [Hs|Hb].
  - pose proof (all_below_lt encoded_rune_ok 16 small_runes_checked r Hs) as H.
    unfold encoded_rune_ok in H. cbv zeta in H. apply andb_true_iff in H.
    destruct H as [H1 H2]. apply Nat.eqb_eq in H1. apply negb_true_iff in H2.
    apply Nat.eqb_neq in H2. split; assumption.
  - unfold Utf8.EncodeRune.
    replace (r <? 128)%N with false by (symmetry; apply N.ltb_ge; lia).
    replace (r <? 2048)%N with false by (symmetry; apply N.ltb_ge; lia).
    replace (r <? 65536)%N with false by (symmetry; apply N.ltb_ge; lia).
    replace (55296 <=? r)%N with true by (symmetry; apply N.leb_le; lia).
    replace (r <? 57344)%N with false by (symmetry; apply N.ltb_ge; lia).
    cbn [andb orb].
    destruct (1114111 <? r)%N eqn:Hbig; [split; [reflexivity | discriminate]|].
    apply N.ltb_ge in Hbig. split; [|discriminate].
    assert (Ht : (16 <= N.shiftr r 12 <= 271)%N).
    { rewrite N.shiftr_div_pow2. change (2 ^ 12)%N with 4096%N. split.
      - apply N.div_le_lower_bound; lia.
      - apply N.lt_succ_r. apply N.Div0.div_lt_upper_bound; lia. }
    pose proof (all_below_lt lead4_ok 9 lead4_checked (N.shiftr r 12)) as Hl.
    unfold lead4_ok in Hl.
    replace (16 <=? N.shiftr r 12)%N with true in Hl by (symmetry; apply N.leb_le; lia).
    replace (N.shiftr r 12 <=? 271)%N with true in Hl by (symmetry; apply N.leb_le; lia).
    cbn [andb] in Hl. cbv zeta in Hl.
    rewrite N.shiftr_shiftr in Hl. change (12 + 6)%N with 18%N in Hl.
    specialize (Hl ltac:(change (2 ^ N.of_nat 9)%N with 512%N; lia)).
    repeat (apply andb_true_iff in Hl; destruct Hl as [Hl ?]).
    repeat match goal with
           | H : negb ?b = true |- _ => apply negb_true_iff in H
           end.
    unfold Utf8.rune_len.
    change (Utf8.tail_byte r 12) with (of_byte (N.lor 128 (N.land (N.shiftr r 12) 63))).
    rewrite Hl, H2, H1, H0, H, !tail_byte_cont. reflexivity.
Qed.

Lemma rune_len_le4 s : Utf8.rune_len s <= 4.
Proof.
  unfold Utf8.rune_len.
  repeat match goal with
         | |- context [if ?b then _ else _] => destruct b
         | |- context [match ?r with EmptyString => _ | String _ _ => _ end] => destruct r
         end; lia.
Qed.

Lemma rune_len_1 c y :
  Utf8.rune_len (String c "") = 1 -> Utf8.rune_len (String c y) = 1.
Proof.
  unfold Utf8.rune_len.
  destruct (byte_of c <? 128)%N; [reflexivity|].
  destruct (between 194 223 c); [discriminate|].
  destruct (between 224 239 c); [discriminate|].
  destruct (between 240 244 c); discriminate.
Qed.

(** A complete rune at the head of a string is found there whatever
    follows it. *)
Lemma rune_prefix (e y : string) :
  Utf8.rune_len e = String.length e -> String.length e <> 0 ->
  Utf8.rune_len (e ++ y) = String.length e.
Proof.
  intros H Hne. pose proof (rune_len_le4 e) as Hle.
  destruct e as [|c [|b1 [|b2 [|b3 [|b4 e]]]]]; cbn [String.length] in *; try lia.
  - exact (rune_len_1 c y H).
  - exact (rune_len_2 c b1 "" y H).
  - exact (rune_len_3 c b1 b2 "" y H).
  - exact (rune_len_4 c b1 b2 b3 "" y H).
Qed.

Lemma valid_from_pending (e y : string) :
  Utf8.valid_from (String.length e) (e ++ y) = Utf8.valid_from 0 y.
Proof. induction e as [|c e IH]; [reflexivity | exact IH]. Qed.

Lemma valid_after_rune (e y : string) :
  Utf8.rune_len e = String.length e -> String.length e <> 0 ->
  Utf8.valid_from 0 (e ++ y) = Utf8.valid_from 0 y.
Proof.
  intros H Hne. pose proof (rune_prefix e y H Hne) as Hp.
  destruct e as [|c e]; [contradiction|].
  cbn [append Utf8.valid_from] in *. rewrite Hp. cbn [String.length].
  apply valid_from_pending.
Qed.

Lemma valid_EncodeRune (r : N) (y : string) :
  Utf8.valid_from 0 (Utf8.EncodeRune r ++ y) = Utf8.valid_from 0 y.
Proof.
  destruct (EncodeRune_complete r) as [H Hne]. exact (valid_after_rune _ y H Hne).
Qed.

Lemma valid_ascii (c : ascii) (y : string) :
  (byte_of c <? 128)%N = true ->
  Utf8.valid_from 0 (String c y) = Utf8.valid_from 0 y.
Proof.
  intros H. cbn [Utf8.valid_from]. rewrite (rune_len_ascii c y H). reflexivity.
Qed.

Lemma getu4_inv s v :
  getu4 s = Some v ->
  exists h1 h2 h3 h4 tail,
    s = String backslash (String "u" (String h1 (String h2 (String h3 (String h4 tail)))))
    /\ is_hex h1 = true /\ is_hex h2 = true /\ is_hex h3 = true /\ is_hex h4 = true.
Proof.
  unfold getu4.
  destruct s as [|b [|u [|h1 [|h2 [|h3 [|h4 tail]]]]]]; try discriminate.
  match goal with |- (if ?c then _ else _) = _ -> _ => destruct c eqn:E end; [|discriminate].
  intros _. repeat (apply andb_true_iff in E; destruct E as [E ?]).
  apply Ascii.eqb_eq in E. subst b.
  match goal with H : Ascii.eqb u _ = true |- _ => apply Ascii.eqb_eq in H; subst u end.
  exists h1, h2, h3, h4, tail. auto 8.
Qed.

Lemma literal_run_escape_u h1 h2 h3 h4 tail :
  is_hex h1 = true -> is_hex h2 = true -> is_hex h3 = true -> is_hex h4 = true ->
  literal_run InLit
    (String backslash (String "u" (String h1 (String h2 (String h3 (String h4 tail))))))
  = literal_run InLit tail.
Proof.
  intros H1 H2 H3 H4.
  cbn [literal_run]. change (literal_step InLit backslash) with (Some InEsc). cbv iota.
  cbn [literal_run]. change (literal_step InEsc "u") with (Some (InEscU 0)). cbv iota.
  cbn [literal_run]. unfold literal_step at 1. rewrite H1. cbv iota.
  cbn [literal_run]. unfold literal_step at 1. rewrite H2. cbv iota.
  cbn [literal_run]. unfold literal_step at 1. rewrite H3. cbv iota.
  cbn [literal_run]. unfold literal_step at 1. rewrite H4. reflexivity.
Qed.

Lemma escape_char_ascii e :
  escape_char e = true -> (byte_of (unescape e) <? 128)%N = true.
Proof.
  destruct e as [[] [] [] [] [] [] [] []]; intros H; try discriminate H; reflexivity.
Qed.

Lemma literal_run_high (n : nat) (rest : string) :
  copying n rest -> literal_run InLit rest = literal_run InLit (drop n rest).
Proof.
  revert rest; induction n as [|n IH]; intros rest H; [destruct rest; reflexivity|].
  destruct rest as [|c rest]; [contradiction|]. destruct H as [Hc Hn].
  cbn [literal_run literal_step drop].
  assert (Hq : Ascii.eqb c dquote = false).
  { destruct (Ascii.eqb c dquote) eqn:E; [|reflexivity].
    apply Ascii.eqb_eq in E. subst c. discriminate Hc. }
  rewrite Hq, (high_not_backslash c Hc).
  replace (byte_of c <? 32)%N with false
    by (symmetry; apply N.ltb_ge; apply N.ltb_ge in Hc; lia).
  exact (IH rest Hn).
Qed.

Lemma rune_len_unquoted c rest n :
  (byte_of c <? 128)%N = false ->
  Utf8.rune_len (String c rest) = S n ->
  Utf8.rune_len (String c (unquote_from (Copy n) rest)) = S n.
Proof.
  intros Hc H. pose proof (rune_len_shape c rest n Hc H) as Hs.
  destruct n as [|[|[|[|n]]]]; try contradiction.
  - destruct Hs as (b1 & r & -> & _). cbn [unquote_from]. exact (rune_len_2 _ _ _ _ H).
  - destruct Hs as (b1 & b2 & r & -> & _). cbn [unquote_from]. exact (rune_len_3 _ _ _ _ _ H).
  - destruct Hs as (b1 & b2 & b3 & r & -> & _). cbn [unquote_from].
    exact (rune_len_4 _ _ _ _ _ _ H).
Qed.

Lemma literal_step_plain c :
  Ascii.eqb c backslash = false ->
  forall q, literal_step InLit c = Some q -> q = InLit.
Proof.
  intros Hb q. unfold literal_step. rewrite Hb.
  destruct (Ascii.eqb c dquote); [discriminate|].
  destruct (byte_of c <? 32)%N; [discriminate|]. congruence.
Qed.

Lemma literal_run_plain c rest :
  Ascii.eqb c backslash = false ->
  literal_run InLit (String c rest) = Some InLit ->
  literal_run InLit rest = Some InLit.
Proof.
  intros Hb. cbn [literal_run].
  destruct (literal_step InLit c) as [q|] eqn:E; [|discriminate].
  rewrite (literal_step_plain c Hb q E). exact (fun H => H).
Qed.

(** What [unquote] makes of a literal the scanner accepts is well-formed
    UTF-8. *)
Theorem unquote_valid_from (x : string) :
  (forall k, literal_run InLit (drop k x) = Some InLit ->
             Utf8.valid_from 0 (unquote_from (Skip k) x) = true)
  /\ (forall k, copying k x -> literal_run InLit (drop k x) = Some InLit ->
                Utf8.valid_from k (unquote_from (Copy k) x) = true).
Proof.
  induction x as [|c rest [IHs IHc]].
  { split; intros; destruct k; reflexivity. }
  assert (HP : literal_run InLit (String c rest) = Some InLit ->
               Utf8.valid_from 0 (unquote_from Plain (String c rest)) = true).
  { intros Hacc. cbn [unquote_from].
    destruct (Ascii.eqb c backslash) eqn:Eb.
    - apply Ascii.eqb_eq in Eb. subst c.
      destruct rest as [|e rest']; [reflexivity|].
      destruct (Ascii.eqb e "u") eqn:Eu.
      + apply Ascii.eqb_eq in Eu. subst e.
        destruct (getu4 (String backslash (String "u" rest'))) as [rr|] eqn:G; [|reflexivity].
        destruct (getu4_inv _ _ G) as (h1 & h2 & h3 & h4 & tail & Heq & Hh1 & Hh2 & Hh3 & Hh4).
        injection Heq as ->.
        rewrite (literal_run_escape_u h1 h2 h3 h4 tail Hh1 Hh2 Hh3 Hh4) in Hacc.
        assert (H5 : Utf8.valid_from 0
                       (unquote_from (Skip 5)
                          (String "u" (String h1 (String h2 (String h3 (String h4 tail))))))
                     = true) by (apply IHs; exact Hacc).
        destruct (is_surrogate rr); [|rewrite valid_EncodeRune; exact H5].
        cbn [substring].
        destruct (getu4 (substring 0 6 tail)) as [rr1|] eqn:G2;
          [|rewrite valid_EncodeRune; exact H5].
        destruct (utf16_DecodeRune rr rr1) as [dec|]; [|rewrite valid_EncodeRune; exact H5].
        rewrite valid_EncodeRune. apply IHs. cbn [drop].
        destruct tail as [|a0 [|a1 [|a2 [|a3 [|a4 [|a5 tail2]]]]]]; try discriminate G2.
        cbn [substring] in G2.
        destruct (getu4_inv _ _ G2) as (g1 & g2 & g3 & g4 & t' & Heq & Hg1 & Hg2 & Hg3 & Hg4).
        injection Heq as -> -> -> -> -> -> _.
        rewrite (literal_run_escape_u g1 g2 g3 g4 tail2 Hg1 Hg2 Hg3 Hg4) in Hacc.
        exact Hacc.
      + cbn [literal_run] in Hacc.
        change (literal_step InLit backslash) with (Some InEsc) in Hacc. cbv iota in Hacc.
        cbn [literal_run] in Hacc. unfold literal_step at 1 in Hacc. rewrite Eu in Hacc.
        destruct (escape_char e) eqn:Ee; [|discriminate Hacc].
        rewrite (valid_ascii _ _ (escape_char_ascii e Ee)).
        apply IHs. exact Hacc.
    - pose proof (literal_run_plain c rest Eb Hacc) as Hrest.
      destruct (byte_of c <? 128)%N eqn:Hc.
      + rewrite (valid_ascii c _ Hc), <- unquote_skip0. apply IHs. exact Hrest.
      + destruct (Utf8.rune_len (String c rest)) as [|n] eqn:Hn.
        * rewrite valid_EncodeRune, <- unquote_skip0. apply IHs. exact Hrest.
        * cbn [Utf8.valid_from]. rewrite (rune_len_unquoted c rest n Hc Hn).
          pose proof (rune_len_copying c rest n Hc Hn) as Hk.
          apply (IHc n Hk). rewrite <- (literal_run_high n rest Hk). exact Hrest. }
  split.
  - intros [|k] H.
    + rewrite unquote_skip0. exact (HP H).
    + cbn [unquote_from]. apply IHs. exact H.
  - intros [|k] Hk H.
    + rewrite unquote_copy0. exact (HP H).
    + destruct Hk as [_ Hk]. cbn [unquote_from Utf8.valid_from]. apply (IHc k Hk). exact H.
Qed.

Theorem unquote_valid (x : string) :
  body_ok x = true -> Utf8.ValidString (unquote x) = true.
Proof.
  unfold body_ok, Utf8.ValidString, unquote. intros H.
  rewrite <- unquote_skip0. apply (proj1 (unquote_valid_from x) 0).
  cbn [drop]. destruct (literal_run InLit x) as [[| |]|]; try discriminate H. reflexivity.
Qed.

Lemma value_ok_array (l : list value) : value_ok (JArray l) <-> Forall value_ok l.
Proof.
  induction l as [|x l IH]; cbn [value_ok]; [split; auto|].
  cbn [value_ok] in IH. split.
  - intros [Hx Hl]. constructor; [exact Hx | apply IH; exact Hl].
  - intros H. inversion H; subst. split; [assumption | apply IH; assumption].
Qed.

Lemma value_ok_object (l : list (string * value)) :
  value_ok (JObject l) <-> Forall member_ok l.
Proof.
  induction l as [|x l IH]; cbn [value_ok]; [split; auto|].
  cbn [value_ok] in IH. split.
  - intros [Hx Hl]. constructor; [exact Hx | apply IH; exact Hl].
  - intros H. inversion H; subst. split; [assumption | apply IH; assumption].
Qed.

Lemma deliver_ok (v : value) (stack : list frame) :
  value_ok v -> Forall frame_ok stack -> verdict_ok (deliver v stack).
Proof.
  intros Hv Hs. destruct stack as [|[es|ms|ms k] up]; cbn [deliver verdict_ok].
  - exact Hv.
  - inversion Hs; subst. split; [exact I|]. constructor; [|assumption].
    cbn [frame_ok] in *. constructor; assumption.
  - destruct v; cbn [verdict_ok]; try exact I.
    inversion Hs; subst. split; [exact I|]. constructor; assumption.
  - inversion Hs; subst. split; [exact I|]. constructor; [|assumption].
    cbn [frame_ok] in *. constructor; assumption.
Qed.

Lemma end_value_ok (stack : list frame) (c : ascii) :
  Forall frame_ok stack -> verdict_ok (end_value stack c).
Proof.
  intros Hs. unfold end_value.
  destruct (isSpace c); [split; [exact I | exact Hs]|].
  destruct stack as [|[es|ms|ms k] up]; try exact I; inversion Hs; subst.
  - destruct (Ascii.eqb c ","); [split; [exact I | exact Hs]|].
    destruct (Ascii.eqb c "]"); [|exact I].
    apply deliver_ok; [|assumption]. apply value_ok_array. apply Forall_rev. assumption.
  - destruct (Ascii.eqb c ","); [split; [exact I | exact Hs]|].
    destruct (Ascii.eqb c "}"); [|exact I].
    apply deliver_ok; [|assumption]. apply value_ok_object. apply Forall_rev. assumption.
Qed.

Lemma push_ok (f : frame) (stack : list frame) (st : state) :
  frame_ok f -> state_ok st -> Forall frame_ok stack ->
  verdict_ok (pushParseState f stack st).
Proof.
  intros Hf Hst Hs. unfold pushParseState.
  destruct (N.of_nat (length (f :: stack)) <=? maxNestingDepth)%N; [|exact I].
  split; [exact Hst | constructor; assumption].
Qed.

Lemma begin_string_ok (stack : list frame) (c : ascii) :
  Forall frame_ok stack -> verdict_ok (begin_string stack c).
Proof.
  intros Hs. unfold begin_string.
  destruct (isSpace c); [split; [exact I | exact Hs]|].
  destruct (Ascii.eqb c dquote); [|exact I]. split; [reflexivity | exact Hs].
Qed.

Lemma begin_value_ok (stack : list frame) (c : ascii) :
  Forall frame_ok stack -> verdict_ok (begin_value stack c).
Proof.
  intros Hs. unfold begin_value.
  repeat match goal with
         | |- verdict_ok (if ?b then _ else _) => destruct b
         end;
    try exact I; try (split; [first [exact I | reflexivity] | exact Hs]).
  - apply push_ok; [constructor | exact I | exact Hs].
  - apply push_ok; [constructor | exact I | exact Hs].
Qed.

Lemma end_number_ok (lit : list ascii) (stack : list frame) (c : ascii) :
  Forall frame_ok stack -> verdict_ok (end_number lit stack c).
Proof.
  intros Hs. unfold end_number.
  pose proof (deliver_ok (JNumber (string_of_rev lit)) stack I Hs) as H.
  destruct (deliver (JNumber (string_of_rev lit)) stack) as [st' stack'|v b|].
  - destruct H as [_ H]. apply end_value_ok. exact H.
  - exact H.
  - exact I.
Qed.

Lemma rev_append_string_app (acc : list ascii) (t : string) :
  rev_append_string acc t = rev_append_string acc "" ++ t.
Proof.
  revert t; induction acc as [|c acc IH]; intros t; [reflexivity|].
  cbn [rev_append_string]. rewrite (IH (String c t)), (IH (String c "")).
  rewrite append_assoc. reflexivity.
Qed.

Lemma string_of_rev_cons (c : ascii) (acc : list ascii) :
  string_of_rev (c :: acc) = string_of_rev acc ++ String c "".
Proof. unfold string_of_rev. cbn [rev_append_string]. apply rev_append_string_app. Qed.

Lemma literal_run_snoc (q : literal) (a : string) (c : ascii) :
  literal_run q (a ++ String c "")
  = match literal_run q a with
    | Some q1 => literal_step q1 c
    | None => None
    end.
Proof.
  revert q; induction a as [|x a IH]; intros q; cbn [append literal_run].
  - destruct (literal_step q c); reflexivity.
  - destruct (literal_step q x); [apply IH | reflexivity].
Qed.

Lemma literal_push (q q' : literal) (c : ascii) (body : list ascii) :
  literal_run InLit (string_of_rev body) = Some q ->
  literal_step q c = Some q' ->
  literal_run InLit (string_of_rev (c :: body)) = Some q'.
Proof.
  intros H Hs. rewrite string_of_rev_cons, literal_run_snoc, H. exact Hs.
Qed.

Lemma step_esc_ok (body : list ascii) (stack : list frame) (c : ascii) :
  literal_run InLit (string_of_rev body) = Some InEsc ->
  Forall frame_ok stack ->
  verdict_ok (step (stateInStringEsc body) stack c).
Proof.
  intros H Hs.
  destruct c as [[] [] [] [] [] [] [] []]; try exact I;
    (split; [apply (literal_push InEsc _ _ _ H); reflexivity | exact Hs]).
Qed.

(** One step of the scanner keeps its state and its stack well-formed. *)
Lemma step_ok (st : state) (stack : list frame) (c : ascii) :
  state_ok st -> Forall frame_ok stack -> verdict_ok (step st stack c).
Proof.
  intros Hst Hs.
  destruct st as [ | | | | | | body | body | seen body
                   | lit | lit | lit | lit | lit | lit | lit | lit | expect v];
    cbn [step].
  - apply begin_value_ok; exact Hs.
  - destruct (isSpace c); [split; [exact I | exact Hs]|].
    destruct (Ascii.eqb c "]"); [apply end_value_ok | apply begin_value_ok]; exact Hs.
  - destruct (isSpace c); [split; [exact I | exact Hs]|].
    destruct (Ascii.eqb c "}"); [apply end_value_ok | apply begin_string_ok]; exact Hs.
  - apply begin_string_ok; exact Hs.
  - apply end_value_ok; exact Hs.
  - destruct (isSpace c); [split; [exact I | exact Hs]|].
    destruct (Ascii.eqb c ":"); [split; [exact I | exact Hs] | exact I].
  - cbn [state_ok] in Hst.
    destruct (Ascii.eqb c dquote) eqn:Eq.
    { apply deliver_ok; [|exact Hs]. cbn [value_ok]. apply unquote_valid.
      unfold body_ok. rewrite Hst. reflexivity. }
    destruct (Ascii.eqb c backslash) eqn:Eb.
    { split; [|exact Hs]. apply (literal_push InLit _ _ _ Hst).
      unfold literal_step. rewrite Eq, Eb. reflexivity. }
    destruct (byte_of c <? 32)%N eqn:Ec; [exact I|].
    split; [|exact Hs]. apply (literal_push InLit _ _ _ Hst).
    unfold literal_step. rewrite Eq, Eb, Ec. reflexivity.
  - apply step_esc_ok; assumption.
  - cbn [state_ok] in Hst.
    destruct (is_hex c) eqn:Eh; [|exact I].
    destruct seen as [|[|[|seen]]]; cbn [verdict_ok]; (split; [|exact Hs]);
      apply (literal_push _ _ _ _ Hst); unfold literal_step; rewrite Eh; reflexivity.
  - repeat match goal with
           | |- verdict_ok (if ?b then _ else _) => destruct b
           end; try exact I; (split; [exact I | exact Hs]).
  - repeat match goal with
           | |- verdict_ok (if ?b then _ else _) => destruct b
           end; try (split; [exact I | exact Hs]). apply end_number_ok; exact Hs.
  - repeat match goal with
           | |- verdict_ok (if ?b then _ else _) => destruct b
           end; try (split; [exact I | exact Hs]). apply end_number_ok; exact Hs.
  - destruct (is_digit c); [split; [exact I | exact Hs] | exact I].
  - repeat match goal with
           | |- verdict_ok (if ?b then _ else _) => destruct b
           end; try (split; [exact I | exact Hs]). apply end_number_ok; exact Hs.
  - repeat match goal with
           | |- verdict_ok (if ?b then _ else _) => destruct b
           end; try exact I; (split; [exact I | exact Hs]).
  - destruct (is_digit c); [split; [exact I | exact Hs] | exact I].
  - destruct (is_digit c); [split; [exact I | exact Hs] | apply end_number_ok; exact Hs].
  - cbn [state_ok] in Hst.
    destruct expect as [|x [|y more]]; try exact I;
      destruct (Ascii.eqb c x); try exact I.
    + apply deliver_ok; assumption.
    + split; [exact Hst | exact Hs].
Qed.

Lemma scan_ok (s : string) :
  forall st stack blank,
    state_ok st -> Forall frame_ok stack ->
    match scan st stack blank s with
    | Scanned v _ => value_ok v
    | Failed _ => True
    end.
Proof.
  induction s as [|c s IH]; intros st stack blank Hst Hs; cbn [scan].
  - unfold eof. pose proof (step_ok st stack " " Hst Hs) as H.
    destruct (step st stack " "); try exact I. exact H.
  - pose proof (step_ok st stack c Hst Hs) as H.
    destruct (step st stack c) as [st' stack'|v b|]; try exact I.
    + destruct H as [H1 H2]. apply IH; assumption.
    + exact H.
Qed.

(** The strings of a value the scanner reads are well-formed UTF-8. *)
Theorem checkValid_ok (data : string) (v : value) :
  checkValid data = inl v -> value_ok v.
Proof.
  unfold checkValid, first_value. intros H.
  pose proof (scan_ok data stateBeginValue [] true I (Forall_nil _)) as Hs.
  destruct (scan stateBeginValue [] true data) as [v' rest|e]; [|discriminate H].
  destruct (all_bytes isSpace rest); [|discriminate H]. injection H as <-. exact Hs.
Qed.

Theorem readValue_ok (data : string) (v : value) :
  readValue data = inl v -> value_ok v.
Proof.
  unfold readValue, first_value. intros H.
  pose proof (scan_ok data stateBeginValue [] true I (Forall_nil _)) as Hs.
  destruct (scan stateBeginValue [] true data) as [v' rest|e]; [|discriminate H].
  injection H as <-. exact Hs.
Qed.

Lemma store_string_keeps : store_keeps valid_string store_string.
Proof. intros v cur Hv Hc. destruct v; cbn; assumption. Qed.

Lemma store_struct_keeps {T} (inv : T -> Prop) (field : string -> option (store T)) :
  (forall key st, field key = Some st -> store_keeps inv st) ->
  store_keeps inv (store_struct field).
Proof.
  intros Hf v cur Hv Hc. unfold store_struct.
  destruct v as [| | | | |members]; try exact Hc.
  apply value_ok_object in Hv.
  assert (H : forall ms acc, Forall member_ok ms -> inv (fst acc) ->
            inv (fst (fold_left
              (fun (acc : T * bool) (m : string * value) =>
                 match field (fst m) with
                 | Some st => let '(x, bad) := st (snd m) (fst acc) in (x, (snd acc || bad)%bool)
                 | None => acc
                 end) ms acc))).
  { induction ms as [|m ms IH]; intros acc Hms Hacc; [exact Hacc|].
    inversion Hms; subst. cbn [fold_left]. apply IH; [assumption|].
    destruct (field (fst m)) as [st|] eqn:E; [|exact Hacc].
    pose proof (Hf _ _ E (snd m) (fst acc) ltac:(assumption) Hacc) as Hk.
    destruct (st (snd m) (fst acc)); exact Hk. }
  apply H; assumption.
Qed.

Lemma store_cells_keeps {T} (inv : T -> Prop) (zero : T) (st : store T) :
  store_keeps inv st -> inv zero ->
  forall items backing,
    Forall value_ok items -> Forall inv backing ->
    Forall inv (fst (store_cells zero st items backing)).
Proof.
  intros Hst Hz. induction items as [|v items IH]; intros backing Hi Hb; [constructor|].
  inversion Hi; subst. cbn [store_cells].
  assert (Hcell : inv (match backing with [] => zero | x :: _ => x end))
    by (destruct backing; [exact Hz | inversion Hb; assumption]).
  pose proof (Hst v _ ltac:(assumption) Hcell) as Hx.
  destruct (st v (match backing with [] => zero | x :: _ => x end)) as [x bad].
  assert (Htl : Forall inv (tl backing))
    by (destruct backing; [constructor | inversion Hb; assumption]).
  pose proof (IH (tl backing) ltac:(assumption) Htl) as Hxs.
  destruct (store_cells zero st items (tl backing)) as [xs bad'].
  constructor; assumption.
Qed.

Lemma Forall_skipn {A} (P : A -> Prop) (n : nat) (l : list A) :
  Forall P l -> Forall P (skipn n l).
Proof.
  revert l; induction n as [|n IH]; intros l H; [exact H|].
  destruct l; [constructor|]. inversion H; subst. apply IH. assumption.
Qed.

Lemma store_slice_keeps {T} (inv : T -> Prop) (zero : T) (st : store T) :
  store_keeps inv st -> inv zero -> store_keeps (slice_ok inv) (store_slice zero st).
Proof.
  intros Hst Hz v cur Hv Hc. unfold store_slice.
  destruct v as [| | | |items|]; try exact Hc; try exact I.
  destruct items as [|x items]; [split; constructor|].
  apply value_ok_array in Hv.
  assert (Hb : Forall inv (match cur with Nil => [] | Slice es sp => (es ++ sp)%list end)).
  { destruct cur as [|es sp]; [constructor|]. destruct Hc. apply Forall_app. split; assumption. }
  pose proof (store_cells_keeps inv zero st Hst Hz (x :: items) _ Hv Hb) as Hx.
  destruct (store_cells zero st (x :: items) _) as [xs bad].
  split; [exact Hx | apply Forall_skipn; exact Hb].
Qed.

Lemma store_strings_keeps : store_keeps (slice_ok valid_string) store_strings.
Proof. apply store_slice_keeps; [exact store_string_keeps | reflexivity]. Qed.

Lemma store_TextRequest_keeps :
  store_keeps (fun r => valid_string (Text r)) store_TextRequest.
Proof.
  apply store_struct_keeps. intros key st.
  destruct (selects key "text"); [|discriminate].
  intros H; injection H as <-. intros v cur Hv Hc.
  pose proof (store_string_keeps v (Text cur) Hv Hc) as Hs.
  destruct (store_string v (Text cur)); exact Hs.
Qed.

Lemma store_RewriteRequest_keeps : store_keeps rewrite_ok store_RewriteRequest.
Proof.
  apply store_struct_keeps. intros key st.
  destruct (selects key "text").
  { intros H; injection H as <-. intros v cur Hv [Hc1 Hc2].
    pose proof (store_string_keeps v _ Hv Hc1) as Hs.
    destruct (store_string v (RewriteRequest_Text cur)); split; assumption. }
  destruct (selects key "tone"); [|discriminate].
  intros H; injection H as <-. intros v cur Hv [Hc1 Hc2].
  pose proof (store_string_keeps v _ Hv Hc2) as Hs.
  destruct (store_string v (Tone cur)); split; assumption.
Qed.

Lemma store_ChatMessage_keeps : store_keeps message_ok store_ChatMessage.
Proof.
  apply store_struct_keeps. intros key st.
  destruct (selects key "role").
  { intros H; injection H as <-. intros v cur Hv [Hc1 Hc2].
    pose proof (store_string_keeps v _ Hv Hc1) as Hs.
    destruct (store_string v (Role cur)); split; assumption. }
  destruct (selects key "content"); [|discriminate].
  intros H; injection H as <-. intros v cur Hv [Hc1 Hc2].
  pose proof (store_string_keeps v _ Hv Hc2) as Hs.
  destruct (store_string v (Content cur)); split; assumption.
Qed.

Lemma store_ChatChoice_keeps : store_keeps choice_ok store_ChatChoice.
Proof.
  apply store_struct_keeps. intros key st.
  destruct (selects key "message"); [|discriminate].
  intros H; injection H as <-. intros v cur Hv Hc.
  pose proof (store_ChatMessage_keeps v _ Hv Hc) as Hs.
  destruct (store_ChatMessage v (Message cur)); exact Hs.
Qed.

Lemma store_ChatResponse_keeps : store_keeps response_ok store_ChatResponse.
Proof.
  apply store_struct_keeps. intros key st.
  destruct (selects key "choices"); [|discriminate].
  intros H; injection H as <-. intros v cur Hv Hc.
  pose proof (store_slice_keeps choice_ok zero_ChatChoice store_ChatChoice
                store_ChatChoice_keeps (conj eq_refl eq_refl) v _ Hv Hc) as Hs.
  destruct (store_slice zero_ChatChoice store_ChatChoice v (Choices cur)); exact Hs.
Qed.

Lemma Decode_keeps {T} (inv : T -> Prop) (st : store T) (data : string) (x : T) :
  store_keeps inv st -> inv x -> inv (fst (Decode st data x)).
Proof.
  intros Hst Hx. unfold Decode.
  destruct (readValue data) as [v|e] eqn:E; [|exact Hx].
  pose proof (Hst v x (readValue_ok data v E) Hx) as H.
  destruct (st v x); exact H.
Qed.

(** Every reply [callLLM] returns is well-formed UTF-8. *)
Theorem callLLM_reply_valid (apiKey p : string) (w : World) (out : string) :
  result (callLLM apiKey p) w = inl out -> Utf8.ValidString out = true.
Proof.
  unfold result, callLLM, bind, send.
  destruct (Do w (llmRequest apiKey p)) as [resp|cause]; [|discriminate].
  destruct (StatusCode resp >=? 400)%Z; [discriminate|].
  pose proof (Decode_keeps response_ok store_ChatResponse (RespBody resp) zero_ChatResponse
                store_ChatResponse_keeps I) as Hd.
  destruct (Decode store_ChatResponse (RespBody resp) zero_ChatResponse) as [cr [e|]];
    [discriminate|].
  cbn [fst] in Hd. unfold response_ok in Hd.
  destruct (Choices cr) as [|es spare]; [discriminate|]. cbn [elements].
  destruct es as [|c cs]; [discriminate|].
  cbn. intros H; injection H as <-.
  destruct Hd as [Hd _]. inversion Hd as [|? ? [_ Hc] _]; subst. exact Hc.
Qed.

(** The elements of a reply that is an array of strings are well-formed. *)
Lemma array_of_strings_valid (reply : string) (l : list string) :
  array_of_strings reply l -> Forall (fun x => Utf8.ValidString x = true) l.
Proof.
  intros H. apply checkValid_ok, value_ok_array in H.
  induction l as [|x l IH]; [constructor|].
  inversion H; subst. constructor; [assumption | apply IH; assumption].
Qed.

(** The text and the tone read from a body are well-formed UTF-8. *)
Lemma decode_body_valid (e : endpoint) (body : string) :
  Utf8.ValidString (text (fst (decode_body e body))) = true
  /\ Utf8.ValidString (tone (fst (decode_body e body))) = true.
Proof.
  destruct e; cbn [decode_body fst text tone]; try (split; [|reflexivity]).
  all: try exact (Decode_keeps (fun r => valid_string (Text r)) store_TextRequest body
                    zero_TextRequest store_TextRequest_keeps eq_refl).
  exact (Decode_keeps rewrite_ok store_RewriteRequest body zero_RewriteRequest
           store_RewriteRequest_keeps (conj eq_refl eq_refl)).
Qed.

Lemma rune_len_appended (c : ascii) (a b : string) (n : nat) :
  (byte_of c <? 128)%N = false ->
  Utf8.rune_len (String c a) = S n ->
  Utf8.rune_len (String c (a ++ b)) = S n /\ n <= String.length a.
Proof.
  intros Hc H. pose proof (rune_len_shape c a n Hc H) as Hs.
  destruct n as [|[|[|[|n]]]]; try contradiction.
  - destruct Hs as (b1 & r & -> & _). split; [exact (rune_len_2 _ _ _ _ H) | cbn; lia].
  - destruct Hs as (b1 & b2 & r & -> & _). split; [exact (rune_len_3 _ _ _ _ _ H) | cbn; lia].
  - destruct Hs as (b1 & b2 & b3 & r & -> & _).
    split; [exact (rune_len_4 _ _ _ _ _ _ H) | cbn; lia].
Qed.

Lemma valid_from_append (a b : string) :
  forall k, k <= String.length a ->
            Utf8.valid_from k a = true ->
            Utf8.valid_from k (a ++ b) = Utf8.valid_from 0 b.
Proof.
  induction a as [|c a IH]; intros k Hk Hv.
  - cbn in Hk. replace k with 0 by lia. reflexivity.
  - destruct k as [|k].
    + cbn [append Utf8.valid_from] in *.
      destruct (byte_of c <? 128)%N eqn:Hc.
      * rewrite (rune_len_ascii c a Hc) in Hv. rewrite (rune_len_ascii c (a ++ b) Hc).
        apply IH; [lia | exact Hv].
      * destruct (Utf8.rune_len (String c a)) as [|n] eqn:Hn; [discriminate|].
        destruct (rune_len_appended c a b n Hc Hn) as [Hn' Hle].
        rewrite Hn'. apply IH; assumption.
    + cbn [append Utf8.valid_from String.length] in *. apply IH; [lia | exact Hv].
Qed.

(** Two well-formed strings make a well-formed string. *)
Lemma valid_append (a b : string) :
  Utf8.ValidString a = true -> Utf8.ValidString b = true ->
  Utf8.ValidString (a ++ b) = true.
Proof.
  unfold Utf8.ValidString. intros Ha Hb.
  rewrite (valid_from_append a b 0 (Nat.le_0_l _) Ha). exact Hb.
Qed.

(** The prompt made of a well-formed text and tone is well-formed. *)
Lemma prompt_valid (e : endpoint) (f : fields) :
  Utf8.ValidString (text f) = true -> Utf8.ValidString (tone f) = true ->
  Utf8.ValidString (prompt e f) = true.
Proof.
  intros Ht Hn. destruct e; cbn [prompt].
  all: try (apply valid_append; [reflexivity | exact Ht]).
  unfold rewritePrompt. apply valid_append; [reflexivity|].
  apply valid_append; [destruct (String.eqb (tone f) ""); [reflexivity | exact Hn]|].
  apply valid_append; [reflexivity | exact Ht].
Qed.

End WellFormedProofs.

(** A few texts, run through the scanner and the decoder. *)

Example scan_surrogate_pair :
  Json.checkValid (quoted "\ud83d\ude00 \ud83d \u00e9\n")
  = inl (Json.JString ("😀 " ++ Utf8.EncodeRune Utf8.RuneError ++ " é" ++ LF)).
Proof. vm_compute. reflexivity. Qed.

Example scan_rejects_control_byte :
  Json.checkValid (quoted ("a" ++ LF ++ "b")) = inr Json.SyntaxError.
Proof. vm_compute. reflexivity. Qed.

Example decoder_stops_after_first_value :
  Json.readValue "[1, 2.5e3, true] ]" = inl (Json.JArray [Json.JNumber "1"; Json.JNumber "2.5e3"; Json.JBool true])
  /\ Json.checkValid "[1, 2.5e3, true] ]" = inr Json.SyntaxError.
Proof. vm_compute. split; reflexivity. Qed.

Example decoder_on_empty_body :
  Json.readValue "" = inr Json.EOF /\ Json.readValue "  {" = inr Json.UnexpectedEOF.
Proof. vm_compute. split; reflexivity. Qed.

Example key_matches_case_insensitively :
  Json.Decode store_TextRequest ("{" ++ quoted "TEXT" ++ ":" ++ quoted "hi" ++ "}") zero_TextRequest
  = ({| Text := "hi" |}, None).
Proof. vm_compute. reflexivity. Qed.

Example later_member_wins_and_null_keeps :
  Json.Decode store_TextRequest
    ("{" ++ quoted "text" ++ ":" ++ quoted "a" ++ "," ++ quoted "text" ++ ":" ++ quoted "b"
     ++ "," ++ quoted "text" ++ ":null}") zero_TextRequest
  = ({| Text := "b" |}, None).
Proof. vm_compute. reflexivity. Qed.

Example wrong_type_is_an_error :
  snd (Json.Decode store_TextRequest ("{" ++ quoted "text" ++ ":5}") zero_TextRequest)
  = Some Json.UnmarshalTypeError.
Proof. vm_compute. reflexivity. Qed.

(** The request body [callLLM] writes, read back by the scanner. *)
Example chat_request_on_the_wire :
  Json.checkValid (Body (llmRequest "key" "Hi <there>"))
  = inl (Json.JObject
           [("model", Json.JString "gpt-4o-mini");
            ("messages",
             Json.JArray
               [Json.JObject [("role", Json.JString "system");
                              ("content", Json.JString "You are a helpful text-processing assistant.")];
                Json.JObject [("role", Json.JString "user");
                              ("content", Json.JString "Hi <there>")]])])
  /\ ReqHeader (llmRequest "key" "Hi <there>")
     = [("Authorization", "Bearer key"); ("Content-Type", "application/json")].
Proof. vm_compute. split; reflexivity. Qed.

(** The scenario of the specification, on the wire. *)
Example summarize_scenario :
  result (handler summarize "key" (post "/summarize" (text_body "The sky is blue.")))
         (canned 200 (completion "- Sky is blue"))
  = {| StatusCode := 200;
       RespHeader := [("Content-Type", "application/json")];
       RespBody := "{" ++ quoted "summary" ++ ":" ++ quoted "- Sky is blue" ++ "}" ++ LF |}.
Proof. vm_compute. reflexivity. Qed.

Example health_reply (indexHTML : string) (w : World) :
  result (ServeHTTP (mux indexHTML "key")
            {| Method := "GET"; URL := "/health"; ReqHeader := []; Body := "" |}) w
  = {| StatusCode := 200;
       RespHeader := [("Content-Type", "application/json")];
       RespBody := "{" ++ quoted "status" ++ ":" ++ quoted "ok" ++ "}" ++ LF |}.
Proof. reflexivity. Qed.

(** ** The outbound call *)

(** [callLLM] sends exactly one request, whatever comes back. *)
Lemma callLLM_trace (apiKey p : string) (w : World) :
  trace (callLLM apiKey p) w = [Outbound (llmRequest apiKey p)].
Proof.
  unfold trace, callLLM, bind, send.
  destruct (Do w (llmRequest apiKey p)) as [resp|cause]; [|reflexivity].
  destruct (StatusCode resp >=? 400)%Z; [reflexivity|].
  destruct (Json.Decode store_ChatResponse (RespBody resp) zero_ChatResponse) as [cr [e|]];
    [reflexivity|].
  destruct (Json.elements (Choices cr)); reflexivity.
Qed.

Lemma callLLM_run (apiKey p : string) (w : World) :
  callLLM apiKey p w = (result (callLLM apiKey p) w, [Outbound (llmRequest apiKey p)]).
Proof.
  pose proof (callLLM_trace apiKey p w) as H. unfold result, trace in *.
  destruct (callLLM apiKey p w) as [res t]; simpl in *; subst t; reflexivity.
Qed.

(** ** The handler template *)

(** Every handler is one template: 400 without a call on a body that does
    not decode or has no text; else one call with the endpoint's prompt,
    answered by 500 and a log line when the call fails and by the shaped
    reply when it succeeds. *)
Lemma handler_template (e : endpoint) (apiKey : string) (r : Request) (w : World) :
  handler e apiKey r w =
  match decode_body e (Body r) with
  | (_, Some _) => (Http.Error "invalid JSON body" StatusBadRequest, [])
  | (f, None) =>
    if String.eqb (text f) "" then (Http.Error "`text` is required" StatusBadRequest, [])
    else
      match result (callLLM apiKey (prompt e f)) w with
      | inr err => (Http.Error "LLM error" StatusInternalServerError,
                    [Outbound (llmRequest apiKey (prompt e f)); Logged (Println (log_tag e) err)])
      | inl out => (shape e out, [Outbound (llmRequest apiKey (prompt e f))])
      end
  end.
Proof.
  destruct e; simpl;
    unfold summarizeHandler, keywordsHandler, rewriteHandler, questionsHandler,
           titlesHandler, expandHandler.
  all: match goal with
       | |- context [Json.Decode ?st ?b ?z] => destruct (Json.Decode st b z) as [req [err|]]
       end; simpl; try reflexivity.
  all: match goal with
       | |- context [String.eqb ?t ""] => destruct (String.eqb t "") eqn:Et
       end; try reflexivity.
  all: unfold bind; rewrite callLLM_run; simpl.
  all: match goal with
       | |- context [result ?m ?w] => destruct (result m w) as [out|err]
       end; simpl; try reflexivity.
  all: unfold reply_list; destruct (Json.Unmarshal store_strings out Json.Nil) as [l [e|]];
    reflexivity.
Qed.

Lemma valid_body_run (e : endpoint) (apiKey : string) (r : Request) (w : World) (f : fields) :
  valid_body e (Body r) f ->
  handler e apiKey r w =
  match result (callLLM apiKey (prompt e f)) w with
  | inr err => (Http.Error "LLM error" StatusInternalServerError,
                [Outbound (llmRequest apiKey (prompt e f)); Logged (Println (log_tag e) err)])
  | inl out => (shape e out, [Outbound (llmRequest apiKey (prompt e f))])
  end.
Proof.
  intros [Hd Ht]. rewrite handler_template, Hd.
  destruct (String.eqb (text f) "") eqn:E; [|reflexivity].
  apply String.eqb_eq in E. contradiction.
Qed.

(** A handler calls the upstream exactly when the body is valid, and then
    once. *)
Lemma one_call_iff_valid (e : endpoint) (apiKey : string) (r : Request) (w : World) :
  (exists f, valid_body e (Body r) f
             /\ outbound (trace (handler e apiKey r) w) = [llmRequest apiKey (prompt e f)])
  \/ ((forall f, ~ valid_body e (Body r) f)
      /\ trace (handler e apiKey r) w = []).
Proof.
  unfold trace. rewrite handler_template. unfold valid_body.
  destruct (decode_body e (Body r)) as [f [err|]].
  - right. split; [|reflexivity]. intros f' [H _]. discriminate H.
  - destruct (String.eqb (text f) "") eqn:E.
    + right. split; [|reflexivity]. intros f' [H Hne].
      injection H as <-. apply String.eqb_eq in E. contradiction.
    + left. exists f. split.
      * split; [reflexivity|]. intros H. rewrite H in E. discriminate E.
      * destruct (result (callLLM apiKey (prompt e f)) w); reflexivity.
Qed.

(** Without an API key there is no server. *)
Lemma main_requires_key (indexHTML : string) : main indexHTML "" = None.
Proof. reflexivity. Qed.

(** ** Requests *)

(** A body from which no JSON value can be read does not decode. *)
Lemma malformed_body_rejected (e : endpoint) (body : string) (err : Json.error) :
  Json.readValue body = inr err -> snd (decode_body e body) = Some err.
Proof.
  intros H. destruct e; simpl; unfold Json.Decode; rewrite H; reflexivity.
Qed.

(** A body that is an object without a [tone] member decodes to an empty
    tone. *)
Lemma absent_tone_is_empty (body : string) (members : list (string * Json.value)) :
  Json.readValue body = inl (Json.JObject members) ->
  (forall k v, In (k, v) members -> Json.selects k "tone" = false) ->
  tone (fst (decode_body rewrite body)) = "".
Proof.
  intros Hread Hno. simpl. unfold Json.Decode. rewrite Hread.
  unfold store_RewriteRequest, Json.store_struct.
  set (step := fun (acc : RewriteRequest * bool) (m : string * Json.value) => _).
  assert (Hinv : forall ms acc,
            (forall k v, In (k, v) ms -> Json.selects k "tone" = false) ->
            Tone (fst (fold_left step ms acc)) = Tone (fst acc)).
  { induction ms as [|[k v] ms IH]; intros acc Hms; [reflexivity|].
    simpl. rewrite IH by (intros k' v' Hin; apply (Hms k' v'); right; exact Hin).
    unfold step; simpl.
    rewrite (Hms k v (or_introl eq_refl)).
    destruct (Json.selects k "text"); [|reflexivity].
    destruct (Json.store_string v (RewriteRequest_Text (fst acc))); reflexivity. }
  specialize (Hinv members (zero_RewriteRequest, false) Hno).
  destruct (fold_left step members (zero_RewriteRequest, false)) as [req bad].
  simpl in *. exact Hinv.
Qed.

(** ** The server *)

(** [withMethod] lets only its own method through. *)
Lemma withMethod_other (method : string) (h : HandlerFunc) (r : Request) (w : World) :
  Method r <> method ->
  withMethod method h r w = (Http.Error "method not allowed" StatusMethodNotAllowed, []).
Proof.
  intros H. unfold withMethod.
  destruct (String.eqb (Method r) method) eqn:E; [|reflexivity].
  apply String.eqb_eq in E. contradiction.
Qed.

Lemma withMethod_same (method : string) (h : HandlerFunc) (r : Request) (w : World) :
  Method r = method -> withMethod method h r w = h r w.
Proof.
  intros H. unfold withMethod. rewrite H, String.eqb_refl. reflexivity.
Qed.

(** The mux of [main] serves the path of an endpoint with that endpoint's
    handler behind [withMethod("POST", ...)]. *)
Lemma mux_dispatch (indexHTML apiKey : string) (e : endpoint) (r : Request) (w : World) :
  URL r = path e ->
  ServeHTTP (mux indexHTML apiKey) r w = withMethod "POST" (handler e apiKey) r w.
Proof.
  intros H. unfold ServeHTTP. rewrite H. destruct e; reflexivity.
Qed.

(** ** Reply bodies *)

(** The bytes of a list-shaped 200 reply: a one-field object, the field
    being the encoded slice. *)
Lemma list_response_body (e : endpoint) (l : Json.slice string) (resp : Response) :
  list_response e l = Some resp ->
  RespBody resp
  = "{" ++ quoted (field_name e) ++ ":" ++ Json.encode_slice Json.encode_string l ++ "}" ++ LF.
Proof.
  destruct e; intros H; try discriminate H; injection H as <-.
  all: cbn [RespBody writeJSON field_name]; unfold marshal, Marshal_KeywordsResponse,
         Marshal_QuestionsResponse, Marshal_TitlesResponse, Json.encode_struct, LF;
       cbn [map Json.join fst snd Keywords Questions Titles];
       rewrite !append_assoc; reflexivity.
Qed.

Lemma list_response_status (e : endpoint) (l : Json.slice string) (resp : Response) :
  list_response e l = Some resp -> StatusCode resp = 200%Z.
Proof. destruct e; intros H; try discriminate H; injection H as <-; reflexivity. Qed.

Lemma plain_response_status (e : endpoint) (s : string) (resp : Response) :
  plain_response e s = Some resp -> StatusCode resp = 200%Z.
Proof. destruct e; intros H; try discriminate H; injection H as <-; reflexivity. Qed.

(** The bytes of a plain-text 200 reply. *)
Lemma plain_response_body (e : endpoint) (s : string) (resp : Response) :
  plain_response e s = Some resp ->
  RespBody resp = "{" ++ quoted (field_name e) ++ ":" ++ Json.encode_string s ++ "}" ++ LF.
Proof.
  destruct e; intros H; try discriminate H; injection H as <-.
  all: cbn [RespBody writeJSON field_name]; unfold marshal, Marshal_SummarizeResponse,
         Marshal_RewriteResponse, Marshal_ExpandResponse, Json.encode_struct, LF;
       cbn [map Json.join fst snd Summary RewriteResponse_Text ExpandResponse_Text];
       rewrite !append_assoc; reflexivity.
Qed.

(** ** Replies on the wire *)

Section Replies.

Import Json.

(** The frame of a one-field object around its value. *)
Lemma scan_object_open (e : endpoint) (z : string) :
  scan stateBeginValue [] true ("{" ++ quoted (field_name e) ++ ":" ++ z)
  = scan stateBeginValue [parseObjectValue [] (field_name e)] false z.
Proof. destruct e; reflexivity. Qed.

Lemma scan_object_close (k : string) (v : value) :
  scan stateEndValue [parseObjectKey [(k, v)]] false ("}" ++ LF)
  = Scanned (JObject [(k, v)]) LF.
Proof. reflexivity. Qed.

Lemma scan_array_open (k : string) (z : string) :
  scan stateBeginValue [parseObjectValue [] k] false ("[" ++ z)
  = scan stateBeginValueOrEmpty [parseArrayValue []; parseObjectValue [] k] false z.
Proof. reflexivity. Qed.

Lemma scan_array_close (k : string) (es : list value) (z : string) :
  scan stateEndValue [parseArrayValue es; parseObjectValue [] k] false ("]" ++ z)
  = scan stateEndValue [parseObjectKey [(k, JArray (rev es))]] false z.
Proof. reflexivity. Qed.

Theorem plain_response_read_back (e : endpoint) (s : string) (resp : Response) :
  Utf8.ValidString s = true ->
  plain_response e s = Some resp ->
  checkValid (RespBody resp) = inl (JObject [(field_name e, JString s)]).
Proof.
  intros Hv H. rewrite (plain_response_body e s resp H).
  unfold checkValid, first_value.
  rewrite scan_object_open.
  rewrite (scan_encoded_string stateBeginValue _ s _ (or_introl eq_refl)).
  cbn [deliver]. rewrite (unquote_encode_valid s Hv), scan_object_close. reflexivity.
Qed.

Theorem list_response_read_back (e : endpoint) (l spare : list string) (resp : Response) :
  Forall (fun x => Utf8.ValidString x = true) l ->
  list_response e (Slice l spare) = Some resp ->
  checkValid (RespBody resp) = inl (JObject [(field_name e, JArray (map JString l))]).
Proof.
  intros Hv H. rewrite (list_response_body e _ resp H).
  unfold checkValid, first_value, encode_slice.
  rewrite scan_object_open, !append_assoc, scan_array_open.
  destruct l as [|x l]; [reflexivity|].
  rewrite (scan_string_elements (x :: l) stateBeginValueOrEmpty [] _ _
             (or_intror eq_refl) ltac:(discriminate) Hv).
  rewrite scan_array_close, scan_object_close, app_nil_r, rev_involutive. reflexivity.
Qed.

Theorem nil_response_read_back (e : endpoint) (resp : Response) :
  list_response e Nil = Some resp ->
  checkValid (RespBody resp) = inl (JObject [(field_name e, JNull)]).
Proof.
  intros H. rewrite (list_response_body e _ resp H).
  destruct e; try discriminate H; reflexivity.
Qed.

(** The body of the request [callLLM] sends, read back: an object with the
    model and the two messages, the prompt being the second one's content. *)
Theorem chat_request_read_back (apiKey p : string) :
  Utf8.ValidString p = true ->
  checkValid (Body (llmRequest apiKey p))
  = inl (JObject
           [("model", JString "gpt-4o-mini");
            ("messages",
             JArray
               [JObject [("role", JString "system");
                         ("content", JString "You are a helpful text-processing assistant.")];
                JObject [("role", JString "user"); ("content", JString p)]])]).
Proof.
  intros Hp.
  assert (Hopen : forall z,
    scan stateBeginValue [] true
      ("{" ++ quoted "model" ++ ":" ++ encode_string model ++ "," ++ quoted "messages" ++ ":"
       ++ "[" ++ marshal systemMessage ++ "," ++ "{" ++ quoted "role" ++ ":"
       ++ encode_string "user" ++ "," ++ quoted "content" ++ ":" ++ z)
    = scan stateBeginValue
        [parseObjectValue [("role", JString "user")] "content";
         parseArrayValue
           [JObject [("role", JString "system");
                     ("content", JString "You are a helpful text-processing assistant.")]];
         parseObjectValue [("model", JString "gpt-4o-mini")] "messages"]
        false z) by (intros z; reflexivity).
  assert (Hbody : Body (llmRequest apiKey p)
    = "{" ++ quoted "model" ++ ":" ++ encode_string model ++ "," ++ quoted "messages" ++ ":"
      ++ "[" ++ marshal systemMessage ++ "," ++ "{" ++ quoted "role" ++ ":"
      ++ encode_string "user" ++ "," ++ quoted "content" ++ ":"
      ++ encode_string p ++ "}]}").
  { cbv [llmRequest SetHeader NewRequest Body chatRequest systemMessage marshal
         Marshal_ChatRequest Marshal_slice Marshal_ChatMessage Marshal_string
         encode_struct encode_slice map join fst snd Model Messages Role Content].
    rewrite !append_assoc. reflexivity. }
  unfold checkValid, first_value. rewrite Hbody, Hopen.
  rewrite (scan_encoded_string stateBeginValue _ p _ (or_introl eq_refl)).
  cbn [deliver]. rewrite (unquote_encode_valid p Hp). reflexivity.
Qed.

End Replies.

(** ** Errors *)

(** No text of an error of [callLLM] occurs in the body of the 500 reply. *)
Lemma error_text_not_in_reply (err : LLMError) (t : string) :
  has_text err t ->
  contains (RespBody (Http.Error "LLM error" StatusInternalServerError)) t = false.
Proof.
  intros H. destruct H; reflexivity.
Qed.

(** * The claims *)

(** C1.  On a list-shaped endpoint (keywords, questions, titles), when the
    body is valid with a non-empty text and the outbound client returns a
    reply that is a JSON array of strings, the endpoint answers 200 and its
    list field is the array parsed from the reply, in order.  The body is
    the one-field object with that array: read back as JSON, it gives the
    same strings. *)
Theorem C1_list_field_is_parsed_array
    (e : endpoint) (apiKey : string) (r : Request) (w : World)
    (f : fields) (reply : string) (l : list string) :
  list_shaped e = true ->
  valid_body e (Body r) f ->
  result (callLLM apiKey (prompt e f)) w = inl reply ->
  array_of_strings reply l ->
  StatusCode (result (handler e apiKey r) w) = 200%Z
  /\ list_response e (Json.Slice l []) = Some (result (handler e apiKey r) w)
  /\ RespBody (result (handler e apiKey r) w)
     = "{" ++ quoted (field_name e) ++ ":"
       ++ "[" ++ Json.join "," (map Json.encode_string l) ++ "]" ++ "}" ++ LF
  /\ Json.checkValid (RespBody (result (handler e apiKey r) w))
     = inl (Json.JObject [(field_name e, Json.JArray (map Json.JString l))]).
Proof.
  intros He Hv Hc Ha.
  assert (Hr : list_response e (Json.Slice l []) = Some (result (handler e apiKey r) w)).
  { unfold result. rewrite (valid_body_run e apiKey r w f Hv), Hc. simpl fst.
    destruct e; try discriminate He; simpl;
      rewrite (reply_list_array reply l Ha); reflexivity. }
  split; [exact (list_response_status e _ _ Hr)|]. split; [exact Hr|]. split.
  - rewrite (list_response_body e _ _ Hr). unfold Json.encode_slice, Json.singleton.
    cbn [map Json.join]. rewrite !append_assoc. reflexivity.
  - exact (list_response_read_back e l [] _ (array_of_strings_valid reply l Ha) Hr).
Qed.

Lemma C1_witness :
  StatusCode (result (handler keywords "key" (post "/keywords" (text_body "The sky is blue.")))
                     (canned 200 (completion abc_reply))) = 200%Z
  /\ list_response keywords (Json.Slice ["a"; "b"; "c"] [])
     = Some (result (handler keywords "key" (post "/keywords" (text_body "The sky is blue.")))
                    (canned 200 (completion abc_reply)))
  /\ RespBody (result (handler keywords "key" (post "/keywords" (text_body "The sky is blue.")))
                     (canned 200 (completion abc_reply)))
     = "{" ++ quoted "keywords" ++ ":" ++ abc_reply ++ "}" ++ LF.
Proof.
  destruct (C1_list_field_is_parsed_array keywords "key"
              (post "/keywords" (text_body "The sky is blue."))
              (canned 200 (completion abc_reply)) sky abc_reply ["a"; "b"; "c"])
    as (H1 & H2 & H3 & _).
  - reflexivity.
  - split; [vm_compute; reflexivity | discriminate].
  - vm_compute; reflexivity.
  - vm_compute; reflexivity.
  - split; [exact H1|]. split; [exact H2|]. exact H3.
Defined.

(** C2, as amended.  On a list-shaped endpoint, when the body is valid with
    a non-empty text and the outbound client returns a reply that
    [json.Unmarshal] does not store into a string slice (it is not one JSON
    value, or it is a value other than [null] and other than an array of
    strings and [null]s), the endpoint answers 200 and its list field is
    the one-element list holding the raw reply; read back as JSON, the
    body gives that one string. *)
Theorem C2_fallback_on_unmarshal_error
    (e : endpoint) (apiKey : string) (r : Request) (w : World)
    (f : fields) (reply : string) :
  list_shaped e = true ->
  valid_body e (Body r) f ->
  result (callLLM apiKey (prompt e f)) w = inl reply ->
  tolerated reply = false ->
  StatusCode (result (handler e apiKey r) w) = 200%Z
  /\ list_response e (Json.singleton reply) = Some (result (handler e apiKey r) w)
  /\ RespBody (result (handler e apiKey r) w)
     = "{" ++ quoted (field_name e) ++ ":"
       ++ "[" ++ Json.encode_string reply ++ "]" ++ "}" ++ LF
  /\ Json.checkValid (RespBody (result (handler e apiKey r) w))
     = inl (Json.JObject [(field_name e, Json.JArray [Json.JString reply])]).
Proof.
  intros He Hv Hc Ht.
  assert (Hr : list_response e (Json.singleton reply)
               = Some (result (handler e apiKey r) w)).
  { unfold result. rewrite (valid_body_run e apiKey r w f Hv), Hc. simpl fst.
    destruct e; try discriminate He; simpl;
      rewrite (reply_list_fallback reply Ht); reflexivity. }
  split; [exact (list_response_status e _ _ Hr)|]. split; [exact Hr|]. split.
  - rewrite (list_response_body e _ _ Hr). unfold Json.encode_slice, Json.singleton.
    cbn [map Json.join]. rewrite !append_assoc. reflexivity.
  - pose proof (callLLM_reply_valid _ _ _ _ Hc) as Hl.
    exact (list_response_read_back e [reply] [] _ (Forall_cons _ Hl (Forall_nil _)) Hr).
Qed.

Lemma C2_witness :
  StatusCode (result (handler titles "key" (post "/titles" (text_body "The sky is blue.")))
                     (canned 200 (completion "one two three"))) = 200%Z
  /\ list_response titles (Json.singleton "one two three")
     = Some (result (handler titles "key" (post "/titles" (text_body "The sky is blue.")))
                    (canned 200 (completion "one two three")))
  /\ RespBody (result (handler titles "key" (post "/titles" (text_body "The sky is blue.")))
                     (canned 200 (completion "one two three")))
     = "{" ++ quoted "titles" ++ ":[" ++ quoted "one two three" ++ "]}" ++ LF.
Proof.
  destruct (C2_fallback_on_unmarshal_error titles "key"
              (post "/titles" (text_body "The sky is blue."))
              (canned 200 (completion "one two three")) sky "one two three")
    as (H1 & H2 & H3 & _).
  - reflexivity.
  - split; [vm_compute; reflexivity | discriminate].
  - vm_compute; reflexivity.
  - vm_compute; reflexivity.
  - split; [exact H1|]. split; [exact H2|]. exact H3.
Defined.

(** C2 as stated fails.  The replies [null] and [[null]] are not JSON
    arrays of strings, yet /keywords does not answer with the one-element
    list of the raw reply: its list field is nil for the first and holds
    one empty string for the second. *)
Lemma C2_counterexample :
  let r := post "/keywords" (text_body "The sky is blue.") in
  (list_shaped keywords = true
   /\ valid_body keywords (Body r) sky
   /\ result (callLLM "key" (prompt keywords sky)) (canned 200 (completion "null")) = inl "null"
   /\ (forall l, ~ array_of_strings "null" l)
   /\ list_response keywords (Json.singleton "null")
      <> Some (result (handler keywords "key" r) (canned 200 (completion "null")))
   /\ list_response keywords Json.Nil
      = Some (result (handler keywords "key" r) (canned 200 (completion "null"))))
  /\ (result (callLLM "key" (prompt keywords sky)) (canned 200 (completion "[null]")) = inl "[null]"
      /\ (forall l, ~ array_of_strings "[null]" l)
      /\ list_response keywords (Json.singleton "[null]")
         <> Some (result (handler keywords "key" r) (canned 200 (completion "[null]")))
      /\ list_response keywords (Json.Slice [""] [])
         = Some (result (handler keywords "key" r) (canned 200 (completion "[null]")))).
Proof.
  intros r. repeat split; try (vm_compute; reflexivity); try discriminate.
  all: try (intros l H; vm_compute in H; discriminate H).
  all: try (intros [|s l] H; vm_compute in H; discriminate H).
  all: vm_compute; discriminate.
Qed.

(** C3, as amended.  On each of the six endpoints, when [Decoder.Decode]
    rejects the body (no complete JSON value can be read at its start, or
    that value does not fit the request type), or the body decodes with an
    empty or missing [text], the handler answers 400 and does nothing else:
    no outbound call is made. *)
Theorem C3_bad_request_no_call
    (e : endpoint) (apiKey : string) (r : Request) (w : World) :
  (exists err, Json.readValue (Body r) = inr err)
  \/ snd (decode_body e (Body r)) <> None
  \/ text (fst (decode_body e (Body r))) = "" ->
  StatusCode (result (handler e apiKey r) w) = 400%Z
  /\ trace (handler e apiKey r) w = []
  /\ outbound (trace (handler e apiKey r) w) = [].
Proof.
  intros H.
  assert (H' : snd (decode_body e (Body r)) <> None
               \/ text (fst (decode_body e (Body r))) = "").
  { destruct H as [(err & H)|[H|H]]; [left | left; exact H | right; exact H].
    rewrite (malformed_body_rejected e (Body r) err H). discriminate. }
  clear H. unfold result, trace. rewrite handler_template.
  destruct (decode_body e (Body r)) as [f [err|]]; simpl in *.
  - repeat split; reflexivity.
  - destruct H' as [H|H]; [congruence|]. rewrite H. repeat split; reflexivity.
Qed.

Lemma C3_witness :
  (StatusCode (result (handler expand "key" (post "/expand" "{")) (canned 200 (completion "x"))) = 400%Z
   /\ trace (handler expand "key" (post "/expand" "{")) (canned 200 (completion "x")) = []
   /\ outbound (trace (handler expand "key" (post "/expand" "{")) (canned 200 (completion "x"))) = [])
  /\ (StatusCode (result (handler rewrite "key" (post "/rewrite" "{}")) (canned 200 (completion "x"))) = 400%Z
   /\ trace (handler rewrite "key" (post "/rewrite" "{}")) (canned 200 (completion "x")) = []
   /\ outbound (trace (handler rewrite "key" (post "/rewrite" "{}")) (canned 200 (completion "x"))) = [])
  /\ (StatusCode (result (handler titles "key" (post "/titles" (text_body ""))) (canned 200 (completion "x"))) = 400%Z
   /\ trace (handler titles "key" (post "/titles" (text_body ""))) (canned 200 (completion "x")) = []
   /\ outbound (trace (handler titles "key" (post "/titles" (text_body ""))) (canned 200 (completion "x"))) = []).
Proof.
  split; [|split].
  - apply (C3_bad_request_no_call expand "key" (post "/expand" "{")).
    left. exists Json.UnexpectedEOF. vm_compute. reflexivity.
  - apply (C3_bad_request_no_call rewrite "key" (post "/rewrite" "{}")).
    right. right. vm_compute. reflexivity.
  - apply (C3_bad_request_no_call titles "key" (post "/titles" (text_body ""))).
    right. right. vm_compute. reflexivity.
Defined.

(** C3 as stated fails.  A body that is a complete object followed by a
    stray brace is malformed JSON, yet the decoder reads the object and
    stops there: the handler makes the outbound call and answers 200. *)
Lemma C3_counterexample :
  let body := text_body "hi" ++ " }" in
  let w := canned 200 (completion "- hi") in
  Json.checkValid body = inr Json.SyntaxError
  /\ StatusCode (result (handler summarize "key" (post "/summarize" body)) w) = 200%Z
  /\ outbound (trace (handler summarize "key" (post "/summarize" body)) w)
     = [llmRequest "key" (summarizePrompt "hi")].
Proof.
  vm_compute. repeat split; reflexivity.
Qed.

(** C4, as amended.  When the upstream answers, [callLLM] fails with an
    [UpstreamError] carrying the status code and the body text exactly
    when the status is 400 or more.  On a status below 400 it fails with
    [DecodeError] when [Decoder.Decode] rejects the body (no complete JSON
    value at its start, or a value that does not fit the response type),
    with [EmptyResponseError] when the decoded choice list is empty, and
    otherwise returns the content of the first choice's message. *)
Theorem C4_callLLM_outcome (apiKey p : string) (w : World) (resp : Response)
    (cr : ChatResponse) (derr : option Json.error) :
  Do w (llmRequest apiKey p) = inl resp ->
  Json.Decode store_ChatResponse (RespBody resp) zero_ChatResponse = (cr, derr) ->
  ((exists code body, result (callLLM apiKey p) w = inr (UpstreamError code body))
   <-> (400 <= StatusCode resp)%Z)
  /\ ((400 <= StatusCode resp)%Z ->
      result (callLLM apiKey p) w = inr (UpstreamError (StatusCode resp) (RespBody resp)))
  /\ ((StatusCode resp < 400)%Z ->
      match derr, Json.elements (Choices cr) with
      | Some err, _ => result (callLLM apiKey p) w = inr (DecodeError err)
      | None, [] => result (callLLM apiKey p) w = inr EmptyResponseError
      | None, c :: _ => result (callLLM apiKey p) w = inl (Content (Message c))
      end).
Proof.
  intros Hdo Hdec.
  unfold result, callLLM, bind, send. rewrite Hdo, Hdec.
  destruct (Z.geb_spec (StatusCode resp) 400) as [Hge|Hlt]; simpl.
  - split; [split; [lia | eauto] |]. split; [reflexivity | lia].
  - assert (Hno : forall x : string + LLMError,
               (forall code body, x <> inr (UpstreamError code body)) ->
               (exists code body, x = inr (UpstreamError code body))
               <-> (400 <= StatusCode resp)%Z).
    { intros x Hx. split; [intros (code & body & H); destruct (Hx _ _ H) | lia]. }
    destruct derr as [err|]; [|destruct (Json.elements (Choices cr)) as [|c cs]]; simpl.
    all: split; [apply Hno; intros code body; discriminate|].
    all: split; [lia | reflexivity].
Qed.

Lemma C4_witness :
  result (callLLM "key" "Hello") (canned 503 "overloaded") = inr (UpstreamError 503 "overloaded")
  /\ result (callLLM "key" "Hello") (canned 200 (completion "Hi")) = inl "Hi".
Proof.
  split.
  - apply (C4_callLLM_outcome "key" "Hello" (canned 503 "overloaded")
             {| StatusCode := 503; RespHeader := []; RespBody := "overloaded" |}
             zero_ChatResponse (Some Json.SyntaxError)).
    + reflexivity.
    + vm_compute. reflexivity.
    + simpl. lia.
  - apply (C4_callLLM_outcome "key" "Hello" (canned 200 (completion "Hi"))
             {| StatusCode := 200; RespHeader := []; RespBody := completion "Hi" |}
             {| Choices := Json.Slice
                  [{| Message := {| Role := "assistant"; Content := "Hi" |} |}] [] |}
             None).
    + reflexivity.
    + vm_compute. reflexivity.
    + simpl. lia.
Defined.

(** C4 as stated fails.  The status 101 is not a 2xx or 3xx status, yet
    [callLLM] does not fail with an [UpstreamError] on it: it goes on to
    decode the body (here empty, so the failure is a [DecodeError]).  And
    on status 200 a body that is a complete object followed by other bytes
    is not valid JSON, yet [callLLM] does not fail with a [DecodeError]: the
    decoder reads the object and stops there. *)
Lemma C4_counterexample :
  (success_status 101 = false
   /\ result (callLLM "key" "Hello") (canned 101 "") = inr (DecodeError Json.EOF)
   /\ (forall code body,
         result (callLLM "key" "Hello") (canned 101 "") <> inr (UpstreamError code body)))
  /\ (success_status 200 = true
      /\ Json.checkValid (completion "Hi" ++ " trailing") = inr Json.SyntaxError
      /\ result (callLLM "key" "Hello") (canned 200 (completion "Hi" ++ " trailing")) = inl "Hi").
Proof.
  split.
  - split; [reflexivity|]. split; [vm_compute; reflexivity|].
    intros code body H. vm_compute in H. discriminate H.
  - vm_compute. repeat split; reflexivity.
Qed.

(** C5.  On each of the six endpoints, a request whose method is not POST
    is answered 405 by the server, whatever its body; the handler behind
    the method check does not run, so nothing is sent upstream. *)
Theorem C5_method_not_allowed
    (indexHTML apiKey : string) (serve : HandlerFunc)
    (e : endpoint) (r : Request) (w : World) :
  main indexHTML apiKey = Some serve ->
  URL r = path e ->
  Method r <> "POST" ->
  result (serve r) w = Http.Error "method not allowed" StatusMethodNotAllowed
  /\ StatusCode (result (serve r) w) = 405%Z
  /\ outbound (trace (serve r) w) = []
  /\ (forall body,
        result (serve {| Method := Method r; URL := URL r; ReqHeader := ReqHeader r;
                         Body := body |}) w
        = result (serve r) w).
Proof.
  intros Hmain Hurl Hm. unfold main in Hmain.
  destruct (String.eqb apiKey ""); [discriminate|]. injection Hmain as <-.
  assert (Hrun : forall r', URL r' = path e -> Method r' <> "POST" ->
            logRequest (ServeHTTP (mux indexHTML apiKey)) r' w
            = (Http.Error "method not allowed" StatusMethodNotAllowed,
               [Logged (Printf (Method r') (URL r'))])).
  { intros r' Hu' Hm'. unfold logRequest, bind, log.
    rewrite (mux_dispatch indexHTML apiKey e r' w Hu'), (withMethod_other _ _ _ _ Hm').
    reflexivity. }
  unfold result, trace. rewrite (Hrun r Hurl Hm).
  repeat split. intros body. rewrite Hrun; [reflexivity | exact Hurl | exact Hm].
Qed.

Lemma C5_witness :
  exists serve,
    main "<html></html>" "key" = Some serve
    /\ StatusCode (result (serve {| Method := "GET"; URL := "/summarize"; ReqHeader := [];
                                    Body := text_body "The sky is blue." |})
                          (canned 200 (completion "x"))) = 405%Z.
Proof.
  exists (logRequest (ServeHTTP (mux "<html></html>" "key"))).
  split; [reflexivity|].
  apply (C5_method_not_allowed "<html></html>" "key" _ summarize
           {| Method := "GET"; URL := "/summarize"; ReqHeader := [];
              Body := text_body "The sky is blue." |}).
  - reflexivity.
  - reflexivity.
  - discriminate.
Defined.

(** C6.  On each of the six endpoints, whenever the outbound call fails,
    with whatever error, the endpoint answers 500 with the fixed body
    "LLM error"; the text of the error does not occur in that body, and any
    two failing runs give the same response. *)
Theorem C6_upstream_failure_is_opaque
    (e : endpoint) (apiKey : string) (r : Request) (w : World) (f : fields) (err : LLMError) :
  valid_body e (Body r) f ->
  result (callLLM apiKey (prompt e f)) w = inr err ->
  result (handler e apiKey r) w = Http.Error "LLM error" StatusInternalServerError
  /\ StatusCode (result (handler e apiKey r) w) = 500%Z
  /\ RespBody (result (handler e apiKey r) w) = "LLM error" ++ LF
  /\ (forall t, has_text err t ->
        contains (RespBody (result (handler e apiKey r) w)) t = false)
  /\ (forall w' err',
        result (callLLM apiKey (prompt e f)) w' = inr err' ->
        result (handler e apiKey r) w' = result (handler e apiKey r) w).
Proof.
  intros Hv Hc.
  assert (Hrun : forall w0 err0, result (callLLM apiKey (prompt e f)) w0 = inr err0 ->
            result (handler e apiKey r) w0
            = Http.Error "LLM error" StatusInternalServerError).
  { intros w0 err0 H0. unfold result at 1.
    rewrite (valid_body_run e apiKey r w0 f Hv), H0. reflexivity. }
  rewrite (Hrun w err Hc). repeat split.
  - intros t Ht. exact (error_text_not_in_reply err t Ht).
  - intros w' err' Hc'. exact (Hrun w' err' Hc').
Qed.

Lemma C6_witness :
  result (handler summarize "key" (post "/summarize" (text_body "The sky is blue.")))
         (canned 503 "quota exceeded for sk-secret")
  = Http.Error "LLM error" StatusInternalServerError
  /\ contains (RespBody (result (handler summarize "key"
                                   (post "/summarize" (text_body "The sky is blue.")))
                                (canned 503 "quota exceeded for sk-secret")))
              "OpenAI error: status=503 body=quota exceeded for sk-secret" = false
  /\ result (handler summarize "key" (post "/summarize" (text_body "The sky is blue.")))
            (unreachable "dial tcp: no route to host")
     = result (handler summarize "key" (post "/summarize" (text_body "The sky is blue.")))
              (canned 503 "quota exceeded for sk-secret").
Proof.
  destruct (C6_upstream_failure_is_opaque summarize "key"
              (post "/summarize" (text_body "The sky is blue."))
              (canned 503 "quota exceeded for sk-secret") sky
              (UpstreamError 503 "quota exceeded for sk-secret")) as (H1 & _ & _ & H4 & H5).
  - split; [vm_compute; reflexivity | discriminate].
  - vm_compute; reflexivity.
  - split; [exact H1|]. split.
    + apply H4. exact (text_upstream 503 "quota exceeded for sk-secret").
    + apply (H5 (unreachable "dial tcp: no route to host")
                (TransportError "dial tcp: no route to host")).
      vm_compute; reflexivity.
Defined.

(** C7.  Two bodies for /rewrite with the same text, one whose tone is
    absent or empty and one whose tone is "neutral", behave alike: the same
    prompt is sent upstream and, the upstream being the same, the same
    response comes back; so it is through the server for two POSTs. *)
Theorem C7_absent_tone_is_neutral
    (indexHTML apiKey : string) (r1 r2 : Request) (w : World) (t : string) :
  decode_body rewrite (Body r1) = ({| text := t; tone := "" |}, None) ->
  decode_body rewrite (Body r2) = ({| text := t; tone := "neutral" |}, None) ->
  handler rewrite apiKey r1 w = handler rewrite apiKey r2 w
  /\ (t <> "" ->
      outbound (trace (handler rewrite apiKey r1) w)
      = [llmRequest apiKey (rewritePrompt "neutral" t)]
      /\ outbound (trace (handler rewrite apiKey r2) w)
         = [llmRequest apiKey (rewritePrompt "neutral" t)])
  /\ (forall serve,
        main indexHTML apiKey = Some serve ->
        Method r1 = "POST" -> Method r2 = "POST" ->
        URL r1 = "/rewrite" -> URL r2 = "/rewrite" ->
        serve r1 w = serve r2 w).
Proof.
  intros H1 H2.
  assert (Heq : handler rewrite apiKey r1 w = handler rewrite apiKey r2 w).
  { rewrite !handler_template, H1, H2. reflexivity. }
  split; [exact Heq|]. split.
  - intros Ht. unfold trace.
    rewrite <- Heq, handler_template, H1. simpl text.
    destruct (String.eqb t "") eqn:E; [apply String.eqb_eq in E; contradiction|].
    simpl prompt.
    destruct (result (callLLM apiKey (rewritePrompt "neutral" t)) w); split; reflexivity.
  - intros serve Hmain Hm1 Hm2 Hu1 Hu2. unfold main in Hmain.
    destruct (String.eqb apiKey ""); [discriminate|]. injection Hmain as <-.
    unfold logRequest, bind, log.
    rewrite (mux_dispatch indexHTML apiKey rewrite r1 w Hu1),
            (mux_dispatch indexHTML apiKey rewrite r2 w Hu2).
    rewrite (withMethod_same _ _ _ _ Hm1), (withMethod_same _ _ _ _ Hm2).
    rewrite Heq, Hm1, Hm2, Hu1, Hu2. reflexivity.
Qed.

Lemma C7_witness :
  handler rewrite "key" (post "/rewrite" (text_body "Hello world"))
          (canned 200 (completion "Hello, world."))
  = handler rewrite "key" (post "/rewrite" (text_tone_body "Hello world" "neutral"))
            (canned 200 (completion "Hello, world.")).
Proof.
  refine (proj1 (C7_absent_tone_is_neutral "<html></html>" "key"
                   (post "/rewrite" (text_body "Hello world"))
                   (post "/rewrite" (text_tone_body "Hello world" "neutral"))
                   (canned 200 (completion "Hello, world.")) "Hello world" _ _)).
  - vm_compute; reflexivity.
  - vm_compute; reflexivity.
Defined.

(** C8.  On each endpoint, a request with a non-empty text makes the
    handler send upstream one chat request of exactly two messages, in
    order: the system message "You are a helpful text-processing
    assistant." and one user message whose content is the endpoint's
    prompt template with the text (and, on rewrite, the tone) filled in.
    On summarize that content is "Summarize the following text in 3–5
    bullet points. Be concise and clear.", two line feeds, and the text;
    the template of each of the other five endpoints is given in full as
    well.  Read back as JSON, the request body is the object of the model
    and these two messages. *)
Theorem C8_chat_request_sent
    (e : endpoint) (apiKey : string) (r : Request) (w : World) (f : fields) :
  valid_body e (Body r) f ->
  outbound (trace (handler e apiKey r) w) = [llmRequest apiKey (prompt e f)]
  /\ Body (llmRequest apiKey (prompt e f))
     = marshal {| Model := "gpt-4o-mini";
                  Messages := Json.Slice
                    [ {| Role := "system";
                         Content := "You are a helpful text-processing assistant." |};
                      {| Role := "user"; Content := prompt e f |} ] [] |}
  /\ Json.checkValid (Body (llmRequest apiKey (prompt e f)))
     = inl (Json.JObject
              [("model", Json.JString "gpt-4o-mini");
               ("messages",
                Json.JArray
                  [Json.JObject
                     [("role", Json.JString "system");
                      ("content",
                       Json.JString "You are a helpful text-processing assistant.")];
                   Json.JObject
                     [("role", Json.JString "user");
                      ("content", Json.JString (prompt e f))]])])
  /\ URL (llmRequest apiKey (prompt e f)) = "https://api.openai.com/v1/chat/completions"
  /\ prompt summarize f
     = "Summarize the following text in 3–5 bullet points. Be concise and clear."
       ++ LF ++ LF ++ text f
  /\ prompt keywords f
     = "Extract 5–10 key keywords from the text below." ++ LF
       ++ "Return ONLY a JSON array of strings. Example: ["
       ++ quoted "keyword1" ++ "," ++ quoted "keyword2" ++ "]." ++ LF ++ LF
       ++ "Text:" ++ LF ++ text f
  /\ prompt rewrite f
     = "Rewrite the following text in a "
       ++ (if String.eqb (tone f) "" then "neutral" else tone f)
       ++ " tone. Preserve the original meaning. Respond with ONLY the rewritten text."
       ++ LF ++ LF ++ text f
  /\ prompt questions f
     = "From the text below, generate 5–10 clear, helpful questions." ++ LF
       ++ "Return ONLY a JSON array of strings. Example: ["
       ++ quoted "Question 1?" ++ ", " ++ quoted "Question 2?" ++ "]." ++ LF ++ LF
       ++ "Text:" ++ LF ++ text f
  /\ prompt titles f
     = "Generate 5 concise, engaging title ideas for the text below." ++ LF
       ++ "Return ONLY a JSON array of strings. Example: ["
       ++ quoted "Title 1" ++ ", " ++ quoted "Title 2" ++ "]." ++ LF ++ LF
       ++ "Text:" ++ LF ++ text f
  /\ prompt expand f
     = "Expand and elaborate on the following text." ++ LF
       ++ "Add helpful explanations and details but keep it clear and readable." ++ LF
       ++ "Respond with ONLY the expanded text." ++ LF ++ LF
       ++ "Text:" ++ LF ++ text f.
Proof.
  intros Hv. unfold trace. rewrite (valid_body_run e apiKey r w f Hv).
  split.
  - destruct (result (callLLM apiKey (prompt e f)) w); reflexivity.
  - split; [reflexivity|]. split; [|repeat split; reflexivity].
    apply chat_request_read_back.
    destruct Hv as [Hd _]. pose proof (decode_body_valid e (Body r)) as [Ht Hn].
    rewrite Hd in Ht, Hn. exact (prompt_valid e f Ht Hn).
Qed.

Lemma C8_witness :
  outbound (trace (handler summarize "key" (post "/summarize" (text_body "The sky is blue.")))
                  (canned 200 (completion "- Sky is blue")))
  = [llmRequest "key"
       ("Summarize the following text in 3–5 bullet points. Be concise and clear."
        ++ LF ++ LF ++ "The sky is blue.")].
Proof.
  apply (C8_chat_request_sent summarize "key"
           (post "/summarize" (text_body "The sky is blue."))
           (canned 200 (completion "- Sky is blue")) sky).
  split; [vm_compute; reflexivity | discriminate].
Defined.

(** C9.  On a plain-text endpoint (summarize, rewrite, expand), when the
    body is valid with a non-empty text and the outbound client returns
    the reply [s], the endpoint answers 200 with [s] as its string field,
    unchanged: [summary] on summarize, [text] on rewrite and expand.  The
    body is the one-field object with the JSON encoding of [s]: read back
    as JSON, it gives [s] itself, byte for byte. *)
Theorem C9_plain_reply_wrapped_unmodified
    (e : endpoint) (apiKey : string) (r : Request) (w : World) (f : fields) (s : string) :
  plain_text e = true ->
  valid_body e (Body r) f ->
  result (callLLM apiKey (prompt e f)) w = inl s ->
  StatusCode (result (handler e apiKey r) w) = 200%Z
  /\ plain_response e s = Some (result (handler e apiKey r) w)
  /\ RespBody (result (handler e apiKey r) w)
     = "{" ++ quoted (field_name e) ++ ":" ++ Json.encode_string s ++ "}" ++ LF
  /\ Json.checkValid (RespBody (result (handler e apiKey r) w))
     = inl (Json.JObject [(field_name e, Json.JString s)]).
Proof.
  intros He Hv Hc.
  assert (Hr : plain_response e s = Some (result (handler e apiKey r) w)).
  { unfold result. rewrite (valid_body_run e apiKey r w f Hv), Hc. simpl fst.
    destruct e; try discriminate He; reflexivity. }
  split; [exact (plain_response_status e _ _ Hr)|]. split; [exact Hr|]. split.
  - exact (plain_response_body e s _ Hr).
  - exact (plain_response_read_back e s _ (callLLM_reply_valid _ _ _ _ Hc) Hr).
Qed.

Lemma C9_witness :
  StatusCode (result (handler summarize "key" (post "/summarize" (text_body "The sky is blue.")))
                     (canned 200 (completion "- Sky is blue"))) = 200%Z
  /\ plain_response summarize "- Sky is blue"
     = Some (result (handler summarize "key" (post "/summarize" (text_body "The sky is blue.")))
                    (canned 200 (completion "- Sky is blue")))
  /\ RespBody (result (handler summarize "key" (post "/summarize" (text_body "The sky is blue.")))
                      (canned 200 (completion "- Sky is blue")))
     = "{" ++ quoted "summary" ++ ":" ++ quoted "- Sky is blue" ++ "}" ++ LF.
Proof.
  destruct (C9_plain_reply_wrapped_unmodified summarize "key"
              (post "/summarize" (text_body "The sky is blue."))
              (canned 200 (completion "- Sky is blue")) sky "- Sky is blue")
    as (H1 & H2 & H3 & _).
  - reflexivity.
  - split; [vm_compute; reflexivity | discriminate].
  - vm_compute; reflexivity.
  - split; [exact H1|]. split; [exact H2|]. exact H3.
Defined.

(** C10.  The reply [null] is neither parsed into an array of strings nor
    wrapped as raw text: [json.Unmarshal] stores it into the string slice
    without an error and leaves the slice nil, so a list-shaped endpoint
    answers 200 with its list field written as JSON [null], although the
    call succeeded and the reply was not empty. *)
Theorem C10_null_reply_gives_null_list
    (e : endpoint) (apiKey : string) (r : Request) (w : World) (f : fields) :
  list_shaped e = true ->
  valid_body e (Body r) f ->
  result (callLLM apiKey (prompt e f)) w = inl "null" ->
  Json.Unmarshal store_strings "null" Json.Nil = (Json.Nil, None)
  /\ StatusCode (result (handler e apiKey r) w) = 200%Z
  /\ list_response e Json.Nil = Some (result (handler e apiKey r) w)
  /\ RespBody (result (handler e apiKey r) w)
     = "{" ++ quoted (field_name e) ++ ":null}" ++ LF
  /\ Json.checkValid (RespBody (result (handler e apiKey r) w))
     = inl (Json.JObject [(field_name e, Json.JNull)])
  /\ (forall l, ~ array_of_strings "null" l)
  /\ (forall l spare,
        list_response e (Json.Slice l spare) <> Some (result (handler e apiKey r) w)).
Proof.
  intros He Hv Hc.
  assert (Hr : list_response e Json.Nil = Some (result (handler e apiKey r) w)).
  { unfold result. rewrite (valid_body_run e apiKey r w f Hv), Hc. simpl fst.
    destruct e; try discriminate He; reflexivity. }
  split; [reflexivity|].
  split; [exact (list_response_status e _ _ Hr)|]. split; [exact Hr|]. split.
  { rewrite (list_response_body e _ _ Hr). reflexivity. }
  split; [exact (nil_response_read_back e _ Hr)|]. split.
  - intros l H. vm_compute in H. discriminate H.
  - intros l spare H. rewrite <- Hr in H.
    destruct e; try discriminate He; injection H as H; destruct l; vm_compute in H;
      discriminate H.
Qed.

Lemma C10_witness :
  RespBody (result (handler questions "key" (post "/questions" (text_body "The sky is blue.")))
                   (canned 200 (completion "null")))
  = "{" ++ quoted "questions" ++ ":null}" ++ LF.
Proof.
  apply (C10_null_reply_gives_null_list questions "key" _ _ sky).
  - reflexivity.
  - split; [vm_compute; reflexivity | discriminate].
  - vm_compute; reflexivity.
Defined.

(** * Further properties *)

(** ** The server *)

Lemma mux_subtree (indexHTML apiKey p : string) :
  subtree_match p (mux indexHTML apiKey)
  = if prefix "/" p then Some ("/", uiHandler indexHTML) else None.
Proof.
  unfold subtree_match, mux, HandleFunc, NewServeMux. cbn [app fold_left fst snd].
  change (ends_in_slash "/") with true.
  change (ends_in_slash "/health") with false.
  change (ends_in_slash "/summarize") with false.
  change (ends_in_slash "/keywords") with false.
  change (ends_in_slash "/rewrite") with false.
  change (ends_in_slash "/questions") with false.
  change (ends_in_slash "/titles") with false.
  change (ends_in_slash "/expand") with false.
  cbn [andb]. destruct (prefix "/" p); reflexivity.
Qed.

Lemma mux_unregistered (indexHTML apiKey : string) (r : Request) (w : World) :
  ~ In (URL r) registered ->
  ServeHTTP (mux indexHTML apiKey) r w = (NotFound, []).
Proof.
  intros H. unfold ServeHTTP. rewrite mux_subtree.
  unfold mux, HandleFunc, NewServeMux. cbn [app find fst snd].
  repeat match goal with
  | |- context [String.eqb ?p (URL r)] =>
    destruct (String.eqb_spec p (URL r)) as [E|_];
      [exfalso; apply H; rewrite <- E; simpl; tauto|]
  end.
  destruct (prefix "/" (URL r)); [|reflexivity].
  cbn [snd]. unfold uiHandler.
  destruct (String.eqb_spec (URL r) "/") as [E|_]; [|reflexivity].
  exfalso; apply H; rewrite E; simpl; tauto.
Qed.

Lemma mux_root (indexHTML apiKey : string) (r : Request) (w : World) :
  URL r = "/" -> ServeHTTP (mux indexHTML apiKey) r w = uiHandler indexHTML r w.
Proof. intros H. unfold ServeHTTP. rewrite H. reflexivity. Qed.

Lemma mux_health (indexHTML apiKey : string) (r : Request) (w : World) :
  URL r = "/health" -> ServeHTTP (mux indexHTML apiKey) r w = healthHandler r w.
Proof. intros H. unfold ServeHTTP. rewrite H. reflexivity. Qed.

(** Where the mux of [main] sends a request. *)
Lemma mux_routes (indexHTML apiKey : string) (r : Request) (w : World) :
  (URL r = "/" /\ ServeHTTP (mux indexHTML apiKey) r w = uiHandler indexHTML r w)
  \/ (URL r = "/health" /\ ServeHTTP (mux indexHTML apiKey) r w = healthHandler r w)
  \/ (exists e, URL r = path e
                /\ ServeHTTP (mux indexHTML apiKey) r w
                   = withMethod "POST" (handler e apiKey) r w)
  \/ (~ In (URL r) registered /\ ServeHTTP (mux indexHTML apiKey) r w = (NotFound, [])).
Proof.
  destruct (in_dec string_dec (URL r) registered) as [Hin|Hout].
  - simpl in Hin.
    destruct Hin as [H|[H|[H|[H|[H|[H|[H|[H|[]]]]]]]]]; symmetry in H.
    + left. split; [exact H | exact (mux_root _ _ _ _ H)].
    + right; left. split; [exact H | exact (mux_health _ _ _ _ H)].
    + right; right; left. exists summarize. split; [exact H | exact (mux_dispatch _ _ summarize _ _ H)].
    + right; right; left. exists keywords. split; [exact H | exact (mux_dispatch _ _ keywords _ _ H)].
    + right; right; left. exists rewrite. split; [exact H | exact (mux_dispatch _ _ rewrite _ _ H)].
    + right; right; left. exists questions. split; [exact H | exact (mux_dispatch _ _ questions _ _ H)].
    + right; right; left. exists titles. split; [exact H | exact (mux_dispatch _ _ titles _ _ H)].
    + right; right; left. exists expand. split; [exact H | exact (mux_dispatch _ _ expand _ _ H)].
  - right; right; right. split; [exact Hout | exact (mux_unregistered _ _ _ _ Hout)].
Qed.

(** The run of the server's handler: the request line, then the mux. *)
Lemma serve_run (indexHTML apiKey : string) (serve : HandlerFunc) (r : Request) (w : World) :
  main indexHTML apiKey = Some serve ->
  serve r w = (result (ServeHTTP (mux indexHTML apiKey) r) w,
               Logged (Printf (Method r) (URL r))
               :: trace (ServeHTTP (mux indexHTML apiKey) r) w).
Proof.
  unfold main. destruct (String.eqb apiKey ""); [discriminate|]. intros H; injection H as <-.
  unfold logRequest, bind, log, result, trace.
  destruct (ServeHTTP (mux indexHTML apiKey) r w); reflexivity.
Qed.

Lemma shape_status (e : endpoint) (out : string) : StatusCode (shape e out) = 200%Z.
Proof. destruct e; reflexivity. Qed.

(** X1.  /health is not behind a method check: through the server, a
    request to /health with any method and any body is answered 200 with
    the JSON content type, and nothing is sent upstream.
    For every method but HEAD (to which the server sends no body) the
    body is the JSON object of the one member [status], "ok". *)
Theorem X1_health_any_method
    (indexHTML apiKey : string) (serve : HandlerFunc) (r : Request) (w : World) :
  main indexHTML apiKey = Some serve ->
  URL r = "/health" ->
  StatusCode (result (serve r) w) = 200%Z
  /\ RespHeader (result (serve r) w) = [("Content-Type", "application/json")]
  /\ outbound (trace (serve r) w) = []
  /\ (Method r <> "HEAD" ->
      RespBody (result (serve r) w) = "{" ++ quoted "status" ++ ":" ++ quoted "ok" ++ "}" ++ LF
      /\ Json.checkValid (RespBody (result (serve r) w))
         = inl (Json.JObject [("status", Json.JString "ok")])).
Proof.
  intros Hmain Hurl. unfold result, trace.
  rewrite (serve_run _ _ _ r w Hmain). unfold result, trace.
  rewrite (mux_health indexHTML apiKey r w Hurl).
  repeat split.
Qed.

Lemma X1_witness :
  exists serve,
    main "<html></html>" "key" = Some serve
    /\ StatusCode (result (serve (post "/health" "not json")) (unreachable "down")) = 200%Z
    /\ RespBody (result (serve (post "/health" "not json")) (unreachable "down"))
       = "{" ++ quoted "status" ++ ":" ++ quoted "ok" ++ "}" ++ LF.
Proof.
  exists (logRequest (ServeHTTP (mux "<html></html>" "key"))).
  split; [reflexivity|].
  destruct (X1_health_any_method "<html></html>" "key" _ (post "/health" "not json")
              (unreachable "down") eq_refl eq_refl) as (H1 & _ & _ & H4).
  split; [exact H1|]. apply H4. discriminate.
Defined.

(** X2.  Through the server, a GET of / is answered 200 with the page
    [indexHTML] as it is, as text/html; nothing is sent upstream. *)
Theorem X2_index_page
    (indexHTML apiKey : string) (serve : HandlerFunc) (r : Request) (w : World) :
  main indexHTML apiKey = Some serve ->
  URL r = "/" ->
  Method r = "GET" ->
  result (serve r) w
  = {| StatusCode := 200;
       RespHeader := [("Content-Type", "text/html; charset=utf-8")];
       RespBody := indexHTML |}
  /\ trace (serve r) w = [Logged (Printf "GET" "/")].
Proof.
  intros Hmain Hurl Hm. unfold result, trace.
  rewrite (serve_run _ _ _ r w Hmain). unfold result, trace.
  rewrite (mux_root indexHTML apiKey r w Hurl), Hurl, Hm.
  unfold uiHandler. rewrite Hurl, Hm. split; reflexivity.
Qed.

Lemma X2_witness :
  exists serve,
    main "<html></html>" "key" = Some serve
    /\ RespBody (result (serve {| Method := "GET"; URL := "/"; ReqHeader := []; Body := "" |})
                        (unreachable "down")) = "<html></html>".
Proof.
  exists (logRequest (ServeHTTP (mux "<html></html>" "key"))).
  split; [reflexivity|].
  rewrite (proj1 (X2_index_page "<html></html>" "key" _
                    {| Method := "GET"; URL := "/"; ReqHeader := []; Body := "" |}
                    (unreachable "down") eq_refl eq_refl eq_refl)).
  reflexivity.
Defined.

(** X3.  Through the server, a request whose path (in canonical form) is
    none of the registered ones, and any request to / whose method is not
    GET, is answered 404 whatever the method (not 405), and nothing is
    sent upstream.  For every method but HEAD (to which the server sends
    no body) the response is that of [http.NotFound], with the body "404
    page not found". *)
Theorem X3_not_found
    (indexHTML apiKey : string) (serve : HandlerFunc) (r : Request) (w : World) :
  main indexHTML apiKey = Some serve ->
  canonical (URL r) = true ->
  ~ In (URL r) registered \/ (URL r = "/" /\ Method r <> "GET") ->
  StatusCode (result (serve r) w) = 404%Z
  /\ trace (serve r) w = [Logged (Printf (Method r) (URL r))]
  /\ (Method r <> "HEAD" ->
      result (serve r) w = NotFound
      /\ RespBody (result (serve r) w) = "404 page not found" ++ LF).
Proof.
  intros Hmain _ H. unfold result, trace.
  rewrite (serve_run _ _ _ r w Hmain). unfold result, trace.
  assert (Hrun : ServeHTTP (mux indexHTML apiKey) r w = (NotFound, [])).
  { destruct H as [H|[Hurl Hm]]; [exact (mux_unregistered _ _ _ _ H)|].
    rewrite (mux_root indexHTML apiKey r w Hurl). unfold uiHandler. rewrite Hurl.
    destruct (String.eqb_spec (Method r) MethodGet) as [E|_]; [contradiction|reflexivity]. }
  rewrite Hrun. repeat split.
Qed.

Lemma X3_witness :
  exists serve,
    main "<html></html>" "key" = Some serve
    /\ StatusCode (result (serve (post "/summarize/" (text_body "The sky is blue.")))
                          (canned 200 (completion "x"))) = 404%Z
    /\ StatusCode (result (serve (post "/" "")) (canned 200 (completion "x"))) = 404%Z.
Proof.
  exists (logRequest (ServeHTTP (mux "<html></html>" "key"))).
  split; [reflexivity|]. split.
  - apply (X3_not_found "<html></html>" "key" _
             (post "/summarize/" (text_body "The sky is blue.")) _ eq_refl eq_refl).
    left. simpl. intros H. repeat (destruct H as [H|H]; [discriminate H|]). exact H.
  - apply (X3_not_found "<html></html>" "key" _ (post "/" "") _ eq_refl eq_refl).
    right. split; [reflexivity | discriminate].
Defined.

(** X4.  Through the server, a POST to the path of an endpoint gives the
    response of that endpoint's handler, and does what the handler does
    after one log line for the request. *)
Theorem X4_post_reaches_the_handler
    (indexHTML apiKey : string) (serve : HandlerFunc) (e : endpoint) (r : Request) (w : World) :
  main indexHTML apiKey = Some serve ->
  URL r = path e ->
  Method r = "POST" ->
  result (serve r) w = result (handler e apiKey r) w
  /\ trace (serve r) w = Logged (Printf "POST" (path e)) :: trace (handler e apiKey r) w.
Proof.
  intros Hmain Hurl Hm. unfold result, trace.
  rewrite (serve_run _ _ _ r w Hmain). unfold result, trace.
  rewrite (mux_dispatch indexHTML apiKey e r w Hurl), (withMethod_same _ _ _ _ Hm), Hurl, Hm.
  split; reflexivity.
Qed.

Lemma X4_witness :
  exists serve,
    main "<html></html>" "key" = Some serve
    /\ trace (serve (post "/expand" (text_body "The sky is blue."))) (canned 200 (completion "x"))
       = [Logged (Printf "POST" "/expand");
          Outbound (llmRequest "key" (expandPrompt "The sky is blue."))].
Proof.
  exists (logRequest (ServeHTTP (mux "<html></html>" "key"))).
  split; [reflexivity|].
  rewrite (proj2 (X4_post_reaches_the_handler "<html></html>" "key" _ expand
                    (post "/expand" (text_body "The sky is blue."))
                    (canned 200 (completion "x")) eq_refl eq_refl eq_refl)).
  vm_compute. reflexivity.
Defined.

(** X5.  Whatever the request, the server calls [http.DefaultClient.Do]
    at most once.  It calls it only for a POST to the path of an endpoint
    with a body that decodes to a non-empty text, and the request it
    hands over is a POST addressed to the chat completions URL, with the
    endpoint's prompt.  (The requests the client sends by itself when it
    follows a redirect are not calls of the program.) *)
Theorem X5_client_called_at_most_once
    (indexHTML apiKey : string) (serve : HandlerFunc) (r : Request) (w : World) :
  main indexHTML apiKey = Some serve ->
  (outbound (trace (serve r) w) = []
   \/ exists e f,
        Method r = "POST" /\ URL r = path e /\ valid_body e (Body r) f
        /\ outbound (trace (serve r) w) = [llmRequest apiKey (prompt e f)])
  /\ (forall req, In req (outbound (trace (serve r) w)) ->
                  Method req = "POST" /\ URL req = openAIURL).
Proof.
  intros Hmain.
  assert (H : outbound (trace (serve r) w) = []
              \/ exists e f,
                   Method r = "POST" /\ URL r = path e /\ valid_body e (Body r) f
                   /\ outbound (trace (serve r) w) = [llmRequest apiKey (prompt e f)]).
  { unfold trace. rewrite (serve_run _ _ _ r w Hmain). unfold trace. cbn [snd outbound flat_map app].
    fold (outbound (snd (ServeHTTP (mux indexHTML apiKey) r w))).
    destruct (mux_routes indexHTML apiKey r w) as [[_ ->]|[[_ ->]|[(e & Hurl & ->)|[_ ->]]]].
    - left. unfold uiHandler. destruct (_ || _)%bool; reflexivity.
    - left. reflexivity.
    - destruct (String.eqb_spec (Method r) "POST") as [Hm|Hm].
      + rewrite (withMethod_same _ _ _ _ Hm).
        destruct (one_call_iff_valid e apiKey r w) as [(f & Hv & Ho)|[_ Ht]].
        * right. exists e, f. repeat split; try assumption; apply Hv.
        * left. unfold trace in Ht. rewrite Ht. reflexivity.
      + left. rewrite (withMethod_other _ _ _ _ Hm). reflexivity.
    - left. reflexivity. }
  split; [exact H|].
  intros req Hin. destruct H as [H|(e & f & _ & _ & _ & H)]; rewrite H in Hin.
  - destruct Hin.
  - destruct Hin as [<-|[]]. split; reflexivity.
Qed.

Lemma X5_witness :
  exists serve,
    main "<html></html>" "key" = Some serve
    /\ forall req,
         In req (outbound (trace (serve (post "/titles" (text_body "The sky is blue.")))
                                 (canned 200 (completion "x")))) ->
         Method req = "POST" /\ URL req = openAIURL.
Proof.
  exists (logRequest (ServeHTTP (mux "<html></html>" "key"))).
  split; [reflexivity|].
  exact (proj2 (X5_client_called_at_most_once "<html></html>" "key" _
                  (post "/titles" (text_body "The sky is blue."))
                  (canned 200 (completion "x")) eq_refl)).
Defined.

(** X6.  Whatever the request (its path in canonical form) and whatever
    the upstream does, the status of the server's response is one of 200,
    400, 404, 405 and 500: a status of the upstream is never passed on. *)
Theorem X6_status_codes
    (indexHTML apiKey : string) (serve : HandlerFunc) (r : Request) (w : World) :
  main indexHTML apiKey = Some serve ->
  canonical (URL r) = true ->
  In (StatusCode (result (serve r) w)) statuses.
Proof.
  intros Hmain _. unfold result. rewrite (serve_run _ _ _ r w Hmain). unfold result. cbn [fst].
  destruct (mux_routes indexHTML apiKey r w) as [[_ ->]|[[_ ->]|[(e & Hurl & ->)|[_ ->]]]].
  - unfold uiHandler. destruct (_ || _)%bool; simpl; tauto.
  - simpl; tauto.
  - destruct (String.eqb_spec (Method r) "POST") as [Hm|Hm].
    + rewrite (withMethod_same _ _ _ _ Hm), handler_template.
      destruct (decode_body e (Body r)) as [f [err|]]; [simpl; tauto|].
      destruct (String.eqb (text f) ""); [simpl; tauto|].
      destruct (result (callLLM apiKey (prompt e f)) w) as [out|err]; cbn [fst].
      * rewrite shape_status. simpl; tauto.
      * simpl; tauto.
    + rewrite (withMethod_other _ _ _ _ Hm). simpl; tauto.
  - simpl; tauto.
Qed.

Lemma X6_witness :
  exists serve,
    main "<html></html>" "key" = Some serve
    /\ In (StatusCode (result (serve (post "/titles" (text_body "The sky is blue.")))
                              (canned 429 "slow down"))) statuses
    /\ StatusCode (result (serve (post "/titles" (text_body "The sky is blue.")))
                          (canned 429 "slow down")) = 500%Z.
Proof.
  exists (logRequest (ServeHTTP (mux "<html></html>" "key"))).
  split; [reflexivity|]. split; [|vm_compute; reflexivity].
  exact (X6_status_codes "<html></html>" "key" _
           (post "/titles" (text_body "The sky is blue."))
           (canned 429 "slow down") eq_refl eq_refl).
Defined.

(** ** The handlers *)

(** X7.  The API key goes into the Authorization header of the outbound
    request and nowhere else: the request is a POST to the chat
    completions address with that header and the JSON content type, its
    body is the same for any two keys, and when the upstream answers two
    keys alike the client gets the same response. *)
Theorem X7_key_only_in_authorization
    (e : endpoint) (k1 k2 : string) (r : Request) (w1 w2 : World) :
  (forall p, Do w1 (llmRequest k1 p) = Do w2 (llmRequest k2 p)) ->
  result (handler e k1 r) w1 = result (handler e k2 r) w2
  /\ (forall p,
        ReqHeader (llmRequest k1 p)
        = [("Authorization", "Bearer " ++ k1); ("Content-Type", "application/json")]
        /\ Method (llmRequest k1 p) = "POST"
        /\ URL (llmRequest k1 p) = "https://api.openai.com/v1/chat/completions"
        /\ Body (llmRequest k1 p) = Body (llmRequest k2 p)).
Proof.
  intros Hw. split; [|intros p; repeat split].
  assert (Hc : forall p, result (callLLM k1 p) w1 = result (callLLM k2 p) w2).
  { intros p. unfold result, callLLM, bind, send. rewrite (Hw p).
    destruct (Do w2 (llmRequest k2 p)) as [resp|cause]; [|reflexivity].
    destruct (StatusCode resp >=? 400)%Z; [reflexivity|].
    destruct (Json.Decode store_ChatResponse (RespBody resp) zero_ChatResponse) as [cr [err|]];
      [reflexivity|].
    destruct (Json.elements (Choices cr)); reflexivity. }
  unfold result. rewrite !handler_template.
  destruct (decode_body e (Body r)) as [f [err|]]; [reflexivity|].
  destruct (String.eqb (text f) ""); [reflexivity|].
  rewrite (Hc (prompt e f)).
  destruct (result (callLLM k2 (prompt e f)) w2); reflexivity.
Qed.

Lemma X7_witness :
  result (handler summarize "key-one" (post "/summarize" (text_body "The sky is blue.")))
         (canned 200 (completion "- Sky is blue"))
  = result (handler summarize "key-two" (post "/summarize" (text_body "The sky is blue.")))
           (canned 200 (completion "- Sky is blue")).
Proof.
  refine (proj1 (X7_key_only_in_authorization summarize "key-one" "key-two"
                   (post "/summarize" (text_body "The sky is blue."))
                   (canned 200 (completion "- Sky is blue"))
                   (canned 200 (completion "- Sky is blue")) _)).
  intros p. reflexivity.
Defined.

(** X8.  With a valid body, a handler whose outbound call fails writes one
    log line, its own tag and the error, after the call and before the
    500 reply; it does nothing else.  A transport failure is one such
    error: the client gets the 500 reply and the cause is in the log
    line. *)
Theorem X8_failure_is_logged
    (e : endpoint) (apiKey : string) (r : Request) (w : World) (f : fields) :
  valid_body e (Body r) f ->
  (forall err, result (callLLM apiKey (prompt e f)) w = inr err ->
     trace (handler e apiKey r) w
     = [Outbound (llmRequest apiKey (prompt e f)); Logged (Println (log_tag e) err)])
  /\ (forall cause, Do w (llmRequest apiKey (prompt e f)) = inr cause ->
        result (handler e apiKey r) w = Http.Error "LLM error" StatusInternalServerError
        /\ trace (handler e apiKey r) w
           = [Outbound (llmRequest apiKey (prompt e f));
              Logged (Println (log_tag e) (TransportError cause))]).
Proof.
  intros Hv.
  assert (Hrun := valid_body_run e apiKey r w f Hv).
  split.
  - intros err Hc. unfold trace. rewrite Hrun, Hc. reflexivity.
  - intros cause Hdo.
    assert (Hc : result (callLLM apiKey (prompt e f)) w = inr (TransportError cause)).
    { unfold result, callLLM, bind, send. rewrite Hdo. reflexivity. }
    unfold result at 1, trace. rewrite Hrun, Hc. split; reflexivity.
Qed.

Lemma X8_witness :
  trace (handler keywords "key" (post "/keywords" (text_body "The sky is blue.")))
        (unreachable "dial tcp: no route to host")
  = [Outbound (llmRequest "key" (keywordsPrompt "The sky is blue."));
     Logged (Println "keywords error:" (TransportError "dial tcp: no route to host"))].
Proof.
  refine (proj2 (proj2 (X8_failure_is_logged keywords "key"
                   (post "/keywords" (text_body "The sky is blue."))
                   (unreachable "dial tcp: no route to host") sky _)
                   "dial tcp: no route to host" eq_refl)).
  split; [vm_compute; reflexivity | discriminate].
Defined.

(** X9.  The two 400 replies differ in their text: a body the decoder
    rejects is answered "invalid JSON body", a body that decodes with an
    empty text is answered "`text` is required"; both are plain text with
    the nosniff header. *)
Theorem X9_bad_request_bodies
    (e : endpoint) (apiKey : string) (r : Request) (w : World) :
  (snd (decode_body e (Body r)) <> None ->
   result (handler e apiKey r) w
   = {| StatusCode := 400;
        RespHeader := [("Content-Type", "text/plain; charset=utf-8");
                       ("X-Content-Type-Options", "nosniff")];
        RespBody := "invalid JSON body" ++ LF |})
  /\ (snd (decode_body e (Body r)) = None ->
      text (fst (decode_body e (Body r))) = "" ->
      result (handler e apiKey r) w
      = {| StatusCode := 400;
           RespHeader := [("Content-Type", "text/plain; charset=utf-8");
                          ("X-Content-Type-Options", "nosniff")];
           RespBody := "`text` is required" ++ LF |}).
Proof.
  unfold result. rewrite handler_template.
  destruct (decode_body e (Body r)) as [f [err|]]; simpl.
  - split; [reflexivity | discriminate].
  - split; [congruence|]. intros _ ->. reflexivity.
Qed.

Lemma X9_witness :
  RespBody (result (handler expand "key" (post "/expand" "{")) (canned 200 (completion "x")))
  = "invalid JSON body" ++ LF
  /\ RespBody (result (handler expand "key" (post "/expand" "{}")) (canned 200 (completion "x")))
     = "`text` is required" ++ LF.
Proof.
  split.
  - rewrite (proj1 (X9_bad_request_bodies expand "key" (post "/expand" "{") _)).
    + reflexivity.
    + vm_compute. discriminate.
  - rewrite (proj2 (X9_bad_request_bodies expand "key" (post "/expand" "{}") _)).
    + reflexivity.
    + vm_compute. reflexivity.
    + vm_compute. reflexivity.
Defined.

(** ** Round trips *)

Section RoundTrips.

Import Json.

(** The body [{"text": t}], read by the decoder. *)
Lemma readValue_text_body (t : string) :
  Utf8.ValidString t = true ->
  readValue (text_body t) = inl (JObject [("text", JString t)]).
Proof.
  intros Ht. unfold readValue, first_value, text_body.
  change (scan stateBeginValue [] true ("{" ++ quoted "text" ++ ":" ++ encode_string t ++ "}"))
    with (scan stateBeginValue [parseObjectValue [] "text"] false (encode_string t ++ "}")).
  rewrite (scan_encoded_string stateBeginValue _ t _ (or_introl eq_refl)).
  cbn [deliver]. rewrite (unquote_encode_valid t Ht). reflexivity.
Qed.

Lemma readValue_text_tone_body (t n : string) :
  Utf8.ValidString t = true ->
  Utf8.ValidString n = true ->
  readValue (text_tone_body t n) = inl (JObject [("text", JString t); ("tone", JString n)]).
Proof.
  intros Ht Hn. unfold readValue, first_value, text_tone_body.
  change (scan stateBeginValue [] true
            ("{" ++ quoted "text" ++ ":" ++ encode_string t ++ ","
             ++ quoted "tone" ++ ":" ++ encode_string n ++ "}"))
    with (scan stateBeginValue [parseObjectValue [] "text"] false
            (encode_string t ++ "," ++ quoted "tone" ++ ":" ++ encode_string n ++ "}")).
  rewrite (scan_encoded_string stateBeginValue _ t _ (or_introl eq_refl)).
  cbn [deliver]. rewrite (unquote_encode_valid t Ht).
  change (scan stateEndValue [parseObjectKey [("text", JString t)]] false
            ("," ++ quoted "tone" ++ ":" ++ encode_string n ++ "}"))
    with (scan stateBeginValue [parseObjectValue [("text", JString t)] "tone"] false
            (encode_string n ++ "}")).
  rewrite (scan_encoded_string stateBeginValue _ n _ (or_introl eq_refl)).
  cbn [deliver]. rewrite (unquote_encode_valid n Hn). reflexivity.
Qed.

Lemma decode_text_body (e : endpoint) (t : string) :
  Utf8.ValidString t = true ->
  decode_body e (text_body t) = ({| text := t; tone := "" |}, None).
Proof.
  intros Ht. unfold decode_body, Decode. rewrite (readValue_text_body t Ht).
  destruct e; reflexivity.
Qed.

Lemma decode_text_tone_body (t n : string) :
  Utf8.ValidString t = true ->
  Utf8.ValidString n = true ->
  decode_body rewrite (text_tone_body t n) = ({| text := t; tone := n |}, None).
Proof.
  intros Ht Hn. unfold decode_body, Decode. rewrite (readValue_text_tone_body t n Ht Hn).
  reflexivity.
Qed.

(** A completion body, read by the decoder. *)
Lemma readValue_completion (s : string) :
  Utf8.ValidString s = true ->
  readValue (completion s)
  = inl (JObject
           [("choices",
             JArray [JObject [("message",
                               JObject [("role", JString "assistant");
                                        ("content", JString s)])]])]).
Proof.
  intros Hs. unfold readValue, first_value, completion.
  change (scan stateBeginValue [] true
            ("{" ++ quoted "choices" ++ ":[{" ++ quoted "message" ++ ":{"
             ++ quoted "role" ++ ":" ++ quoted "assistant" ++ ","
             ++ quoted "content" ++ ":" ++ encode_string s ++ "}}]}"))
    with (scan stateBeginValue
            [parseObjectValue [("role", JString "assistant")] "content";
             parseObjectValue [] "message";
             parseArrayValue [];
             parseObjectValue [] "choices"] false
            (encode_string s ++ "}}]}")).
  rewrite (scan_encoded_string stateBeginValue _ s _ (or_introl eq_refl)).
  cbn [deliver]. rewrite (unquote_encode_valid s Hs). reflexivity.
Qed.

End RoundTrips.

(** X10.  What a client encodes is what the prompt holds: for a
    non-empty, well-formed UTF-8 text [t], the body [{"text": t}] is
    accepted by every endpoint and the one outbound call carries the
    endpoint's prompt with [t] byte for byte; on /rewrite the body
    [{"text": t, "tone": n}] gives the prompt with [t] and [n]. *)
Theorem X10_request_text_round_trip
    (e : endpoint) (apiKey : string) (r : Request) (w : World) (t n : string) :
  Utf8.ValidString t = true ->
  Utf8.ValidString n = true ->
  t <> "" ->
  (Body r = text_body t ->
   valid_body e (Body r) {| text := t; tone := "" |}
   /\ outbound (trace (handler e apiKey r) w)
      = [llmRequest apiKey (prompt e {| text := t; tone := "" |})])
  /\ (Body r = text_tone_body t n ->
      valid_body rewrite (Body r) {| text := t; tone := n |}
      /\ outbound (trace (handler rewrite apiKey r) w)
         = [llmRequest apiKey (prompt rewrite {| text := t; tone := n |})]).
Proof.
  intros Ht Hn Hne.
  assert (Hsent : forall e' f, valid_body e' (Body r) f ->
            outbound (trace (handler e' apiKey r) w) = [llmRequest apiKey (prompt e' f)]).
  { intros e' f Hv. unfold trace. rewrite (valid_body_run e' apiKey r w f Hv).
    destruct (result (callLLM apiKey (prompt e' f)) w); reflexivity. }
  split; intros Hb.
  - assert (Hv : valid_body e (Body r) {| text := t; tone := "" |}).
    { split; [rewrite Hb; exact (decode_text_body e t Ht) | exact Hne]. }
    split; [exact Hv | exact (Hsent _ _ Hv)].
  - assert (Hv : valid_body rewrite (Body r) {| text := t; tone := n |}).
    { split; [rewrite Hb; exact (decode_text_tone_body t n Ht Hn) | exact Hne]. }
    split; [exact Hv | exact (Hsent _ _ Hv)].
Qed.

Lemma X10_witness :
  outbound (trace (handler rewrite "key"
                     (post "/rewrite" (text_tone_body "Tom & Jerry <3" "formal")))
                  (canned 200 (completion "x")))
  = [llmRequest "key" (rewritePrompt "formal" "Tom & Jerry <3")].
Proof.
  refine (proj2 (proj2 (X10_request_text_round_trip rewrite "key"
                   (post "/rewrite" (text_tone_body "Tom & Jerry <3" "formal"))
                   (canned 200 (completion "x")) "Tom & Jerry <3" "formal" _ _ _) eq_refl)).
  - reflexivity.
  - reflexivity.
  - discriminate.
Defined.

(** X11.  When the upstream answers with a status below 400 and the body
    of a chat completion with one choice whose content encodes the
    well-formed UTF-8 string [s], [callLLM] returns [s] itself. *)
Theorem X11_completion_content_returned
    (apiKey p : string) (w : World) (resp : Response) (s : string) :
  Do w (llmRequest apiKey p) = inl resp ->
  (StatusCode resp < 400)%Z ->
  RespBody resp = completion s ->
  Utf8.ValidString s = true ->
  result (callLLM apiKey p) w = inl s.
Proof.
  intros Hdo Hst Hb Hs. unfold result, callLLM, bind, send. rewrite Hdo.
  destruct (Z.geb_spec (StatusCode resp) 400) as [Hge|_]; [lia|].
  unfold Json.Decode. rewrite Hb, (readValue_completion s Hs). reflexivity.
Qed.

Lemma X11_witness :
  result (callLLM "key" "Hello") (canned 200 (completion "Tom & Jerry <3")) = inl "Tom & Jerry <3".
Proof.
  apply (X11_completion_content_returned "key" "Hello" _
           {| StatusCode := 200; RespHeader := []; RespBody := completion "Tom & Jerry <3" |}).
  - reflexivity.
  - simpl. lia.
  - reflexivity.
  - reflexivity.
Defined.

(** ** List replies *)

Lemma store_cells_texts (items : list Json.value) :
  forallb string_or_null items = true ->
  Json.store_cells "" Json.store_string items [] = (map element_text items, false).
Proof.
  induction items as [|v items IH]; intros H; [reflexivity|].
  simpl in H. apply andb_true_iff in H. destruct H as [Hv Hi].
  cbn [Json.store_cells tl map]. rewrite (IH Hi).
  destruct v; try discriminate Hv; reflexivity.
Qed.

Lemma reply_list_texts (reply : string) (items : list Json.value) :
  Json.checkValid reply = inl (Json.JArray items) ->
  forallb string_or_null items = true ->
  reply_list reply = Json.Slice (map element_text items) [].
Proof.
  intros Hc Hi. unfold reply_list, Json.Unmarshal, store_strings. rewrite Hc.
  destruct items as [|v items]; [reflexivity|].
  unfold Json.store_slice. rewrite (store_cells_texts (v :: items) Hi). reflexivity.
Qed.

(** X12.  On a list-shaped endpoint, a reply that is an array of strings
    and [null]s is not wrapped as raw text: the list field holds the
    strings in order, with an empty string in the place of each [null]. *)
Theorem X12_null_elements_become_empty
    (e : endpoint) (apiKey : string) (r : Request) (w : World)
    (f : fields) (reply : string) (items : list Json.value) :
  list_shaped e = true ->
  valid_body e (Body r) f ->
  result (callLLM apiKey (prompt e f)) w = inl reply ->
  Json.checkValid reply = inl (Json.JArray items) ->
  forallb string_or_null items = true ->
  list_response e (Json.Slice (map element_text items) [])
  = Some (result (handler e apiKey r) w).
Proof.
  intros He Hv Hc Ha Hi.
  unfold result. rewrite (valid_body_run e apiKey r w f Hv), Hc. simpl fst.
  destruct e; try discriminate He; simpl; rewrite (reply_list_texts reply items Ha Hi);
    reflexivity.
Qed.

Lemma X12_witness :
  list_response questions (Json.Slice ["Why?"; ""] [])
  = Some (result (handler questions "key" (post "/questions" (text_body "The sky is blue.")))
                 (canned 200 (completion ("[" ++ quoted "Why?" ++ ",null]")))).
Proof.
  apply (X12_null_elements_become_empty questions "key"
           (post "/questions" (text_body "The sky is blue."))
           (canned 200 (completion ("[" ++ quoted "Why?" ++ ",null]"))) sky
           ("[" ++ quoted "Why?" ++ ",null]") [Json.JString "Why?"; Json.JNull]).
  - reflexivity.
  - split; [vm_compute; reflexivity | discriminate].
  - vm_compute; reflexivity.
  - vm_compute; reflexivity.
  - reflexivity.
Defined.

Lemma reply_list_ok (out : string) :
  Utf8.ValidString out = true -> slice_ok valid_string (reply_list out).
Proof.
  intros Ho. unfold reply_list, Json.Unmarshal.
  destruct (Json.checkValid out) as [v|err] eqn:Hc.
  - pose proof (store_strings_keeps v Json.Nil (checkValid_ok out v Hc) I) as Hk.
    destruct (store_strings v Json.Nil) as [l bad]. simpl in Hk.
    destruct bad; [|exact Hk].
    split; [constructor; [exact Ho | constructor] | constructor].
  - split; [constructor; [exact Ho | constructor] | constructor].
Qed.

(** X13.  Whatever the upstream's reply, the 200 response of an endpoint
    has the JSON content type and a body that is one JSON object with one
    member, named after the endpoint's field: the reply itself on a
    plain-text endpoint, and [null] or an array of strings on a
    list-shaped one. *)
Theorem X13_success_body_shape
    (e : endpoint) (apiKey : string) (r : Request) (w : World) (f : fields) (out : string) :
  valid_body e (Body r) f ->
  result (callLLM apiKey (prompt e f)) w = inl out ->
  StatusCode (result (handler e apiKey r) w) = 200%Z
  /\ RespHeader (result (handler e apiKey r) w) = [("Content-Type", "application/json")]
  /\ exists v,
       Json.checkValid (RespBody (result (handler e apiKey r) w))
       = inl (Json.JObject [(field_name e, v)])
       /\ (list_shaped e = true -> null_or_strings v)
       /\ (list_shaped e = false -> v = Json.JString out).
Proof.
  intros Hv Hc.
  assert (Hr : result (handler e apiKey r) w = shape e out).
  { unfold result. rewrite (valid_body_run e apiKey r w f Hv), Hc. reflexivity. }
  pose proof (callLLM_reply_valid _ _ _ _ Hc) as Ho.
  rewrite Hr. split; [apply shape_status|]. split; [destruct e; reflexivity|].
  destruct (list_shaped e) eqn:He.
  - pose proof (reply_list_ok out Ho) as Hl.
    assert (Hs : list_response e (reply_list out) = Some (shape e out))
      by (destruct e; try discriminate He; reflexivity).
    destruct (reply_list out) as [|l spare].
    + exists Json.JNull. split; [exact (nil_response_read_back e _ Hs)|].
      split; [intros _; left; reflexivity | discriminate].
    + exists (Json.JArray (map Json.JString l)).
      split; [exact (list_response_read_back e l spare _ (proj1 Hl) Hs)|].
      split; [intros _; right; exists l; reflexivity | discriminate].
  - exists (Json.JString out).
    assert (Hs : plain_response e out = Some (shape e out))
      by (destruct e; try discriminate He; reflexivity).
    split; [exact (plain_response_read_back e out _ Ho Hs)|].
    split; [discriminate | reflexivity].
Qed.

Lemma X13_witness :
  StatusCode (result (handler keywords "key" (post "/keywords" (text_body "The sky is blue.")))
                     (canned 200 (completion "{}"))) = 200%Z.
Proof.
  refine (proj1 (X13_success_body_shape keywords "key"
                   (post "/keywords" (text_body "The sky is blue."))
                   (canned 200 (completion "{}")) sky "{}" _ _)).
  - split; [vm_compute; reflexivity | discriminate].
  - vm_compute; reflexivity.
Defined.

(** ** The bytes written *)

Section Inert.

Import Json.

Lemma all_bytes_append (p : ascii -> bool) (a b : string) :
  all_bytes p (a ++ b) = (all_bytes p a && all_bytes p b)%bool.
Proof.
  induction a as [|c a IH]; [reflexivity|].
  cbn [append all_bytes]. rewrite IH, andb_assoc. reflexivity.
Qed.

Lemma encode_ascii_inert (c : ascii) :
  (byte_of c <? 128)%N = true -> all_bytes inert (encode_ascii c) = true.
Proof.
  intros H. destruct c as [[] [] [] [] [] [] [] []]; try discriminate H; reflexivity.
Qed.

Lemma high_inert (c : ascii) : (byte_of c <? 128)%N = false -> inert c = true.
Proof.
  intros H. destruct c as [[] [] [] [] [] [] [] []]; try discriminate H; reflexivity.
Qed.

(** The encoder writes no byte below 32 and no [<], [>] or [&]. *)
Lemma encode_from_inert (s : string) :
  forall m, mode_ok m s -> all_bytes inert (encode_from m s) = true.
Proof.
  induction s as [|c rest IH]; intros m Hm; [reflexivity|].
  assert (Hplain : all_bytes inert (encode_from Plain (String c rest)) = true).
  { destruct (byte_of c <? 128)%N eqn:Hc.
    - rewrite (encode_plain_ascii c rest Hc), all_bytes_append,
        (encode_ascii_inert c Hc), (IH Plain I). reflexivity.
    - cbn [encode_from]. rewrite Hc.
      destruct (Utf8.rune_len (String c rest)) as [|n] eqn:Hn.
      + rewrite all_bytes_append, (IH Plain I). reflexivity.
      + assert (Hcopy : all_bytes inert (String c (encode_from (Copy n) rest)) = true).
        { cbn [all_bytes]. rewrite (high_inert c Hc).
          exact (IH (Copy n) (rune_len_copying c rest n Hc Hn)). }
        destruct (Utf8.rune3 (String c rest)) as [r|]; [|exact Hcopy].
        destruct (N.eqb r 8232 || N.eqb r 8233)%bool eqn:Hr; [|exact Hcopy].
        apply orb_true_iff in Hr.
        destruct Hr as [Hr|Hr]; apply N.eqb_eq in Hr; subst r;
          rewrite all_bytes_append; cbn; apply (IH (Skip 2) I). }
  destruct m as [|[|k]|[|k]].
  - exact Hplain.
  - rewrite encode_skip0. exact Hplain.
  - cbn [encode_from]. apply IH. exact I.
  - rewrite encode_copy0. exact Hplain.
  - cbn [encode_from all_bytes]. destruct Hm as [Hc Hk].
    rewrite (high_inert c Hc). apply IH. exact Hk.
Qed.

Lemma encode_string_inert (s : string) : all_bytes inert (encode_string s) = true.
Proof.
  unfold encode_string, quoted. cbn [all_bytes].
  rewrite all_bytes_append, (encode_from_inert s Plain I). reflexivity.
Qed.

Lemma encode_strings_inert (l : list string) :
  all_bytes inert (join "," (map encode_string l)) = true.
Proof.
  induction l as [|x [|y l] IH]; [reflexivity | exact (encode_string_inert x) |].
  change (join "," (map encode_string (x :: y :: l)))
    with (encode_string x ++ "," ++ join "," (map encode_string (y :: l))).
  rewrite !all_bytes_append, encode_string_inert, IH. reflexivity.
Qed.

Lemma encode_slice_inert (l : slice string) :
  all_bytes inert (encode_slice encode_string l) = true.
Proof.
  destruct l as [|es spare]; [reflexivity|].
  unfold encode_slice. rewrite !all_bytes_append, encode_strings_inert. reflexivity.
Qed.

Lemma field_name_inert (e : endpoint) : all_bytes inert (quoted (field_name e)) = true.
Proof. destruct e; reflexivity. Qed.

(** Every 200 reply is one line of such bytes. *)
Lemma shape_inert (e : endpoint) (out : string) :
  exists line, RespBody (shape e out) = line ++ LF /\ all_bytes inert line = true.
Proof.
  destruct (list_shaped e) eqn:He.
  - assert (Hs : list_response e (reply_list out) = Some (shape e out))
      by (destruct e; try discriminate He; reflexivity).
    exists ("{" ++ quoted (field_name e) ++ ":"
            ++ encode_slice encode_string (reply_list out) ++ "}").
    split.
    + rewrite (list_response_body e _ _ Hs), !append_assoc. reflexivity.
    + rewrite !all_bytes_append, field_name_inert, encode_slice_inert. reflexivity.
  - assert (Hs : plain_response e out = Some (shape e out))
      by (destruct e; try discriminate He; reflexivity).
    exists ("{" ++ quoted (field_name e) ++ ":" ++ encode_string out ++ "}").
    split.
    + rewrite (plain_response_body e _ _ Hs), !append_assoc. reflexivity.
    + rewrite !all_bytes_append, field_name_inert, encode_string_inert. reflexivity.
Qed.

Lemma llmRequest_body (apiKey p : string) :
  Body (llmRequest apiKey p)
  = "{" ++ quoted "model" ++ ":" ++ encode_string model ++ "," ++ quoted "messages" ++ ":"
    ++ "[" ++ marshal systemMessage ++ "," ++ "{" ++ quoted "role" ++ ":"
    ++ encode_string "user" ++ "," ++ quoted "content" ++ ":"
    ++ encode_string p ++ "}]}".
Proof.
  cbv [llmRequest SetHeader NewRequest Body chatRequest systemMessage marshal
       Marshal_ChatRequest Marshal_slice Marshal_ChatMessage Marshal_string
       encode_struct encode_slice map join fst snd Model Messages Role Content].
  rewrite !append_assoc. reflexivity.
Qed.

Lemma llmRequest_inert (apiKey p : string) :
  all_bytes inert (Body (llmRequest apiKey p)) = true.
Proof.
  rewrite llmRequest_body.
  rewrite !all_bytes_append, !encode_string_inert. reflexivity.
Qed.

End Inert.

(** X14.  The JSON the program writes holds no byte below 32 (no raw
    line feed, tab or other C0 control) and no [<], [>] or [&], whatever
    the text: those are written as escapes.  So the body of a 200
    response is one line of such bytes and a line feed, and the body of
    the outbound request is made of such bytes only.  (The byte 127 is
    written as it is.) *)
Theorem X14_json_written_is_inert
    (e : endpoint) (apiKey : string) (r : Request) (w : World) (f : fields) (out : string) :
  valid_body e (Body r) f ->
  result (callLLM apiKey (prompt e f)) w = inl out ->
  (exists line,
     RespBody (result (handler e apiKey r) w) = line ++ LF /\ all_bytes inert line = true)
  /\ all_bytes inert (Body (llmRequest apiKey (prompt e f))) = true.
Proof.
  intros Hv Hc. split; [|apply llmRequest_inert].
  unfold result. rewrite (valid_body_run e apiKey r w f Hv), Hc. apply shape_inert.
Qed.

Lemma X14_witness :
  all_bytes inert (Body (llmRequest "key" (summarizePrompt "<b>Tom & Jerry</b>"))) = true.
Proof.
  refine (proj2 (X14_json_written_is_inert summarize "key"
                   (post "/summarize" (text_body "<b>Tom & Jerry</b>"))
                   (canned 200 (completion "<i>cat</i>"))
                   {| text := "<b>Tom & Jerry</b>"; tone := "" |} "<i>cat</i>" _ _)).
  - split; [vm_compute; reflexivity | discriminate].
  - vm_compute; reflexivity.
Defined.

(** ** What the decoder leaves unread, and what it skips *)

Section Prefix.

Import Json.

Lemma deliver_clean (v : value) (stack : list frame) : verdict_clean (deliver v stack).
Proof. destruct stack as [|[es|ms|ms k] up]; try exact I. destruct v; exact I. Qed.

Lemma end_value_clean (stack : list frame) (c : ascii) : verdict_clean (end_value stack c).
Proof.
  unfold end_value. destruct (isSpace c); [exact I|].
  destruct stack as [|[es|ms|ms k] up]; try exact I.
  - destruct (Ascii.eqb c ","); [exact I|]. destruct (Ascii.eqb c "]"); [|exact I].
    apply deliver_clean.
  - destruct (Ascii.eqb c ","); [exact I|]. destruct (Ascii.eqb c "}"); [|exact I].
    apply deliver_clean.
Qed.

Lemma begin_string_clean (stack : list frame) (c : ascii) :
  verdict_clean (begin_string stack c).
Proof.
  unfold begin_string. destruct (isSpace c); [exact I|]. destruct (Ascii.eqb c dquote); exact I.
Qed.

Lemma begin_value_clean (stack : list frame) (c : ascii) :
  verdict_clean (begin_value stack c).
Proof.
  unfold begin_value, pushParseState.
  repeat match goal with
         | |- verdict_clean (if ?b then _ else _) => destruct b
         end; first [exact I | reflexivity].
Qed.

Lemma end_number_clean (lit : list ascii) (stack : list frame) (c : ascii) :
  verdict_clean (end_number lit stack c).
Proof.
  unfold end_number.
  destruct (deliver (JNumber (string_of_rev lit)) stack); try exact I. apply end_value_clean.
Qed.

Lemma step_clean (st : state) (stack : list frame) (c : ascii) :
  literal_clean st -> verdict_clean (step st stack c).
Proof.
  intros Hst.
  destruct st as [ | | | | | | body | body | seen body
                   | lit | lit | lit | lit | lit | lit | lit | lit | expect v];
    cbn [step];
    repeat match goal with
           | |- verdict_clean (if ?b then _ else _) => destruct b
           end;
    try exact I;
    try apply begin_value_clean; try apply end_value_clean; try apply begin_string_clean;
    try apply end_number_clean; try apply deliver_clean.
  - destruct c as [[] [] [] [] [] [] [] []]; exact I.
  - destruct seen as [|[|[|seen]]]; exact I.
  - cbn [literal_clean] in Hst.
    destruct expect as [|x [|y more]]; try exact I;
      destruct (Ascii.eqb c x); try exact I; try apply deliver_clean.
    cbn [all_bytes] in Hst. apply andb_true_iff in Hst. exact (proj2 Hst).
Qed.

Lemma end_number_space (lit : list ascii) (stack : list frame) :
  ends_number (end_number lit stack " ").
Proof. destruct stack as [|[es|ms|ms k] up]; try exact I; reflexivity. Qed.

Lemma step_space (st : state) (stack : list frame) :
  literal_clean st -> ends_number (step st stack " ").
Proof.
  intros Hst.
  destruct st as [ | | | | | | body | body | seen body
                   | lit | lit | lit | lit | lit | lit | lit | lit | expect v];
    try exact I; try apply end_number_space.
  cbn [literal_clean] in Hst. cbn [step].
  destruct expect as [|x [|y more]]; try exact I.
  - destruct (Ascii.eqb_spec " " x) as [<-|_]; [discriminate Hst | exact I].
  - destruct (Ascii.eqb " " x); exact I.
Qed.

(** A value that is not a number is complete at its last byte: the bytes
    that follow it play no part in scanning it. *)
Lemma scan_prefix (b : string) :
  forall st stack blank v rest z,
    literal_clean st ->
    scan st stack blank b = Scanned v rest ->
    is_number v = false ->
    scan st stack blank (b ++ z) = Scanned v (rest ++ z).
Proof.
  induction b as [|c b IH]; intros st stack blank v rest z Hst H Hv.
  - cbn [scan] in H. unfold eof in H.
    pose proof (step_space st stack Hst) as Hsp.
    destruct (step st stack " ") as [st' stack'|v' c'|]; try discriminate H.
    injection H as <- <-. cbn [ends_number] in Hsp. congruence.
  - cbn [append scan] in *.
    pose proof (step_clean st stack c Hst) as Hc.
    destruct (step st stack c) as [st' stack'|v' consumed|]; try discriminate H.
    + exact (IH _ _ _ _ _ z Hc H Hv).
    + injection H as <- <-. destruct consumed; reflexivity.
Qed.

Lemma readValue_prefix (b z : string) (v : value) :
  readValue b = inl v -> is_number v = false -> readValue (b ++ z) = inl v.
Proof.
  unfold readValue, first_value. intros H Hv.
  destruct (scan stateBeginValue [] true b) as [v' rest|err] eqn:Hs; [|discriminate H].
  injection H as ->.
  rewrite (scan_prefix b stateBeginValue [] true v rest z I Hs Hv). reflexivity.
Qed.

End Prefix.

(** X15.  Once the body of a request starts with a complete JSON object,
    the bytes after that object play no part: the handler decodes the
    same fields and behaves the same, whatever follows. *)
Theorem X15_bytes_after_the_object_are_ignored
    (e : endpoint) (apiKey : string) (r1 r2 : Request) (w : World)
    (members : list (string * Json.value)) (z : string) :
  Json.readValue (Body r1) = inl (Json.JObject members) ->
  Body r2 = Body r1 ++ z ->
  decode_body e (Body r2) = decode_body e (Body r1)
  /\ handler e apiKey r2 w = handler e apiKey r1 w.
Proof.
  intros Hr Hb.
  assert (Hrv : Json.readValue (Body r2) = Json.readValue (Body r1)).
  { rewrite Hb, Hr. exact (readValue_prefix _ z _ Hr eq_refl). }
  assert (Hd : decode_body e (Body r2) = decode_body e (Body r1)).
  { destruct e; unfold decode_body, Json.Decode; rewrite Hrv; reflexivity. }
  split; [exact Hd|]. rewrite !handler_template, Hd. reflexivity.
Qed.

Lemma X15_witness :
  handler summarize "key" (post "/summarize" (text_body "The sky is blue." ++ "]]} trailing"))
          (canned 200 (completion "- Sky is blue"))
  = handler summarize "key" (post "/summarize" (text_body "The sky is blue."))
            (canned 200 (completion "- Sky is blue")).
Proof.
  refine (proj2 (X15_bytes_after_the_object_are_ignored summarize "key"
                   (post "/summarize" (text_body "The sky is blue."))
                   (post "/summarize" (text_body "The sky is blue." ++ "]]} trailing"))
                   (canned 200 (completion "- Sky is blue"))
                   [("text", Json.JString "The sky is blue.")] "]]} trailing" _ _)).
  - vm_compute. reflexivity.
  - reflexivity.
Defined.

(** X16.  On /rewrite, a valid body that is an object without a member
    for [tone] decodes to an empty tone, and the prompt sent asks for the
    "neutral" tone. *)
Theorem X16_body_without_tone_is_neutral
    (apiKey : string) (r : Request) (w : World)
    (members : list (string * Json.value)) (f : fields) :
  Json.readValue (Body r) = inl (Json.JObject members) ->
  (forall k v, In (k, v) members -> Json.selects k "tone" = false) ->
  valid_body rewrite (Body r) f ->
  tone f = ""
  /\ outbound (trace (handler rewrite apiKey r) w)
     = [llmRequest apiKey (rewritePrompt "neutral" (text f))].
Proof.
  intros Hr Hno Hv.
  pose proof (absent_tone_is_empty (Body r) members Hr Hno) as Ht.
  rewrite (proj1 Hv) in Ht. simpl in Ht.
  split; [exact Ht|].
  unfold trace. rewrite (valid_body_run rewrite apiKey r w f Hv).
  cbn [prompt]. rewrite Ht. cbn [String.eqb].
  destruct (result (callLLM apiKey (rewritePrompt "neutral" (text f))) w); reflexivity.
Qed.

Lemma X16_witness :
  outbound (trace (handler rewrite "key" (post "/rewrite" (text_body "The sky is blue.")))
                  (canned 200 (completion "x")))
  = [llmRequest "key" (rewritePrompt "neutral" "The sky is blue.")].
Proof.
  refine (proj2 (X16_body_without_tone_is_neutral "key"
                   (post "/rewrite" (text_body "The sky is blue."))
                   (canned 200 (completion "x"))
                   [("text", Json.JString "The sky is blue.")] sky _ _ _)).
  - vm_compute. reflexivity.
  - intros k v [H|[]]. injection H as <- _. vm_compute. reflexivity.
  - split; [vm_compute; reflexivity | discriminate].
Defined.

Section Members.

Import Json.

(** Once an [UnmarshalTypeError] is saved it stays saved. *)
Lemma store_struct_sticky {T} (field : string -> option (store T))
      (ms : list (string * value)) (acc : T * bool) :
  snd acc = true ->
  snd (fold_left
         (fun (acc : T * bool) (m : string * value) =>
            match field (fst m) with
            | Some st => let '(x, bad) := st (snd m) (fst acc) in (x, (snd acc || bad)%bool)
            | None => acc
            end) ms acc) = true.
Proof.
  revert acc; induction ms as [|m ms IH]; intros acc H; [exact H|].
  cbn [fold_left]. apply IH.
  destruct (field (fst m)) as [st|]; [|exact H].
  destruct (st (snd m) (fst acc)) as [x bad]. cbn [snd]. rewrite H. reflexivity.
Qed.

(** A member of the wrong type makes the whole object an error. *)
Lemma store_struct_wrong_type {T} (field : string -> option (store T))
      (ms : list (string * value)) (k : string) (v : value) (st : store T) (cur : T) :
  In (k, v) ms ->
  field k = Some st ->
  (forall x, snd (st v x) = true) ->
  snd (store_struct field (JObject ms) cur) = true.
Proof.
  intros Hin Hf Hbad. unfold store_struct.
  generalize (cur, false). induction ms as [|m ms IH]; intros acc; [destruct Hin|].
  cbn [fold_left]. destruct Hin as [->|Hin]; [|apply IH; exact Hin].
  apply store_struct_sticky. cbn [fst snd]. rewrite Hf.
  specialize (Hbad (fst acc)). destruct (st v (fst acc)) as [x bad].
  cbn [snd] in *. rewrite Hbad. apply orb_true_r.
Qed.

Lemma store_string_wrong_type (v : value) (x : string) :
  string_or_null v = false -> snd (store_string v x) = true.
Proof. destruct v; try discriminate; reflexivity. Qed.

End Members.

(** X17.  When the same field occurs more than once in the request
    object, the last occurrence wins: if the body decodes without an
    error and the last member of its object is a non-empty string under a
    key that selects [text] (in any letter case), the handler takes that
    string as the text, whatever the earlier members hold, and sends the
    prompt made of it. *)
Theorem X17_last_text_member_wins
    (e : endpoint) (apiKey : string) (r : Request) (w : World)
    (members : list (string * Json.value)) (k t : string) :
  Json.readValue (Body r) = inl (Json.JObject (members ++ [(k, Json.JString t)])) ->
  Json.selects k "text" = true ->
  snd (decode_body e (Body r)) = None ->
  t <> "" ->
  exists f,
    valid_body e (Body r) f
    /\ text f = t
    /\ outbound (trace (handler e apiKey r) w) = [llmRequest apiKey (prompt e f)].
Proof.
  intros Hr Hk Hd Hne.
  assert (Ht : text (fst (decode_body e (Body r))) = t).
  { clear Hd.
    destruct e; unfold decode_body, Json.Decode; rewrite Hr;
      unfold store_TextRequest, store_RewriteRequest, Json.store_struct;
      rewrite fold_left_app; cbn [fold_left fst snd]; rewrite Hk;
      match goal with
      | |- context [fold_left ?g members ?a] => destruct (fold_left g members a) as [req bad]
      end; cbn [fst snd Json.store_string]; destruct bad; reflexivity. }
  destruct (decode_body e (Body r)) as [f err] eqn:E. cbn [fst snd] in *. subst err.
  assert (Hv : valid_body e (Body r) f).
  { split; [exact E | rewrite Ht; exact Hne]. }
  exists f. split; [exact Hv|]. split; [exact Ht|].
  unfold trace. rewrite (valid_body_run e apiKey r w f Hv).
  destruct (result (callLLM apiKey (prompt e f)) w); reflexivity.
Qed.

Lemma X17_witness :
  exists f,
    valid_body summarize
      (Body (post "/summarize" ("{" ++ quoted "text" ++ ":" ++ quoted "first" ++ ","
                                ++ quoted "TEXT" ++ ":" ++ quoted "second" ++ "}"))) f
    /\ text f = "second"
    /\ outbound (trace (handler summarize "key"
                          (post "/summarize" ("{" ++ quoted "text" ++ ":" ++ quoted "first" ++ ","
                                              ++ quoted "TEXT" ++ ":" ++ quoted "second" ++ "}")))
                       (canned 200 (completion "x")))
       = [llmRequest "key" (prompt summarize f)].
Proof.
  apply (X17_last_text_member_wins summarize "key" _ _
           [("text", Json.JString "first")] "TEXT" "second").
  - vm_compute. reflexivity.
  - vm_compute. reflexivity.
  - vm_compute. reflexivity.
  - discriminate.
Defined.

Lemma Decode_wrong_type {T} (st : Json.store T) (body : string) (x : T) (v : Json.value) :
  Json.readValue body = inl v ->
  snd (st v x) = true ->
  snd (Json.Decode st body x) = Some Json.UnmarshalTypeError.
Proof.
  intros Hr Hb. unfold Json.Decode. rewrite Hr.
  destruct (st v x) as [x' bad]. cbn [snd] in *. rewrite Hb. reflexivity.
Qed.

(** X18.  A member that selects [text] and is neither a string nor [null]
    makes the request invalid, wherever it stands in the object and
    whatever the other members are: the handler answers 400 "invalid JSON
    body" and makes no outbound call. *)
Theorem X18_wrong_type_is_rejected
    (e : endpoint) (apiKey : string) (r : Request) (w : World)
    (members : list (string * Json.value)) (k : string) (v : Json.value) :
  Json.readValue (Body r) = inl (Json.JObject members) ->
  In (k, v) members ->
  Json.selects k "text" = true ->
  string_or_null v = false ->
  snd (decode_body e (Body r)) = Some Json.UnmarshalTypeError
  /\ result (handler e apiKey r) w = Http.Error "invalid JSON body" StatusBadRequest
  /\ trace (handler e apiKey r) w = [].
Proof.
  intros Hr Hin Hk Hv.
  assert (Hd : snd (decode_body e (Body r)) = Some Json.UnmarshalTypeError).
  { destruct e; unfold decode_body; cbn [snd]; apply (Decode_wrong_type _ _ _ _ Hr).
    all: unfold store_TextRequest, store_RewriteRequest.
    all: eapply store_struct_wrong_type;
           [exact Hin | cbn beta; rewrite Hk; reflexivity |].
    all: intros x; destruct v; try discriminate Hv; reflexivity. }
  split; [exact Hd|].
  unfold result, trace. rewrite handler_template.
  destruct (decode_body e (Body r)) as [f [err|]]; [split; reflexivity | discriminate Hd].
Qed.

Lemma X18_witness :
  result (handler titles "key"
            (post "/titles" ("{" ++ quoted "text" ++ ":5," ++ quoted "text" ++ ":" ++ quoted "hi" ++ "}")))
         (canned 200 (completion "x"))
  = Http.Error "invalid JSON body" StatusBadRequest.
Proof.
  refine (proj1 (proj2 (X18_wrong_type_is_rejected titles "key"
            (post "/titles" ("{" ++ quoted "text" ++ ":5," ++ quoted "text" ++ ":" ++ quoted "hi" ++ "}"))
            (canned 200 (completion "x"))
            [("text", Json.JNumber "5"); ("text", Json.JString "hi")]
            "text" (Json.JNumber "5") _ _ _ _))).
  - vm_compute. reflexivity.
  - left. reflexivity.
  - vm_compute. reflexivity.
  - reflexivity.
Defined.

Section Choices.

Import Json.

(** Members that select no field leave the variable as it is. *)
Lemma store_struct_skips {T} (field : string -> option (store T))
      (ms : list (string * value)) (cur : T) :
  (forall k v, In (k, v) ms -> field k = None) ->
  store_struct field (JObject ms) cur = (cur, false).
Proof.
  intros H. unfold store_struct.
  induction ms as [|[k v] ms IH]; [reflexivity|].
  cbn [fold_left fst snd]. rewrite (H k v (or_introl eq_refl)).
  apply IH. intros k' v' Hin. apply (H k' v'). right. exact Hin.
Qed.

End Choices.

(** X19.  When the upstream answers with a status below 400 and a body
    that is a JSON object without a member for [choices], [callLLM] fails
    with "no choices from LLM". *)
Theorem X19_object_without_choices
    (apiKey p : string) (w : World) (resp : Response)
    (members : list (string * Json.value)) :
  Do w (llmRequest apiKey p) = inl resp ->
  (StatusCode resp < 400)%Z ->
  Json.readValue (RespBody resp) = inl (Json.JObject members) ->
  (forall k v, In (k, v) members -> Json.selects k "choices" = false) ->
  result (callLLM apiKey p) w = inr EmptyResponseError.
Proof.
  intros Hdo Hst Hr Hno. unfold result, callLLM, bind, send. rewrite Hdo.
  destruct (Z.geb_spec (StatusCode resp) 400) as [Hge|_]; [lia|].
  unfold Json.Decode. rewrite Hr. unfold store_ChatResponse.
  rewrite store_struct_skips; [reflexivity|].
  intros k v Hin. cbn beta. rewrite (Hno k v Hin). reflexivity.
Qed.

Lemma X19_witness :
  result (callLLM "key" "Hello")
         (canned 200 ("{" ++ quoted "error" ++ ":" ++ quoted "quota" ++ "}"))
  = inr EmptyResponseError.
Proof.
  apply (X19_object_without_choices "key" "Hello" _
           {| StatusCode := 200; RespHeader := [];
              RespBody := "{" ++ quoted "error" ++ ":" ++ quoted "quota" ++ "}" |}
           [("error", Json.JString "quota")]).
  - reflexivity.
  - simpl. lia.
  - vm_compute. reflexivity.
  - intros k v [H|[]]. injection H as <- _. vm_compute. reflexivity.
Defined.

(** ** Strings that come from JSON *)

(** X20.  Whatever bytes a request body or an upstream response holds, the
    strings the program takes from them are well-formed UTF-8 (the decoder
    puts U+FFFD in the place of every byte that is not): the text and the
    tone a handler reads, the prompt it builds from them, and the reply
    [callLLM] returns. *)
Theorem X20_decoded_strings_are_well_formed
    (e : endpoint) (body apiKey p : string) (w : World) :
  Utf8.ValidString (text (fst (decode_body e body))) = true
  /\ Utf8.ValidString (tone (fst (decode_body e body))) = true
  /\ Utf8.ValidString (prompt e (fst (decode_body e body))) = true
  /\ (forall out, result (callLLM apiKey p) w = inl out -> Utf8.ValidString out = true).
Proof.
  destruct (decode_body_valid e body) as [Ht Hn].
  split; [exact Ht|]. split; [exact Hn|]. split.
  - exact (prompt_valid e _ Ht Hn).
  - intros out Hc. exact (callLLM_reply_valid apiKey p w out Hc).
Qed.

Lemma X20_witness :
  Utf8.ValidString (String "255" "") = false
  /\ Utf8.ValidString
       (text (fst (decode_body summarize
                     ("{" ++ quoted "text" ++ ":" ++ quoted (String "255" "") ++ "}")))) = true.
Proof.
  split; [reflexivity|].
  exact (proj1 (X20_decoded_strings_are_well_formed summarize
                  ("{" ++ quoted "text" ++ ":" ++ quoted (String "255" "") ++ "}")
                  "key" "Hello" (canned 200 ""))).
Defined.
